(** * PointCloudViewer: the .lssnap decoder, the subject filter, the camera
    framer, the annotation overlay builder and the trackball frame loop

    Shallow embedding of [src/components/PointCloudViewer.tsx] (both the
    orbit and the trackball variant of the component).

    JavaScript numbers are IEEE 754 binary64 values; they are modelled with
    the executable specification of [SpecFloat] at precision 53 and maximal
    exponent 1024.  A [Float32Array] slot holds a binary32 value, which
    reads back as the binary64 number of the same value. *)

From Stdlib Require Import ZArith QArith Qabs Lia Bool.
From Stdlib Require Import Floats.SpecFloat Strings.Byte.
From stdpp Require Import base list strings.

Local Open Scope Z_scope.
#[local] Set Warnings "-register-all".

(** ** JavaScript numbers *)

Module Js.

Abbreviation num := spec_float.

Definition prec64 : Z := 53.
Definition emax64 : Z := 1024.
Definition prec32 : Z := 24.
Definition emax32 : Z := 128.

Definition NaN : num := S754_nan.
Definition Infinity : num := S754_infinity false.
Definition NegInfinity : num := S754_infinity true.

(** An integer as a number (exact below 2^53, rounded to nearest above). *)
Definition of_Z (z : Z) : num := binary_normalize prec64 emax64 z 0 false.

Definition add : num -> num -> num := SFadd prec64 emax64.
Definition sub : num -> num -> num := SFsub prec64 emax64.
Definition mul : num -> num -> num := SFmul prec64 emax64.
Definition div : num -> num -> num := SFdiv prec64 emax64.
Definition neg : num -> num := SFopp.

(** The decimal literal [m]e[-k] for [0 <= k]: both the integer [m] and the
    power of ten are taken as exact operands of one correctly rounded
    division, so the result is the binary64 number nearest to m / 10^k. *)
Definition exact (z : Z) : num :=
  match z with
  | Z0 => S754_zero false
  | Zpos p => S754_finite false p 0
  | Zneg p => S754_finite true p 0
  end.

Definition lit (m : Z) (k : Z) : num := div (exact m) (exact (10 ^ k)).

(** Comparisons: every comparison with NaN is false. *)
Definition ltb (x y : num) : bool := SFltb x y.
Definition leb (x y : num) : bool := SFleb x y.
Definition gtb (x y : num) : bool := SFltb y x.
Definition geb (x y : num) : bool := SFleb y x.
Definition eqb (x y : num) : bool := SFeqb x y.

(** ToBoolean of a number: [0], [-0] and [NaN] are falsy. *)
Definition truthy (x : num) : bool :=
  match x with
  | S754_zero _ | S754_nan => false
  | _ => true
  end.

(** [Math.fround]: the binary32 number nearest to [x], read back as a
    binary64 number.  This is what storing into a [Float32Array] slot and
    loading it again does. *)
Definition narrow (x : num) : spec_float :=
  match x with
  | S754_finite s m e => binary_round prec32 emax32 s m e
  | _ => x
  end.

Definition widen (x : spec_float) : num :=
  match x with
  | S754_finite s m e => binary_round prec64 emax64 s m e
  | _ => x
  end.

Definition fround (x : num) : num := widen (narrow x).

(** [Math.max] and [Math.min] of two numbers: NaN if either is NaN, and
    [+0] is larger than [-0]. *)
Definition max2 (x y : num) : num :=
  match SFcompare x y with
  | None => NaN
  | Some Lt => y
  | Some Gt => x
  | Some Eq =>
      match x, y with
      | S754_zero true, S754_zero false => y
      | _, _ => x
      end
  end.

Definition min2 (x y : num) : num :=
  match SFcompare x y with
  | None => NaN
  | Some Lt => x
  | Some Gt => y
  | Some Eq =>
      match x, y with
      | S754_zero false, S754_zero true => y
      | _, _ => x
      end
  end.

(** [Math.max(a, b, c)] folds from [-Infinity]. *)
Definition max3 (a b c : num) : num := max2 (max2 (max2 NegInfinity a) b) c.

(** The rational value of a finite number (0 for the others). *)
Definition to_Q (x : num) : Q :=
  match x with
  | S754_finite s m e =>
      let z := if s then Zneg m else Zpos m in
      match e with
      | Zneg p => Qmake z (2 ^ p)%positive
      | _ => Qmake (z * 2 ^ e) 1
      end
  | _ => 0%Q
  end.

Definition is_finite (x : num) : bool :=
  match x with
  | S754_finite _ _ _ | S754_zero _ => true
  | _ => false
  end.

(** *** Exceptions and results *)

Inductive exn : Type :=
  | Error_not_lssnap (magic : list Z) (version : Z)
      (* new Error('Not a valid .lssnap file (magic: ' + magic + version + ')') *)
  | RangeError   (* DataView offset out of bounds, invalid typed array length *)
  | SyntaxError  (* JSON.parse *)
  | TypeError.

Inductive result (A : Type) : Type :=
  | Ok (a : A)
  | Throw (e : exn).
Arguments Ok {A} a.
Arguments Throw {A} e.

Definition bind {A B : Type} (r : result A) (k : A -> result B) : result B :=
  match r with
  | Ok a => k a
  | Throw e => Throw e
  end.

(** [try { body } catch { }] with a default value. *)
Definition try_catch {A : Type} (body : result A) (default : A) : A :=
  match body with
  | Ok a => a
  | Throw _ => default
  end.

Definition is_format_error {A : Type} (r : result A) : bool :=
  match r with
  | Throw (Error_not_lssnap _ _) => true
  | _ => false
  end.

Definition returns {A : Type} (r : result A) : bool :=
  match r with
  | Ok _ => true
  | Throw _ => false
  end.

End Js.

Notation "'let!' x ':=' e 'in' k" := (Js.bind e (fun x => k))
  (at level 10, x name, e at level 100, k at level 200).

(** ** ArrayBuffer and DataView *)

Module DataView.

Import Js.

(** An [ArrayBuffer] is its sequence of bytes. *)
Abbreviation buffer := (list byte).

Definition byteLength (b : buffer) : Z := Z.of_nat (length b).

Definition byte_at (b : buffer) (off : Z) : option Z :=
  if off <? 0 then None
  else (fun x => Z.of_N (Byte.to_N x)) <$> (b !! Z.to_nat off).

Definition getUint8 (b : buffer) (off : Z) : result Z :=
  match byte_at b off with
  | Some v => Ok v
  | None => Throw RangeError
  end.

Definition to_signed (bits : Z) (u : Z) : Z :=
  if u <? 2 ^ (bits - 1) then u else u - 2 ^ bits.

(** [view.getInt16(off, true)]: two bytes, least significant first. *)
Definition getInt16 (b : buffer) (off : Z) : result Z :=
  match byte_at b off, byte_at b (off + 1) with
  | Some b0, Some b1 => Ok (to_signed 16 (b0 + 256 * b1))
  | _, _ => Throw RangeError
  end.

(** [view.getInt32(off, true)]: four bytes, least significant first. *)
Definition getInt32 (b : buffer) (off : Z) : result Z :=
  match byte_at b off, byte_at b (off + 1), byte_at b (off + 2), byte_at b (off + 3) with
  | Some b0, Some b1, Some b2, Some b3 =>
      Ok (to_signed 32 (b0 + 256 * b1 + 65536 * b2 + 16777216 * b3))
  | _, _, _, _ => Throw RangeError
  end.

(** [new Uint8Array(buffer, off, len)]: a view on [len] bytes from [off];
    a RangeError when the range leaves the buffer. *)
Definition Uint8Array_view (b : buffer) (off len : Z) : result (list byte) :=
  if (off <? 0) || (len <? 0) || (byteLength b <? off + len) then Throw RangeError
  else Ok (take (Z.to_nat len) (drop (Z.to_nat off) b)).

(** [new Float32Array(n)]: [n] zeros; a RangeError for a negative length
    (running out of memory is not modelled). *)
Definition Float32Array_new (n : Z) : result (list num) :=
  if n <? 0 then Throw RangeError
  else Ok (replicate (Z.to_nat n) (S754_zero false)).

(** [a[i] = v] on a [Float32Array]: the stored value is rounded to
    binary32; a store outside the array is ignored. *)
Definition Float32Array_set (a : list num) (i : Z) (v : num) : list num :=
  if i <? 0 then a else <[Z.to_nat i := fround v]> a.

(** [a[i]] read as a number: [undefined] outside the array, which every use
    in this program coerces to NaN. *)
Definition Float32Array_get (a : list num) (i : Z) : num :=
  if i <? 0 then NaN else default NaN (a !! Z.to_nat i).

End DataView.

(** ** TextDecoder and JSON.parse

    Both are built-ins of the JavaScript engine.  The decoder follows the
    UTF-8 decoder of the Encoding standard in its default (replacement)
    mode; the parser follows the JSON grammar of ECMA-404 that
    [JSON.parse] implements.  Strings are sequences of UTF-16 code units. *)

Module Json.

Import Js.

Inductive value : Type :=
  | JNull
  | JBool (b : bool)
  | JNum (x : num)
  | JStr (s : list Z)
  | JArr (items : list value)
  | JObj (members : list (list Z * value)).

(** The code units of an ASCII string literal of the program text. *)
Fixpoint str (s : String.string) : list Z :=
  match s with
  | String.EmptyString => []
  | String.String c r => Z.of_N (Ascii.N_of_ascii c) :: str r
  end.

Fixpoint str_eqb (a b : list Z) : bool :=
  match a, b with
  | [], [] => true
  | x :: a', y :: b' => (x =? y) && str_eqb a' b'
  | _, _ => false
  end.

(** *** UTF-8 decoding, replacement mode *)

Record utf8_state : Type := {
  code_point : Z;
  bytes_needed : Z;
  lower : Z;
  upper : Z
}.

Definition utf8_init : utf8_state :=
  {| code_point := 0; bytes_needed := 0; lower := 128; upper := 191 |}.

(** A byte read when no sequence is open: the code points emitted and the
    next state. *)
Definition utf8_lead (b : Z) : list Z * utf8_state :=
  if b <=? 127 then ([b], utf8_init)
  else if (194 <=? b) && (b <=? 223) then
    ([], {| code_point := Z.land b 31; bytes_needed := 1; lower := 128; upper := 191 |})
  else if (224 <=? b) && (b <=? 239) then
    ([], {| code_point := Z.land b 15; bytes_needed := 2;
            lower := if b =? 224 then 160 else 128;
            upper := if b =? 237 then 159 else 191 |})
  else if (240 <=? b) && (b <=? 244) then
    ([], {| code_point := Z.land b 7; bytes_needed := 3;
            lower := if b =? 240 then 144 else 128;
            upper := if b =? 244 then 143 else 191 |})
  else ([65533], utf8_init).

Definition utf8_step (st : utf8_state) (b : Z) : list Z * utf8_state :=
  if bytes_needed st =? 0 then utf8_lead b
  else if (b <? lower st) || (upper st <? b) then
    (* the open sequence is replaced and the byte is read again *)
    let '(out, st') := utf8_lead b in (65533 :: out, st')
  else
    let cp := Z.lor (Z.shiftl (code_point st) 6) (Z.land b 63) in
    if bytes_needed st =? 1 then ([cp], utf8_init)
    else ([], {| code_point := cp; bytes_needed := bytes_needed st - 1;
                 lower := 128; upper := 191 |}).

Fixpoint utf8_run (st : utf8_state) (bs : list byte) : list Z :=
  match bs with
  | [] => if bytes_needed st =? 0 then [] else [65533]
  | b :: r =>
      let '(out, st') := utf8_step st (Z.of_N (Byte.to_N b)) in
      out ++ utf8_run st' r
  end.

Definition strip_bom (cps : list Z) : list Z :=
  match cps with
  | 65279 :: r => r
  | _ => cps
  end.

Definition utf16_units (cp : Z) : list Z :=
  if cp <? 65536 then [cp]
  else [55296 + Z.shiftr (cp - 65536) 10; 56320 + Z.land (cp - 65536) 1023].

(** [new TextDecoder().decode(bytes)]. *)
Definition TextDecoder_decode (bs : list byte) : list Z :=
  concat (utf16_units <$> strip_bom (utf8_run utf8_init bs)).

(** *** The JSON grammar *)

Definition is_ws (c : Z) : bool := (c =? 32) || (c =? 9) || (c =? 10) || (c =? 13).

Fixpoint skip_ws (s : list Z) : list Z :=
  match s with
  | c :: r => if is_ws c then skip_ws r else s
  | [] => []
  end.

Definition is_digit (c : Z) : bool := (48 <=? c) && (c <=? 57).

(** The digits at the head of [s]: their value appended to [acc], how many
    there are, and the rest. *)
Fixpoint digits (s : list Z) (acc : Z) (n : Z) : Z * Z * list Z :=
  match s with
  | c :: r => if is_digit c then digits r (10 * acc + (c - 48)) (n + 1) else (acc, n, s)
  | [] => (acc, n, [])
  end.

(** The number [m * 10^e], correctly rounded; [neg] gives the sign of a zero. *)
Definition decimal (neg : bool) (m : Z) (e : Z) : num :=
  if m =? 0 then S754_zero neg
  else
    let sm := if neg then - m else m in
    if 0 <=? e then binary_normalize prec64 emax64 (sm * 10 ^ e) 0 false
    else div (exact sm) (exact (10 ^ (- e))).

Definition parse_int_part (s : list Z) : option (Z * list Z) :=
  match s with
  | 48 :: r => Some (0, r)
  | c :: _ =>
      if is_digit c then let '(m, _, r) := digits s 0 0 in Some (m, r) else None
  | [] => None
  end.

Definition parse_frac_part (m : Z) (s : list Z) : option (Z * Z * list Z) :=
  match s with
  | 46 :: r =>
      let '(m', n, r') := digits r m 0 in
      if n =? 0 then None else Some (m', n, r')
  | _ => Some (m, 0, s)
  end.

Definition parse_exp_part (s : list Z) : option (Z * list Z) :=
  match s with
  | c :: r =>
      if (c =? 101) || (c =? 69) then
        let '(sg, r1) :=
          match r with
          | 43 :: r1 => (1, r1)
          | 45 :: r1 => (-1, r1)
          | _ => (1, r)
          end in
        let '(e, n, r2) := digits r1 0 0 in
        if n =? 0 then None else Some (sg * e, r2)
      else Some (0, s)
  | [] => Some (0, [])
  end.

Definition parse_number (s : list Z) : option (num * list Z) :=
  let '(neg, s1) := match s with 45 :: r => (true, r) | _ => (false, s) end in
  '(m, s2) ← parse_int_part s1;
  '(m', n, s3) ← parse_frac_part m s2;
  '(e, s4) ← parse_exp_part s3;
  Some (decimal neg m' (e - n), s4).

Definition hex_digit (c : Z) : option Z :=
  if is_digit c then Some (c - 48)
  else if (97 <=? c) && (c <=? 102) then Some (c - 87)
  else if (65 <=? c) && (c <=? 70) then Some (c - 55)
  else None.

(** The characters of a string after its opening quote. *)
Fixpoint parse_chars (s : list Z) : option (list Z * list Z) :=
  match s with
  | [] => None
  | 34 :: r => Some ([], r)
  | 92 :: e :: r =>
      if e =? 117 then
        match r with
        | h1 :: h2 :: h3 :: h4 :: r' =>
            d1 ← hex_digit h1; d2 ← hex_digit h2;
            d3 ← hex_digit h3; d4 ← hex_digit h4;
            '(cs, rest) ← parse_chars r';
            Some ((4096 * d1 + 256 * d2 + 16 * d3 + d4) :: cs, rest)
        | _ => None
        end
      else
        c ← (if e =? 34 then Some 34 else if e =? 92 then Some 92
             else if e =? 47 then Some 47 else if e =? 98 then Some 8
             else if e =? 102 then Some 12 else if e =? 110 then Some 10
             else if e =? 114 then Some 13 else if e =? 116 then Some 9
             else None);
        '(cs, rest) ← parse_chars r;
        Some (c :: cs, rest)
  | c :: r =>
      if (c <? 32) || (c =? 92) then None
      else '(cs, rest) ← parse_chars r; Some (c :: cs, rest)
  end.

Fixpoint strip_prefix (p s : list Z) : option (list Z) :=
  match p, s with
  | [], _ => Some s
  | x :: p', y :: s' => if x =? y then strip_prefix p' s' else None
  | _ :: _, [] => None
  end.

(** One JSON value at the head of [s] (after white space) and the rest.
    The fuel bounds the nesting plus the number of items; every call
    consumes a character, so the length of the text is enough. *)
Fixpoint parse_value (fuel : nat) (s : list Z) : option (value * list Z) :=
  match fuel with
  | O => None
  | S fuel' =>
      match skip_ws s with
      | 34 :: r => '(cs, rest) ← parse_chars r; Some (JStr cs, rest)
      | 91 :: r =>
          match skip_ws r with
          | 93 :: rest => Some (JArr [], rest)
          | _ => '(vs, rest) ← parse_elements fuel' r; Some (JArr vs, rest)
          end
      | 123 :: r =>
          match skip_ws r with
          | 125 :: rest => Some (JObj [], rest)
          | _ => '(ms, rest) ← parse_members fuel' r; Some (JObj ms, rest)
          end
      | s' =>
          match strip_prefix (str "null"%string) s', strip_prefix (str "true"%string) s',
                strip_prefix (str "false"%string) s' with
          | Some rest, _, _ => Some (JNull, rest)
          | _, Some rest, _ => Some (JBool true, rest)
          | _, _, Some rest => Some (JBool false, rest)
          | _, _, _ => '(x, rest) ← parse_number s'; Some (JNum x, rest)
          end
      end
  end
with parse_elements (fuel : nat) (s : list Z) : option (list value * list Z) :=
  match fuel with
  | O => None
  | S fuel' =>
      '(v, r) ← parse_value fuel' s;
      match skip_ws r with
      | 44 :: r' => '(vs, rest) ← parse_elements fuel' r'; Some (v :: vs, rest)
      | 93 :: rest => Some ([v], rest)
      | _ => None
      end
  end
with parse_members (fuel : nat) (s : list Z) : option (list (list Z * value) * list Z) :=
  match fuel with
  | O => None
  | S fuel' =>
      match skip_ws s with
      | 34 :: r =>
          '(k, r1) ← parse_chars r;
          match skip_ws r1 with
          | 58 :: r2 =>
              '(v, r3) ← parse_value fuel' r2;
              match skip_ws r3 with
              | 44 :: r4 => '(ms, rest) ← parse_members fuel' r4; Some ((k, v) :: ms, rest)
              | 125 :: rest => Some ([(k, v)], rest)
              | _ => None
              end
          | _ => None
          end
      | _ => None
      end
  end.

(** [JSON.parse(text)]: one value, then only white space. *)
Definition JSON_parse (text : list Z) : result value :=
  match parse_value (S (length text)) text with
  | Some (v, rest) =>
      match skip_ws rest with
      | [] => Ok v
      | _ => Throw SyntaxError
      end
  | None => Throw SyntaxError
  end.

(** The own property [k] of an object, the last member winning. *)
Fixpoint get_member (k : list Z) (ms : list (list Z * value)) : option value :=
  match ms with
  | [] => None
  | (k', v) :: r =>
      match get_member k r with
      | Some v' => Some v'
      | None => if str_eqb k k' then Some v else None
      end
  end.

End Json.

(** ** The snapshot decoder: [parseLssnap]

    The orbit and the trackball variant of the component carry the same
    function, character for character; one definition stands for both. *)

Module Lssnap.

Import Js DataView.

Record LssnapData : Type := {
  vertexCount : Z;
  positions : list num;
  colors : list num;
  annotations : Json.value
}.

Definition thousand : num := of_Z 1000.
Definition n255 : num := of_Z 255.

(** One pass of the body of
    [for (let i = 0; i < vertexCount; i++) { ...; offset += 9; }],
    [n] being the number of passes still to run. *)
Fixpoint vertex_loop (n : nat) (view : buffer) (i offset : Z)
    (positions colors : list num) : result (Z * list num * list num) :=
  match n with
  | O => Ok (offset, positions, colors)
  | S n' =>
      let! x := getInt16 view offset in
      let positions := Float32Array_set positions (i * 3) (div (of_Z x) thousand) in
      let! y := getInt16 view (offset + 2) in
      let positions := Float32Array_set positions (i * 3 + 1) (div (of_Z y) thousand) in
      let! z := getInt16 view (offset + 4) in
      let positions := Float32Array_set positions (i * 3 + 2) (div (of_Z z) thousand) in
      let! r := getUint8 view (offset + 6) in
      let colors := Float32Array_set colors (i * 3) (div (of_Z r) n255) in
      let! g := getUint8 view (offset + 7) in
      let colors := Float32Array_set colors (i * 3 + 1) (div (of_Z g) n255) in
      let! b := getUint8 view (offset + 8) in
      let colors := Float32Array_set colors (i * 3 + 2) (div (of_Z b) n255) in
      vertex_loop n' view (i + 1) (offset + 9) positions colors
  end.

(** The annotation block: the body of the [try], whose every exception the
    empty [catch] swallows. *)
Definition read_annotations (buffer : buffer) (offset annotJsonLen : Z) : result Json.value :=
  let! bytes := Uint8Array_view buffer offset annotJsonLen in
  let annotStr := Json.TextDecoder_decode bytes in
  Json.JSON_parse annotStr.

Definition parseLssnap (buffer : buffer) : result LssnapData :=
  let! m0 := getUint8 buffer 0 in
  let! m1 := getUint8 buffer 1 in
  let! m2 := getUint8 buffer 2 in
  let magic := [m0; m1; m2] in
  let! version := getUint8 buffer 3 in
  if negb (Json.str_eqb magic (Json.str "LSS")) || negb (version =? 1) then
    Throw (Error_not_lssnap magic version)
  else
    let! vertexCount := getInt32 buffer 4 in
    let! annotJsonLen := getInt32 buffer 8 in
    let! positions := Float32Array_new (vertexCount * 3) in
    let! colors := Float32Array_new (vertexCount * 3) in
    let! filled := vertex_loop (Z.to_nat vertexCount) buffer 0 16 positions colors in
    let '(offset, positions, colors) := filled in
    let annotations :=
      if 0 <? annotJsonLen
      then try_catch (read_annotations buffer offset annotJsonLen) (Json.JArr [])
      else Json.JArr [] in
    Ok {| vertexCount := vertexCount; positions := positions;
          colors := colors; annotations := annotations |}.

End Lssnap.

(** ** The pieces of three.js the component drives

    three.js is a dependency of the repository, not part of it.  What the
    component calls of it is written out here: vectors, the bounding box
    of a position attribute, and the camera fields that the framing block
    assigns. *)

Module Three.

Import Js DataView.

Record Vector3 : Type := { x : num; y : num; z : num }.

Definition zero : num := S754_zero false.

(** [new THREE.Vector3(a, b, c)]: an argument that is [undefined] takes
    the default 0. *)
Definition Vector3_new (a b c : option num) : Vector3 :=
  {| x := default zero a; y := default zero b; z := default zero c |}.

Definition addVectors (a b : Vector3) : Vector3 :=
  {| x := add (x a) (x b); y := add (y a) (y b); z := add (z a) (z b) |}.

Definition subVectors (a b : Vector3) : Vector3 :=
  {| x := sub (x a) (x b); y := sub (y a) (y b); z := sub (z a) (z b) |}.

Definition multiplyScalar (a : Vector3) (s : num) : Vector3 :=
  {| x := mul (x a) s; y := mul (y a) s; z := mul (z a) s |}.

(** Modelled from the spec: [THREE.Box3] and
    [BufferGeometry.computeBoundingBox] (three.js is not under src/).
    Section 4 of the specification gives the box as the per-axis minimum
    and maximum over all the points, its centre as the midpoint and its
    size as the extents; the library adds that a box without points is
    "empty" and reports the zero vector for both. *)
Record Box3 : Type := { min : Vector3; max : Vector3 }.

Definition makeEmpty : Box3 :=
  {| min := {| x := Infinity; y := Infinity; z := Infinity |};
     max := {| x := NegInfinity; y := NegInfinity; z := NegInfinity |} |}.

Definition expandByPoint (b : Box3) (p : Vector3) : Box3 :=
  {| min := {| x := min2 (x (min b)) (x p); y := min2 (y (min b)) (y p);
               z := min2 (z (min b)) (z p) |};
     max := {| x := max2 (x (max b)) (x p); y := max2 (y (max b)) (y p);
               z := max2 (z (max b)) (z p) |} |}.

(** The [i]-th item of a position attribute of item size 3. *)
Definition fromBufferAttribute (array : list num) (i : Z) : Vector3 :=
  {| x := Float32Array_get array (i * 3);
     y := Float32Array_get array (i * 3 + 1);
     z := Float32Array_get array (i * 3 + 2) |}.

(** The passes of [for (i = 0; i < attribute.count; i++)], where
    [attribute.count] is [array.length / 3]. *)
Definition passes (array : list num) : nat := Z.to_nat ((Z.of_nat (length array) + 2) / 3).

Fixpoint expand_loop (n : nat) (array : list num) (i : Z) (b : Box3) : Box3 :=
  match n with
  | O => b
  | S n' => expand_loop n' array (i + 1) (expandByPoint b (fromBufferAttribute array i))
  end.

(** [geometry.computeBoundingBox(); geometry.boundingBox]. *)
Definition computeBoundingBox (array : list num) : Box3 :=
  expand_loop (passes array) array 0 makeEmpty.

Definition isEmpty (b : Box3) : bool :=
  ltb (x (max b)) (x (min b)) || ltb (y (max b)) (y (min b)) || ltb (z (max b)) (z (min b)).

Definition getCenter (b : Box3) : Vector3 :=
  if isEmpty b then {| x := zero; y := zero; z := zero |}
  else multiplyScalar (addVectors (min b) (max b)) (lit 5 1).

Definition getSize (b : Box3) : Vector3 :=
  if isEmpty b then {| x := zero; y := zero; z := zero |}
  else subVectors (max b) (min b).

(** The orientation of an object: the identity, or the rotation that
    [lookAt] derives from the eye, the point looked at and the up axis. *)
Inductive Orientation : Type :=
  | Identity
  | LookAt (eye target up : Vector3).

Record Camera : Type := {
  position : Vector3;
  up : Vector3;
  quaternion : Orientation
}.

(** [new THREE.PerspectiveCamera(...)]: at the origin, up is +Y. *)
Definition PerspectiveCamera : Camera :=
  {| position := {| x := zero; y := zero; z := zero |};
     up := {| x := zero; y := of_Z 1; z := zero |};
     quaternion := Identity |}.

Definition set_position (c : Camera) (p : Vector3) : Camera :=
  {| position := p; up := up c; quaternion := quaternion c |}.

Definition set_up (c : Camera) (u : Vector3) : Camera :=
  {| position := position c; up := u; quaternion := quaternion c |}.

Definition lookAt (c : Camera) (target : Vector3) : Camera :=
  {| position := position c; up := up c;
     quaternion := LookAt (position c) target (up c) |}.

End Three.

(** ** The subject filter (the block after [parseLssnap] in the load handler) *)

Module Filter.

Import Js DataView Lssnap.

(** The three cut-offs, from the bounding box of all the positions.  The
    depth fraction is the literal 0.75 in both variants; the height
    fraction is 0.45 in the orbit variant and 0.5 in the trackball one. *)
Record Cuts : Type := { xCut : num; zCut : num; yCutMax : num }.

Definition depthFraction : num := lit 75 2.

Definition cuts (heightFraction : num) (data : LssnapData) : Cuts :=
  let fullBox := Three.computeBoundingBox (positions data) in
  let fullCenter := Three.getCenter fullBox in
  let fullSize := Three.getSize fullBox in
  {| xCut := Three.x fullCenter;
     zCut := add (Three.z (Three.min fullBox)) (mul (Three.z fullSize) depthFraction);
     yCutMax := add (Three.y (Three.min fullBox)) (mul (Three.y fullSize) heightFraction) |}.

(** [x >= xCut && z <= zCut && y >= yCutMax]. *)
Definition keeps (c : Cuts) (x y z : num) : bool :=
  geb x (xCut c) && leb z (zCut c) && geb y (yCutMax c).

(** The passes of [for (let vi = 0; vi < data.vertexCount; vi++)] over the
    two growing arrays [filtPos] and [filtCol]. *)
Fixpoint filter_loop (n : nat) (c : Cuts) (data : LssnapData) (vi : Z)
    (filtPos filtCol : list num) : list num * list num :=
  match n with
  | O => (filtPos, filtCol)
  | S n' =>
      let x := Float32Array_get (positions data) (vi * 3) in
      let y := Float32Array_get (positions data) (vi * 3 + 1) in
      let z := Float32Array_get (positions data) (vi * 3 + 2) in
      if keeps c x y z then
        filter_loop n' c data (vi + 1) (filtPos ++ [x; y; z])
          (filtCol ++ [Float32Array_get (colors data) (vi * 3);
                       Float32Array_get (colors data) (vi * 3 + 1);
                       Float32Array_get (colors data) (vi * 3 + 2)])
      else filter_loop n' c data (vi + 1) filtPos filtCol
  end.

(** [new Float32Array(numbers)]. *)
Definition Float32Array_from (l : list num) : list num := fround <$> l.

Definition filter_block (heightFraction : num) (data : LssnapData) : list num * list num :=
  let c := cuts heightFraction data in
  let '(filtPos, filtCol) := filter_loop (Z.to_nat (vertexCount data)) c data 0 [] [] in
  (Float32Array_from filtPos, Float32Array_from filtCol).

(** Orbit variant: always filtered, height fraction 0.45. *)
Definition orbit_subset (data : LssnapData) : list num * list num :=
  filter_block (lit 45 2) data.

(** Trackball variant: the [filter] property (default true) switches the
    block, height fraction 0.5. *)
Definition trackball_subset (filter : bool) (data : LssnapData) : list num * list num :=
  if filter then filter_block (lit 5 1) data
  else (positions data, colors data).

End Filter.

(** ** The camera framer (the block after the point cloud is added) *)

Module Framer.

Import Js.

(** What the framing block leaves behind: the camera and
    [controls.target].  The [controls.update()] that follows it, before
    the pose is stored for "Reset", belongs to the controller of three.js. *)
Record Framed : Type := { camera : Three.Camera; target : Three.Vector3 }.

Definition maxDim_of (size : Three.Vector3) : num :=
  max3 (Three.x size) (Three.y size) (Three.z size).

(** Orbit variant (policy A): the camera keeps its up axis. *)
Definition frame_orbit (camera : Three.Camera) (geo : list num) : Framed :=
  let box := Three.computeBoundingBox geo in
  let center := Three.getCenter box in
  let size := Three.getSize box in
  let maxDim := maxDim_of size in
  let target := center in
  let camera := Three.set_position camera
    {| Three.x := sub (Three.x center) (mul maxDim (lit 1 1));
       Three.y := add (Three.y center) (mul maxDim (lit 25 2));
       Three.z := add (Three.z center) (mul maxDim (lit 16 1)) |} in
  let camera := Three.lookAt camera center in
  {| camera := camera; target := target |}.

(** Trackball variant (policy B): the up axis becomes +Z first. *)
Definition frame_trackball (camera : Three.Camera) (geo : list num) : Framed :=
  let box := Three.computeBoundingBox geo in
  let center := Three.getCenter box in
  let size := Three.getSize box in
  let maxDim := maxDim_of size in
  let target := center in
  let camera := Three.set_up camera
    {| Three.x := of_Z 0; Three.y := of_Z 0; Three.z := of_Z 1 |} in
  let camera := Three.set_position camera
    {| Three.x := sub (Three.x center) (mul maxDim (lit 5 1));
       Three.y := sub (Three.y center) (mul maxDim (lit 28 1));
       Three.z := Three.z center |} in
  let camera := Three.lookAt camera center in
  {| camera := camera; target := target |}.

(** The camera the effect creates before any data arrives:
    [camera.position.set(0, 1, 3)]. *)
Definition initial_camera : Three.Camera :=
  Three.set_position Three.PerspectiveCamera
    {| Three.x := of_Z 0; Three.y := of_Z 1; Three.z := of_Z 3 |}.

Section Update.

(** The controller of three.js ([OrbitControls], [TrackballControls]):
    its private state and its [update()], which reads and writes the
    camera and [controls.target]. *)
Variable Controls : Type.
Variable controls_update :
  Controls -> Three.Camera -> Three.Vector3 -> Controls * Three.Camera * Three.Vector3.

(** What the end of the block leaves behind: the controller, the camera
    and [controls.target] after [controls.update()], and the two clones
    kept for "Reset". *)
Record Stored : Type := {
  controls : Controls;
  updated_camera : Three.Camera;
  updated_target : Three.Vector3;
  initialPos : Three.Vector3;
  initialTarget : Three.Vector3
}.

(** [controls.update(); s.initialPos = camera.position.clone();
    s.initialTarget = controls.target.clone();] *)
Definition update_and_store (controls : Controls) (framed : Framed) : Stored :=
  let '(controls, camera, target) := controls_update controls (camera framed) (target framed) in
  {| controls := controls; updated_camera := camera; updated_target := target;
     initialPos := Three.position camera; initialTarget := target |}.

End Update.

Arguments controls {Controls} s.
Arguments updated_camera {Controls} s.
Arguments updated_target {Controls} s.
Arguments initialPos {Controls} s.
Arguments initialTarget {Controls} s.
Arguments update_and_store {Controls} controls_update controls framed.

End Framer.

(** ** The annotation overlay builder (the loop over [data.annotations]) *)

Module Overlay.

Import Js.

(** The [Annotation] interface.  [positions] is optional here because the
    loop guards against its absence; [type] is any string, the three kinds
    being the ones the loop knows. *)
Record Annotation : Type := {
  type : list Z;
  positions : option (list num);
  radius : option num;
  color : option (num * num * num)
}.

Record Color : Type := { r : num; g : num; b : num }.

Inductive Primitive : Type :=
  | Mesh (sphereRadius : num) (widthSegments heightSegments : Z)
         (color : Color) (opacity : num) (position : Three.Vector3)
  | Line (points : list num) (color : Color) (opacity : num).

(** [new THREE.BufferGeometry().setFromPoints(pts)]: the flat binary32
    attribute, a falsy z being stored as 0. *)
Definition setFromPoints (pts : list Three.Vector3) : list num :=
  concat ((fun p => [fround (Three.x p); fround (Three.y p);
                     fround (if truthy (Three.z p) then Three.z p else Three.zero)]) <$> pts).

Definition resolve_color (c : option (num * num * num)) : Color :=
  match c with
  | Some (c0, c1, c2) =>
      {| r := div c0 (of_Z 255); g := div c1 (of_Z 255); b := div c2 (of_Z 255) |}
  | None => {| r := of_Z 1; g := lit 4 1; b := lit 4 1 |}
  end.

(** [positions[i]], [undefined] outside the array. *)
Definition at_ (ps : list num) (i : Z) : option num :=
  if i <? 0 then None else ps !! Z.to_nat i.

(** The passes of [for (let i = 0; i < ann.positions.length; i += 3)]. *)
Fixpoint freehand_points (n : nat) (ps : list num) (i : Z) (pts : list Three.Vector3)
    : list Three.Vector3 :=
  match n with
  | O => pts
  | S n' =>
      if i <? Z.of_nat (length ps) then
        freehand_points n' ps (i + 3)
          (pts ++ [Three.Vector3_new (at_ ps i) (at_ ps (i + 1)) (at_ ps (i + 2))])
      else pts
  end.

Definition Math_PI : num := S754_finite false 7074237752028440 (-51).

Section Builder.

(** [Math.cos] and [Math.sin] are functions of the engine. *)
Variables Math_cos Math_sin : num -> num.

(** The 65 points of a ring: [Array.from({ length: 65 }, (_, i) => ...)]. *)
Definition circle_point (ps : list num) (radius : num) (i : Z) : Three.Vector3 :=
  let theta := mul (mul (div (of_Z i) (of_Z 64)) Math_PI) (of_Z 2) in
  {| Three.x := add (default NaN (at_ ps 0)) (mul (Math_cos theta) radius);
     Three.y := add (default NaN (at_ ps 1)) (mul (Math_sin theta) radius);
     Three.z := default NaN (at_ ps 2) |}.

Definition circle_points (ps : list num) (radius : num) : list Three.Vector3 :=
  (fun i => circle_point ps radius (Z.of_nat i)) <$> seq 0 65.

(** One pass of the loop body: the children of [annGroup] after it. *)
Definition annotation_step (annGroup : list Primitive) (ann : Annotation) : list Primitive :=
  match positions ann with
  | None => annGroup                                   (* !ann.positions: continue *)
  | Some ps =>
      if Z.of_nat (length ps) <? 3 then annGroup       (* continue *)
      else
        let color := resolve_color (color ann) in
        if Json.str_eqb (type ann) (Json.str "point") then
          let radius :=
            match radius ann with
            | Some rd => if truthy rd && gtb rd (lit 1 2) then rd else lit 12 2
            | None => lit 12 2
            end in
          annGroup ++ [Mesh (mul radius (lit 3 1)) 12 8 color (lit 7 1)
                         {| Three.x := default NaN (at_ ps 0);
                            Three.y := default NaN (at_ ps 1);
                            Three.z := default NaN (at_ ps 2) |}]
        else if Json.str_eqb (type ann) (Json.str "circle") then
          let radius :=
            match radius ann with
            | Some rd => if truthy rd && gtb rd (of_Z 0) then rd else lit 5 2
            | None => lit 5 2
            end in
          annGroup ++ [Line (setFromPoints (circle_points ps radius)) color (lit 8 1)]
        else if Json.str_eqb (type ann) (Json.str "freehand") && (6 <=? Z.of_nat (length ps)) then
          let pts := freehand_points (length ps) ps 0 [] in
          annGroup ++ [Line (setFromPoints pts) color (lit 8 1)]
        else annGroup
  end.

(** [for (const ann of data.annotations) { ... }] from an empty group. *)
Definition build (annotations : list Annotation) : list Primitive :=
  foldl annotation_step [] annotations.

End Builder.

(** The annotation records among the JSON values: an array of objects
    whose members have the types of the interface.  Any other value is
    outside the interface ([None]). *)
Definition numbers_of (vs : list Json.value) : option (list num) :=
  mapM (fun v => match v with Json.JNum n => Some n | _ => None end) vs.

Definition annotation_of (v : Json.value) : option Annotation :=
  match v with
  | Json.JObj ms =>
      ty ← match Json.get_member (Json.str "type") ms with
           | Some (Json.JStr s) => Some s
           | _ => None
           end;
      ps ← match Json.get_member (Json.str "positions") ms with
           | Some (Json.JArr vs) => Some <$> numbers_of vs
           | Some Json.JNull | None => Some None
           | _ => None
           end;
      rd ← match Json.get_member (Json.str "radius") ms with
           | Some (Json.JNum n) => Some (Some n)
           | None => Some None
           | _ => None
           end;
      cl ← match Json.get_member (Json.str "color") ms with
           | Some (Json.JArr [Json.JNum c0; Json.JNum c1; Json.JNum c2]) => Some (Some (c0, c1, c2))
           | None => Some None
           | _ => None
           end;
      Some {| type := ty; positions := ps; radius := rd; color := cl |}
  | _ => None
  end.

Definition annotations_of (v : Json.value) : option (list Annotation) :=
  match v with
  | Json.JArr vs => mapM annotation_of vs
  | _ => None
  end.

End Overlay.

(** ** The frame loop of the trackball variant *)

Module Trackball.

Import Js.

Definition angle : num := lit 5 4.

Section Animate.

(** The engine's [Math.cos] and [Math.sin], and the controller of
    three.js: its private state and its [update()], which reads and writes
    the camera and [controls.target]. *)
Variables Math_cos Math_sin : num -> num.
Variable Controls : Type.
Variable controls_update :
  Controls -> Three.Camera -> Three.Vector3 -> Controls * Three.Camera * Three.Vector3.

Record State : Type := {
  camera : Three.Camera;
  target : Three.Vector3;          (* controls.target *)
  controls : Controls;
  autoRotating : bool
}.

(** The body of [if (s.autoRotating && s.camera && s.controls) { ... }];
    the camera and the controls exist from the start of the effect. *)
Definition autorotate (camera : Three.Camera) (target : Three.Vector3) : Three.Camera :=
  let pos := Three.position camera in
  let dx := sub (Three.x pos) (Three.x target) in
  let dz := sub (Three.z pos) (Three.z target) in
  let cos := Math_cos angle in
  let sin := Math_sin angle in
  let px := sub (add (Three.x target) (mul dx cos)) (mul dz sin) in
  let pz := add (add (Three.z target) (mul dx sin)) (mul dz cos) in
  Three.set_position camera {| Three.x := px; Three.y := Three.y pos; Three.z := pz |}.

(** One call of [animate]: the manual rotation, then [controls.update()];
    rendering reads the state and leaves it as it is. *)
Definition animate (s : State) : State :=
  let camera := if autoRotating s then autorotate (camera s) (target s) else camera s in
  let '(controls, camera, target) := controls_update (controls s) camera (target s) in
  {| camera := camera; target := target; controls := controls;
     autoRotating := autoRotating s |}.

(** [handleAutoRotate]. *)
Definition handleAutoRotate (s : State) : State :=
  {| camera := camera s; target := target s; controls := controls s;
     autoRotating := negb (autoRotating s) |}.

End Animate.

Arguments Build_State {Controls} camera target controls autoRotating.
Arguments camera {Controls} s.
Arguments target {Controls} s.
Arguments controls {Controls} s.
Arguments autoRotating {Controls} s.
Arguments animate Math_cos Math_sin {Controls} controls_update s.
Arguments handleAutoRotate {Controls} s.

(** The numbers [Math.cos(0.0005)] and [Math.sin(0.0005)]: the binary64
    numbers nearest to the cosine and to the sine, 0.9999998750000026 and
    0.0004999999791666669. *)
Definition cos_angle : num := lit 9999998750000026 16.
Definition sin_angle : num := lit 4999999791666669 19.

End Trackball.

(** ** The wire layout, written out

    The repository reads snapshots and never writes them.  The encoder
    below follows the layout table of the specification (section 6) so
    that the round trip can be stated: little-endian throughout, a
    16-byte header, then one 9-byte record per vertex, then the
    annotation block. *)

Module Wire.

Import Js DataView.

(** A point on the wire: coordinates in thousandths, colours as bytes. *)
Record Point : Type := {
  px : Z; py : Z; pz : Z;
  cr : byte; cg : byte; cb : byte
}.

Definition byte_of (z : Z) : byte := default "000"%byte (Byte.of_N (Z.to_N (z mod 256))).

Definition int16_le (k : Z) : list byte := [byte_of k; byte_of (k / 256)].

Definition int32_le (k : Z) : list byte :=
  [byte_of k; byte_of (k / 256); byte_of (k / 65536); byte_of (k / 16777216)].

Definition magic : list byte := ["L"; "S"; "S"]%byte.
Definition version : byte := "001"%byte.

Definition header (vertexCount annotLen : Z) : list byte :=
  magic ++ [version] ++ int32_le vertexCount ++ int32_le annotLen
        ++ ["000"; "000"; "000"; "000"]%byte.

Definition record (p : Point) : list byte :=
  int16_le (px p) ++ int16_le (py p) ++ int16_le (pz p) ++ [cr p; cg p; cb p].

Definition encode (pts : list Point) (annot : list byte) : buffer :=
  header (Z.of_nat (length pts)) (Z.of_nat (length annot))
    ++ concat (record <$> pts) ++ annot.

(** A coordinate is an exact multiple of 0.001 within +-32.767. *)
Definition coord_ok (k : Z) : Prop := -32767 <= k <= 32767.

Definition point_ok (p : Point) : Prop :=
  coord_ok (px p) /\ coord_ok (py p) /\ coord_ok (pz p).

Definition byte_val (b : byte) : Z := Z.of_N (Byte.to_N b).

(** The numbers a decoded point consists of, by what the wire holds: the
    slot of a coordinate [k] and the slot of a colour byte [c]. *)
Definition coord_slot (k : Z) : num := fround (div (of_Z k) (of_Z 1000)).
Definition color_slot (c : Z) : num := fround (div (of_Z c) (of_Z 255)).

Definition point_positions (p : Point) : list num :=
  [coord_slot (px p); coord_slot (py p); coord_slot (pz p)].

Definition point_colors (p : Point) : list num :=
  [color_slot (byte_val (cr p)); color_slot (byte_val (cg p)); color_slot (byte_val (cb p))].

End Wire.

(** ** What a buffer holds at a slot, read without the bounds checks *)

Module Slots.

Import Js DataView.

Definition uint8_at (view : buffer) (off : Z) : Z := default 0 (byte_at view off).

Definition int16_at (view : buffer) (off : Z) : Z :=
  to_signed 16 (uint8_at view off + 256 * uint8_at view (off + 1)).

(** Slot [j] of the positions: coordinate [j mod 3] of record [j / 3]. *)
Definition position_slot (view : buffer) (j : Z) : num :=
  fround (div (of_Z (int16_at view (16 + 9 * (j / 3) + 2 * (j mod 3)))) Lssnap.thousand).

Definition color_slot (view : buffer) (j : Z) : num :=
  fround (div (of_Z (uint8_at view (16 + 9 * (j / 3) + 6 + j mod 3))) Lssnap.n255).

End Slots.

(** ** Checking a predicate on a whole range of integers *)

Fixpoint all_range (p : positive) (f : Z -> bool) (base : Z) : bool :=
  match p with
  | xH => f base
  | xO q => all_range q f base && all_range q f (base + Zpos q)
  | xI q => f base && all_range q f (base + 1) && all_range q f (base + 1 + Zpos q)
  end.

(** * Evaluating the definitions *)

Section Evaluation.

Import Js DataView.

(** Literals of the program text, by their bits. *)
Example lit_0_1 : lit 1 1 = S754_finite false 7205759403792794 (-56).
Proof. reflexivity. Qed.

Example lit_0_45 : lit 45 2 = S754_finite false 8106479329266893 (-54).
Proof. reflexivity. Qed.

Example lit_0_0005 : Trackball.angle = S754_finite false 4611686018427388 (-63).
Proof. reflexivity. Qed.

Example lit_7_5 : lit 75 1 = div (of_Z 15) (of_Z 2).
Proof. reflexivity. Qed.

Example Math_PI_decimal : Overlay.Math_PI = lit 3141592653589793 15.
Proof. reflexivity. Qed.

(** 0.1 stored in a [Float32Array] reads back as 0.10000000149011612. *)
Example fround_0_1 : fround (lit 1 1) = lit 10000000149011612 17.
Proof. reflexivity. Qed.

Example fround_quarter : fround (lit 25 2) = lit 25 2.
Proof. reflexivity. Qed.

Example max3_sizes : max3 (of_Z 1) (lit 25 1) (of_Z 2) = lit 25 1.
Proof. reflexivity. Qed.

Example max3_NaN : max3 (of_Z 1) NaN (of_Z 2) = NaN.
Proof. reflexivity. Qed.

(** The bytes 0x48 0xF4 are the int16 -3000. *)
Example getInt16_negative : getInt16 ["H"; "244"]%byte 0 = Ok (-3000).
Proof. reflexivity. Qed.

Example getInt16_outside : getInt16 ["H"; "244"]%byte 1 = Throw RangeError.
Proof. reflexivity. Qed.

Example decode_replaces_bad_byte :
  Json.TextDecoder_decode ["195"; "("]%byte = [65533; 40].
Proof. reflexivity. Qed.

Example decode_two_byte_sequence :
  Json.TextDecoder_decode ["195"; "169"]%byte = [233].
Proof. reflexivity. Qed.

Example parse_empty_object : Json.JSON_parse (Json.str "{}") = Ok (Json.JObj []).
Proof. reflexivity. Qed.

Example parse_nested_arrays :
  Json.JSON_parse (Json.str " [[ ], [1.5e1, -0, true, null]] ")
    = Ok (Json.JArr [Json.JArr [];
                     Json.JArr [Json.JNum (of_Z 15); Json.JNum (S754_zero true);
                                Json.JBool true; Json.JNull]]).
Proof. reflexivity. Qed.

Example parse_trailing_comma : Json.JSON_parse (Json.str "[1,]") = Throw SyntaxError.
Proof. reflexivity. Qed.

Example parse_leading_zero : Json.JSON_parse (Json.str "01") = Throw SyntaxError.
Proof. reflexivity. Qed.

Example parse_empty_text : Json.JSON_parse [] = Throw SyntaxError.
Proof. reflexivity. Qed.

End Evaluation.

(** * Properties *)

(** ** Bytes and the DataView *)

Section DataViewFacts.

Import Js DataView.

Lemma byte_val_inj (a b : byte) : Wire.byte_val a = Wire.byte_val b -> a = b.
Proof.
  unfold Wire.byte_val. intros H. apply N2Z.inj in H.
  pose proof (Byte.of_to_N a) as Ha. rewrite H, Byte.of_to_N in Ha. congruence.
Qed.

Lemma byte_val_range (a : byte) : 0 <= Wire.byte_val a <= 255.
Proof.
  unfold Wire.byte_val. pose proof (Byte.to_N_bounded a). lia.
Qed.

Lemma byte_val_of (z : Z) : Wire.byte_val (Wire.byte_of z) = z mod 256.
Proof.
  unfold Wire.byte_val, Wire.byte_of.
  assert (Hr : 0 <= z mod 256 < 256) by (apply Z.mod_pos_bound; lia).
  destruct (Byte.of_N (Z.to_N (z mod 256))) as [b|] eqn:E.
  - apply Byte.to_of_N in E. simpl. rewrite E. lia.
  - apply Byte.of_N_None_iff in E. lia.
Qed.

Lemma byte_at_Some (view : buffer) (off : Z) :
  0 <= off < byteLength view -> exists b, view !! Z.to_nat off = Some b /\ byte_at view off = Some (Wire.byte_val b).
Proof.
  intros H. unfold byteLength in H.
  destruct (lookup_lt_is_Some_2 view (Z.to_nat off)) as [b Hb]; [lia|].
  exists b. split; [done|]. unfold byte_at.
  destruct (Z.ltb_spec off 0); [lia|]. by rewrite Hb.
Qed.

Lemma byte_at_None (view : buffer) (off : Z) :
  byte_at view off = None -> off < 0 \/ byteLength view <= off.
Proof.
  unfold byte_at, byteLength. destruct (Z.ltb_spec off 0) as [?|?]; [lia|].
  intros Hn. destruct (view !! Z.to_nat off) eqn:E; [done|].
  apply lookup_ge_None in E. lia.
Qed.

Lemma byte_at_is_Some (view : buffer) (off v : Z) :
  byte_at view off = Some v -> 0 <= off < byteLength view.
Proof.
  unfold byte_at, byteLength. destruct (Z.ltb_spec off 0) as [?|?]; [done|].
  intros Hs. destruct (view !! Z.to_nat off) eqn:E; [|done].
  apply lookup_lt_Some in E. lia.
Qed.

(** Reading behind a prefix. *)
Lemma byte_at_app (pre l : buffer) (j : Z) :
  0 <= j -> byte_at (pre ++ l) (byteLength pre + j) = byte_at l j.
Proof.
  intros Hj. unfold byte_at, byteLength.
  destruct (Z.ltb_spec (Z.of_nat (length pre) + j) 0); [lia|].
  destruct (Z.ltb_spec j 0); [lia|].
  rewrite lookup_app_r by lia. do 2 f_equal. lia.
Qed.

(** A read returns, or throws a RangeError: nothing else. *)
Definition ok_or_range {A : Type} (r : result A) : Prop :=
  match r with
  | Ok _ => True
  | Throw e => e = RangeError
  end.

Lemma getUint8_cases view off : ok_or_range (getUint8 view off).
Proof. unfold getUint8. by destruct (byte_at view off). Qed.

Lemma getInt16_cases view off : ok_or_range (getInt16 view off).
Proof. unfold getInt16. by destruct (byte_at view off), (byte_at view (off + 1)). Qed.

Lemma getInt32_cases view off : ok_or_range (getInt32 view off).
Proof.
  unfold getInt32.
  by destruct (byte_at view off), (byte_at view (off + 1)),
     (byte_at view (off + 2)), (byte_at view (off + 3)).
Qed.

Lemma getUint8_Ok view off v : getUint8 view off = Ok v -> 0 <= off < byteLength view.
Proof.
  unfold getUint8. destruct (byte_at view off) eqn:E; [|done].
  intros _. by eapply byte_at_is_Some.
Qed.

Lemma getUint8_in view off :
  0 <= off < byteLength view -> getUint8 view off = Ok (Slots.uint8_at view off).
Proof.
  intros H. destruct (byte_at_Some view off H) as (b & _ & Hb).
  unfold getUint8, Slots.uint8_at. by rewrite Hb.
Qed.

Lemma getInt16_in view off :
  0 <= off -> off + 2 <= byteLength view -> getInt16 view off = Ok (Slots.int16_at view off).
Proof.
  intros H0 H.
  destruct (byte_at_Some view off) as (b0 & _ & Hb0); [lia|].
  destruct (byte_at_Some view (off + 1)) as (b1 & _ & Hb1); [lia|].
  unfold getInt16, Slots.int16_at, Slots.uint8_at. by rewrite Hb0, Hb1.
Qed.

Lemma getInt32_Ok view off v : getInt32 view off = Ok v -> 0 <= off /\ off + 4 <= byteLength view.
Proof.
  unfold getInt32.
  destruct (byte_at view off) eqn:E0; [|done].
  destruct (byte_at view (off + 1)); [|done].
  destruct (byte_at view (off + 2)); [|done].
  destruct (byte_at view (off + 3)) eqn:E3; [|done].
  intros _. apply byte_at_is_Some in E0, E3. lia.
Qed.

Lemma getInt32_out view off : byteLength view < off + 4 -> getInt32 view off = Throw RangeError.
Proof.
  intros H. pose proof (getInt32_cases view off) as Hc.
  destruct (getInt32 view off) eqn:E; [|by simpl in Hc; subst].
  apply getInt32_Ok in E. lia.
Qed.

End DataViewFacts.

(** ** The decoder *)

Section DecoderFacts.

Import Js DataView Lssnap.

Lemma Float32Array_set_length a i v : length (Float32Array_set a i v) = length a.
Proof. unfold Float32Array_set. destruct (i <? 0); [done|]. apply length_insert. Qed.

Lemma Float32Array_set_lookup a i v (j : nat) :
  0 <= i ->
  Float32Array_set a i v !! j =
    if decide (j = Z.to_nat i /\ (j < length a)%nat) then Some (fround v) else a !! j.
Proof.
  intros Hi. unfold Float32Array_set. destruct (Z.ltb_spec i 0) as [?|_]; [lia|].
  case_decide as Hd.
  - destruct Hd as [-> Hl]. by apply list_lookup_insert_eq.
  - destruct (decide (j = Z.to_nat i)) as [->|Hne].
    + rewrite list_insert_ge; [done|lia].
    + by apply list_lookup_insert_ne.
Qed.

Lemma Float32Array_new_Ok n a :
  Float32Array_new n = Ok a -> 0 <= n /\ a = replicate (Z.to_nat n) (S754_zero false).
Proof.
  unfold Float32Array_new. destruct (Z.ltb_spec n 0) as [?|?]; [done|].
  intros [= <-]. done.
Qed.

(** Each pass of the vertex loop ends, with a result or with a RangeError. *)
Lemma vertex_loop_cases n view i off ps cs : ok_or_range (vertex_loop n view i off ps cs).
Proof.
  revert i off ps cs. induction n as [|n IH]; intros i off ps cs; simpl; [done|].
  pose proof (getInt16_cases view off) as H1.
  destruct (getInt16 view off); simpl in *; [|done].
  pose proof (getInt16_cases view (off + 2)) as H2.
  destruct (getInt16 view (off + 2)); simpl in *; [|done].
  pose proof (getInt16_cases view (off + 4)) as H3.
  destruct (getInt16 view (off + 4)); simpl in *; [|done].
  pose proof (getUint8_cases view (off + 6)) as H4.
  destruct (getUint8 view (off + 6)); simpl in *; [|done].
  pose proof (getUint8_cases view (off + 7)) as H5.
  destruct (getUint8 view (off + 7)); simpl in *; [|done].
  pose proof (getUint8_cases view (off + 8)) as H6.
  destruct (getUint8 view (off + 8)); simpl in *; [|done].
  apply IH.
Qed.

(** The loop stores into the two arrays and never resizes them; it leaves
    the offset behind the last record read. *)
Lemma vertex_loop_shape n view i off ps cs off' ps' cs' :
  vertex_loop n view i off ps cs = Ok (off', ps', cs') ->
  off' = off + 9 * Z.of_nat n /\ length ps' = length ps /\ length cs' = length cs.
Proof.
  revert i off ps cs. induction n as [|n IH]; intros i off ps cs; simpl.
  - intros [= <- <- <-]. split; [lia|done].
  - destruct (getInt16 view off); simpl; [|done].
    destruct (getInt16 view (off + 2)); simpl; [|done].
    destruct (getInt16 view (off + 4)); simpl; [|done].
    destruct (getUint8 view (off + 6)); simpl; [|done].
    destruct (getUint8 view (off + 7)); simpl; [|done].
    destruct (getUint8 view (off + 8)); simpl; [|done].
    intros H. apply IH in H as (-> & Hp & Hc).
    rewrite !Float32Array_set_length in Hp, Hc. split; [lia|done].
Qed.

(** A truncated vertex section: the pass that reaches the end of the
    buffer throws. *)
Lemma vertex_loop_short n view i off ps cs :
  (1 <= n)%nat -> 0 <= off -> byteLength view < off + 9 * Z.of_nat n ->
  vertex_loop n view i off ps cs = Throw RangeError.
Proof.
  revert i off ps cs. induction n as [|n IH]; intros i off ps cs Hn Hoff Hlen; [lia|].
  pose proof (vertex_loop_cases (S n) view i off ps cs) as Hc.
  destruct (vertex_loop (S n) view i off ps cs) as [[[off' ps'] cs']|e] eqn:E;
    [|by simpl in Hc; subst].
  exfalso. simpl in E.
  destruct (getInt16 view off); simpl in E; [|done].
  destruct (getInt16 view (off + 2)); simpl in E; [|done].
  destruct (getInt16 view (off + 4)); simpl in E; [|done].
  destruct (getUint8 view (off + 6)); simpl in E; [|done].
  destruct (getUint8 view (off + 7)); simpl in E; [|done].
  destruct (getUint8 view (off + 8)) eqn:E8; simpl in E; [|done].
  apply getUint8_Ok in E8.
  destruct n as [|n]; [lia|].
  rewrite IH in E; [done|lia|lia|lia].
Qed.

(** With the whole vertex section inside the buffer the loop returns, and
    every slot it passed holds what the buffer holds there. *)
Lemma vertex_loop_ok n view i ps cs :
  0 <= i -> 16 + 9 * (i + Z.of_nat n) <= byteLength view ->
  exists ps' cs',
    vertex_loop n view i (16 + 9 * i) ps cs = Ok (16 + 9 * (i + Z.of_nat n), ps', cs')
    /\ length ps' = length ps /\ length cs' = length cs
    /\ (forall j : nat, (j < length ps)%nat ->
          ps' !! j = if decide (3 * i <= Z.of_nat j < 3 * (i + Z.of_nat n))
                     then Some (Slots.position_slot view (Z.of_nat j)) else ps !! j)
    /\ (forall j : nat, (j < length cs)%nat ->
          cs' !! j = if decide (3 * i <= Z.of_nat j < 3 * (i + Z.of_nat n))
                     then Some (Slots.color_slot view (Z.of_nat j)) else cs !! j).
Proof.
  revert i ps cs. induction n as [|n IH]; intros i ps cs Hi Hlen.
  - exists ps, cs. simpl. rewrite Z.add_0_r.
    split; [done|]. split; [done|]. split; [done|].
    split; intros j _; case_decide; [lia|done|lia|done].
  - cbn [vertex_loop].
    rewrite (getInt16_in view (16 + 9 * i)) by lia. cbn [bind].
    rewrite (getInt16_in view (16 + 9 * i + 2)) by lia. cbn [bind].
    rewrite (getInt16_in view (16 + 9 * i + 4)) by lia. cbn [bind].
    rewrite (getUint8_in view (16 + 9 * i + 6)) by lia. cbn [bind].
    rewrite (getUint8_in view (16 + 9 * i + 7)) by lia. cbn [bind].
    rewrite (getUint8_in view (16 + 9 * i + 8)) by lia. cbn [bind].
    replace (16 + 9 * i + 9) with (16 + 9 * (i + 1)) by lia.
    edestruct (IH (i + 1)) as (ps' & cs' & Hrun & Hlp & Hlc & Hp & Hc);
      [lia | lia | ].
    exists ps', cs'. rewrite Hrun.
    rewrite !Float32Array_set_length in Hlp, Hlc.
    split; [f_equal; f_equal; f_equal; lia|].
    split; [done|]. split; [done|]. split.
    + intros j Hj. rewrite Hp by (by rewrite !Float32Array_set_length).
      rewrite !Float32Array_set_lookup by lia.
      rewrite !Float32Array_set_length.
      assert (Hq : forall c, 0 <= c < 3 -> Z.of_nat j = 3 * i + c ->
                Slots.position_slot view (Z.of_nat j)
                = fround (div (of_Z (Slots.int16_at view (16 + 9 * i + 2 * c))) thousand)).
      { intros c Hc3 Hjc. unfold Slots.position_slot.
        rewrite <- (Z.div_unique (Z.of_nat j) 3 i c) by lia.
        rewrite <- (Z.mod_unique (Z.of_nat j) 3 i c) by lia. done. }
      repeat case_decide; try lia; try done.
      * by rewrite (Hq 2) by lia.
      * by rewrite (Hq 1) by lia.
      * rewrite (Hq 0) by lia. by rewrite Z.add_0_r.
    + intros j Hj. rewrite Hc by (by rewrite !Float32Array_set_length).
      rewrite !Float32Array_set_lookup by lia.
      rewrite !Float32Array_set_length.
      assert (Hq : forall c, 0 <= c < 3 -> Z.of_nat j = 3 * i + c ->
                Slots.color_slot view (Z.of_nat j)
                = fround (div (of_Z (Slots.uint8_at view (16 + 9 * i + (6 + c)))) n255)).
      { intros c Hc3 Hjc. unfold Slots.color_slot.
        rewrite <- (Z.div_unique (Z.of_nat j) 3 i c) by lia.
        rewrite <- (Z.mod_unique (Z.of_nat j) 3 i c) by lia.
        by rewrite <- Z.add_assoc. }
      repeat case_decide; try lia; try done.
      * by rewrite (Hq 2) by lia.
      * by rewrite (Hq 1) by lia.
      * by rewrite (Hq 0) by lia.
Qed.

End DecoderFacts.

Section SnapshotFacts.

Import Js DataView Lssnap.

(** What [parseLssnap] does once the header check has passed. *)
Definition after_header (buffer : buffer) : result LssnapData :=
  let! vertexCount := getInt32 buffer 4 in
  let! annotJsonLen := getInt32 buffer 8 in
  let! positions := Float32Array_new (vertexCount * 3) in
  let! colors := Float32Array_new (vertexCount * 3) in
  let! filled := vertex_loop (Z.to_nat vertexCount) buffer 0 16 positions colors in
  let '(offset, positions, colors) := filled in
  let annotations :=
    if 0 <? annotJsonLen
    then try_catch (read_annotations buffer offset annotJsonLen) (Json.JArr [])
    else Json.JArr [] in
  Ok {| vertexCount := vertexCount; positions := positions;
        colors := colors; annotations := annotations |}.

Definition header_rejected (b0 b1 b2 b3 : byte) : bool :=
  negb (Json.str_eqb [Wire.byte_val b0; Wire.byte_val b1; Wire.byte_val b2] (Json.str "LSS"))
  || negb (Wire.byte_val b3 =? 1).

Lemma parseLssnap_four b0 b1 b2 b3 rest :
  parseLssnap (b0 :: b1 :: b2 :: b3 :: rest) =
    if header_rejected b0 b1 b2 b3
    then Throw (Error_not_lssnap [Wire.byte_val b0; Wire.byte_val b1; Wire.byte_val b2]
                                 (Wire.byte_val b3))
    else after_header (b0 :: b1 :: b2 :: b3 :: rest).
Proof. reflexivity. Qed.

Lemma parseLssnap_short buf : (length buf < 4)%nat -> parseLssnap buf = Throw RangeError.
Proof.
  destruct buf as [|b0 [|b1 [|b2 [|b3 rest]]]]; simpl; intros H; try reflexivity; lia.
Qed.

Lemma header_rejected_false b0 b1 b2 b3 :
  header_rejected b0 b1 b2 b3 = false <->
  [b0; b1; b2] = Wire.magic /\ b3 = Wire.version.
Proof.
  unfold header_rejected.
  change (Json.str "LSS") with (Wire.byte_val <$> Wire.magic).
  change 1 with (Wire.byte_val Wire.version).
  cbn [Json.str_eqb Wire.magic fmap list_fmap].
  rewrite orb_false_iff, !negb_false_iff, !andb_true_iff, !Z.eqb_eq.
  split.
  - intros [(H0 & H1 & H2 & _) H3].
    apply byte_val_inj in H0, H1, H2, H3. by subst.
  - unfold Wire.magic, Wire.version. intros [[= -> -> ->] ->]. done.
Qed.

Lemma after_header_cases buf : ok_or_range (after_header buf).
Proof.
  unfold after_header.
  pose proof (getInt32_cases buf 4) as H1.
  destruct (getInt32 buf 4) as [vc|]; simpl in *; [|done].
  pose proof (getInt32_cases buf 8) as H2.
  destruct (getInt32 buf 8) as [al|]; simpl in *; [|done].
  unfold Float32Array_new. destruct (vc * 3 <? 0); simpl; [done|].
  pose proof (vertex_loop_cases (Z.to_nat vc) buf 0 16
    (replicate (Z.to_nat (vc * 3)) (S754_zero false))
    (replicate (Z.to_nat (vc * 3)) (S754_zero false))) as H3.
  destruct (vertex_loop _ _ _ _ _ _) as [[[off ps] cs]|]; simpl in *; done.
Qed.

(** The snapshot a well-formed buffer decodes to: header fields read,
    vertex section inside the buffer. *)
Lemma after_header_ok buf vc alen :
  getInt32 buf 4 = Ok vc -> getInt32 buf 8 = Ok alen ->
  0 <= vc -> (vc = 0 \/ 16 + 9 * vc <= byteLength buf) ->
  exists ps cs,
    after_header buf =
      Ok {| vertexCount := vc; positions := ps; colors := cs;
            annotations :=
              if 0 <? alen
              then try_catch (read_annotations buf (16 + 9 * vc) alen) (Json.JArr [])
              else Json.JArr [] |}
    /\ length ps = Z.to_nat (3 * vc) /\ length cs = Z.to_nat (3 * vc)
    /\ (forall j : nat, (j < length ps)%nat -> ps !! j = Some (Slots.position_slot buf (Z.of_nat j)))
    /\ (forall j : nat, (j < length cs)%nat -> cs !! j = Some (Slots.color_slot buf (Z.of_nat j))).
Proof.
  intros Hvc Hal Hpos Hlen. unfold after_header. rewrite Hvc, Hal. cbn [bind].
  unfold Float32Array_new. destruct (Z.ltb_spec (vc * 3) 0) as [?|_]; [lia|]. cbn [bind].
  set (zs := replicate (Z.to_nat (vc * 3)) (S754_zero false)).
  assert (Hz : length zs = Z.to_nat (3 * vc)).
  { unfold zs. rewrite length_replicate. f_equal. lia. }
  destruct (decide (vc = 0)) as [->|Hne].
  - exists zs, zs. cbn [Z.to_nat vertex_loop bind].
    split; [done|]. split; [done|]. split; [done|].
    split; intros j Hj; unfold zs in Hj; simpl in Hj; lia.
  - destruct (vertex_loop_ok (Z.to_nat vc) buf 0 zs zs)
      as (ps & cs & Hrun & Hlp & Hlc & Hp & Hc); [lia|lia|].
    change (16 + 9 * 0) with 16 in Hrun. rewrite Hrun. cbn [bind].
    replace (16 + 9 * (0 + Z.of_nat (Z.to_nat vc))) with (16 + 9 * vc) by lia.
    exists ps, cs. split; [done|]. split; [lia|]. split; [lia|].
    split; intros j Hj.
    + rewrite Hp by lia. case_decide; [done|lia].
    + rewrite Hc by lia. case_decide; [done|lia].
Qed.

End SnapshotFacts.

Section SnapshotClaims.

Import Js DataView Lssnap.

Lemma after_header_inv buf snap :
  after_header buf = Ok snap ->
  getInt32 buf 4 = Ok (vertexCount snap)
  /\ 0 <= vertexCount snap
  /\ length (positions snap) = Z.to_nat (3 * vertexCount snap)
  /\ length (colors snap) = Z.to_nat (3 * vertexCount snap).
Proof.
  unfold after_header.
  destruct (getInt32 buf 4) as [vc|]; cbn [bind]; [|done].
  destruct (getInt32 buf 8) as [al|]; cbn [bind]; [|done].
  unfold Float32Array_new. destruct (Z.ltb_spec (vc * 3) 0) as [?|Hvc]; cbn [bind]; [done|].
  destruct (vertex_loop _ _ _ _ _ _) as [[[off ps] cs]|] eqn:E; cbn [bind]; [|done].
  intros [= <-]. cbn [vertexCount positions colors].
  apply vertex_loop_shape in E as (_ & Hp & Hc).
  rewrite length_replicate in Hp, Hc.
  split; [done|]. split; [lia|]. split; [rewrite Hp|rewrite Hc]; f_equal; lia.
Qed.

Lemma parseLssnap_inv buf snap :
  parseLssnap buf = Ok snap ->
  take 3 buf = Wire.magic /\ buf !! 3%nat = Some Wire.version /\ after_header buf = Ok snap.
Proof.
  intros H.
  destruct buf as [|b0 [|b1 [|b2 [|b3 rest]]]]; try done.
  rewrite parseLssnap_four in H.
  destruct (header_rejected b0 b1 b2 b3) eqn:E; [done|].
  apply header_rejected_false in E as [E ->]. by rewrite <- E.
Qed.

Lemma parseLssnap_header_ok buf :
  take 3 buf = Wire.magic -> buf !! 3%nat = Some Wire.version ->
  parseLssnap buf = after_header buf.
Proof.
  intros Hm Hv.
  destruct buf as [|b0 [|b1 [|b2 [|b3 rest]]]]; try done.
  rewrite parseLssnap_four.
  assert (E : header_rejected b0 b1 b2 b3 = false).
  { apply header_rejected_false. simpl in Hm, Hv. split; congruence. }
  by rewrite E.
Qed.

(** Sample buffers. *)
Definition sample_points : list Wire.Point :=
  [ {| Wire.px := 1000; Wire.py := 2000; Wire.pz := -3000;
       Wire.cr := "255"%byte; Wire.cg := "000"%byte; Wire.cb := "000"%byte |};
    {| Wire.px := 0; Wire.py := 0; Wire.pz := 0;
       Wire.cr := "000"%byte; Wire.cg := "255"%byte; Wire.cb := "000"%byte |} ].

Definition sample_buffer : buffer := Wire.encode sample_points [].

Definition sample_snapshot : LssnapData :=
  {| vertexCount := 2;
     positions := [of_Z 1; of_Z 2; of_Z (-3); of_Z 0; of_Z 0; of_Z 0];
     colors := [of_Z 1; of_Z 0; of_Z 0; of_Z 0; of_Z 1; of_Z 0];
     annotations := Json.JArr [] |}.

Lemma sample_buffer_decodes : parseLssnap sample_buffer = Ok sample_snapshot.
Proof. vm_compute. reflexivity. Qed.

(** The header alone says "no vertices, no annotations"; its first twelve
    bytes are all that [parseLssnap] reads of it. *)
Definition header_only : buffer := take 12 (Wire.header 0 0).

Definition bad_magic_buffer : buffer := ("X"%byte : byte) :: drop 1 sample_buffer.

(** C1, as stated, at a buffer of three bytes: the bytes are not "LSS",
    and the error is the RangeError of the read of the version byte, not
    the format error. *)
Lemma C1_short_buffer_counterexample :
  take 3 ["A"; "B"; "C"]%byte <> Wire.magic
  /\ parseLssnap ["A"; "B"; "C"]%byte = Throw RangeError
  /\ is_format_error (parseLssnap ["A"; "B"; "C"]%byte) = false
  /\ parseLssnap [] = Throw RangeError.
Proof. repeat split; try reflexivity. discriminate. Qed.

(** C1 (amended): for every buffer of at least four bytes whose first
    three bytes are not "LSS" or whose fourth byte is not 1, [parseLssnap]
    throws the format error whatever follows; and for every buffer that
    starts with "LSS" and the byte 1 it does not throw the format error.
    (A buffer of fewer than four bytes throws a RangeError.) *)
Theorem C1_format_error (buf : buffer) :
  ((4 <= length buf)%nat ->
   take 3 buf <> Wire.magic \/ buf !! 3%nat <> Some Wire.version ->
   is_format_error (parseLssnap buf) = true)
  /\ (take 3 buf = Wire.magic -> buf !! 3%nat = Some Wire.version ->
      is_format_error (parseLssnap buf) = false)
  /\ ((length buf < 4)%nat -> parseLssnap buf = Throw RangeError).
Proof.
  split; [|split].
  - intros Hlen Hbad.
    destruct buf as [|b0 [|b1 [|b2 [|b3 rest]]]]; simpl in Hlen; try lia.
    rewrite parseLssnap_four.
    destruct (header_rejected b0 b1 b2 b3) eqn:E; [done|].
    apply header_rejected_false in E as [E ->]. simpl in Hbad.
    destruct Hbad as [Hbad|Hbad]; by destruct Hbad.
  - intros Hm Hv. rewrite parseLssnap_header_ok by done.
    pose proof (after_header_cases buf) as Hc.
    destruct (after_header buf) as [|e]; [done|]. simpl in Hc. by subst.
  - apply parseLssnap_short.
Qed.

Lemma C1_format_error_witness :
  is_format_error (parseLssnap bad_magic_buffer) = true
  /\ is_format_error (parseLssnap sample_buffer) = false.
Proof.
  split.
  - apply (proj1 (C1_format_error bad_magic_buffer)).
    + vm_compute. lia.
    + left. vm_compute. intros H. discriminate H.
  - apply (proj1 (proj2 (C1_format_error sample_buffer))); reflexivity.
Defined.

(** C2: every snapshot that [parseLssnap] returns has as many position
    slots as colour slots, three per vertex, the vertex count being the
    int32 of header bytes 4 to 7. *)
Theorem C2_lengths (buf : buffer) (snap : LssnapData) :
  parseLssnap buf = Ok snap ->
  length (positions snap) = length (colors snap)
  /\ Z.of_nat (length (positions snap)) = 3 * vertexCount snap
  /\ Z.of_nat (length (colors snap)) = 3 * vertexCount snap
  /\ getInt32 buf 4 = Ok (vertexCount snap).
Proof.
  intros H. apply parseLssnap_inv in H as (_ & _ & H).
  apply after_header_inv in H as (Hvc & Hpos & Hp & Hc).
  rewrite Hp, Hc. repeat split; try done; lia.
Qed.

Lemma C2_lengths_witness :
  length (positions sample_snapshot) = length (colors sample_snapshot)
  /\ Z.of_nat (length (positions sample_snapshot)) = 3 * vertexCount sample_snapshot
  /\ Z.of_nat (length (colors sample_snapshot)) = 3 * vertexCount sample_snapshot
  /\ getInt32 sample_buffer 4 = Ok (vertexCount sample_snapshot).
Proof. exact (C2_lengths sample_buffer sample_snapshot sample_buffer_decodes). Defined.

(** C10, as stated, at the twelve-byte header with vertex count 0: the
    buffer is shorter than 16 + 9 * 0 bytes, and [parseLssnap] returns. *)
Lemma C10_header_only_counterexample :
  byteLength header_only = 12
  /\ getInt32 header_only 4 = Ok 0
  /\ byteLength header_only < 16 + 9 * 0
  /\ parseLssnap header_only =
       Ok {| vertexCount := 0; positions := []; colors := []; annotations := Json.JArr [] |}.
Proof. repeat split. Qed.

(** C10 (amended): behind a valid header, [parseLssnap] throws a
    RangeError, and neither returns nor throws the format error, when the
    buffer has fewer than 12 bytes, when the vertex count is negative, and
    when the vertex count is positive and the buffer has fewer than
    16 + 9 * vertexCount bytes. *)
Theorem C10_range_error (buf : buffer) :
  take 3 buf = Wire.magic -> buf !! 3%nat = Some Wire.version ->
  (byteLength buf < 12 -> parseLssnap buf = Throw RangeError)
  /\ (forall vc, getInt32 buf 4 = Ok vc ->
        vc < 0 \/ (0 < vc /\ byteLength buf < 16 + 9 * vc) ->
        parseLssnap buf = Throw RangeError).
Proof.
  intros Hm Hv. rewrite parseLssnap_header_ok by done.
  assert (Hcases : forall r : result LssnapData,
            ok_or_range r -> returns r = false -> r = Throw RangeError).
  { intros [a|e] Hc Hr; [done|]. simpl in Hc. by subst. }
  split.
  - intros Hlen. unfold after_header.
    destruct (getInt32 buf 4) as [vc|e] eqn:E4.
    + cbn [bind]. by rewrite getInt32_out by lia.
    + pose proof (getInt32_cases buf 4) as Hc. rewrite E4 in Hc. simpl in Hc. by subst.
  - intros vc E4 Hbad. apply Hcases; [apply after_header_cases|].
    unfold after_header. rewrite E4. cbn [bind].
    destruct (getInt32 buf 8) as [al|] eqn:E8; cbn [bind]; [|done].
    unfold Float32Array_new.
    destruct (Z.ltb_spec (vc * 3) 0) as [?|Hge]; cbn [bind]; [done|].
    destruct Hbad as [?|[Hpos Hlen]]; [lia|].
    rewrite vertex_loop_short; [done|lia|lia|lia].
Qed.

Definition truncated_buffer : buffer := take 20 sample_buffer.

Lemma C10_range_error_witness :
  parseLssnap truncated_buffer = Throw RangeError.
Proof.
  apply (proj2 (C10_range_error truncated_buffer eq_refl eq_refl) 2).
  - reflexivity.
  - right. vm_compute. split; reflexivity.
Defined.

End SnapshotClaims.

Section AnnotationBlockClaims.

Import Js DataView Lssnap.

(** A snapshot without vertices whose annotation block is the JSON text
    of an empty object, and malformed annotation text behind two
    vertices. *)
Definition object_block_buffer : buffer := Wire.encode [] ["{"; "}"]%byte.

Definition malformed_block_buffer : buffer := Wire.encode sample_points ["["; "1"; ","]%byte.

(** C7, at an annotation block of the wrong shape.  The buffer is a valid
    header with vertex count 0 and annotation length 2, followed by the
    text [{}].  [JSON.parse] does not throw on it, so the [catch] that is
    to "ignore bad annotations" is never entered and nothing else looks
    at the shape: the snapshot carries the object, which is no list of
    annotations, where the malformed text of the sibling buffer is
    replaced by the empty list. *)
Lemma C7_object_block_returned :
  Wire.byte_val <$> object_block_buffer
    = [76; 83; 83; 1; 0; 0; 0; 0; 2; 0; 0; 0; 0; 0; 0; 0; 123; 125]
  /\ getInt32 object_block_buffer 8 = Ok 2
  /\ read_annotations object_block_buffer 16 2 = Ok (Json.JObj [])
  /\ parseLssnap object_block_buffer =
       Ok {| vertexCount := 0; positions := []; colors := []; annotations := Json.JObj [] |}
  /\ Overlay.annotations_of (Json.JObj []) = None
  /\ read_annotations malformed_block_buffer 34 3 = Throw SyntaxError
  /\ exists snap,
       parseLssnap malformed_block_buffer = Ok snap
       /\ vertexCount snap = 2 /\ annotations snap = Json.JArr [].
Proof.
  split; [reflexivity|]. split; [reflexivity|]. split; [reflexivity|].
  split; [reflexivity|]. split; [reflexivity|]. split; [vm_compute; reflexivity|].
  eexists. split; [vm_compute; reflexivity|]. split; reflexivity.
Qed.

(** X16: an annotation block that cannot be read never costs the point
    cloud.  For every buffer whose header and vertex section decode
    (valid header, vertex count 0, or positive with at least
    16 + 9 * vertexCount bytes), [parseLssnap] returns a snapshot with
    that vertex count; its annotation list is empty when the annotation
    length is not positive (nothing is read or parsed then) and when
    reading the byte range or [JSON.parse] throws. *)
Theorem X16_unreadable_annotations_dropped (buf : buffer) (vc alen : Z) :
  take 3 buf = Wire.magic -> buf !! 3%nat = Some Wire.version ->
  getInt32 buf 4 = Ok vc -> getInt32 buf 8 = Ok alen ->
  0 <= vc -> (vc = 0 \/ 16 + 9 * vc <= byteLength buf) ->
  exists snap,
    parseLssnap buf = Ok snap
    /\ vertexCount snap = vc
    /\ (alen <= 0 -> annotations snap = Json.JArr [])
    /\ (0 < alen -> forall e, read_annotations buf (16 + 9 * vc) alen = Throw e ->
          annotations snap = Json.JArr []).
Proof.
  intros Hm Hv Hvc Hal Hpos Hlen. rewrite parseLssnap_header_ok by done.
  destruct (after_header_ok buf vc alen Hvc Hal Hpos Hlen) as (ps & cs & Hrun & _).
  rewrite Hrun. eexists. split; [reflexivity|]. cbn [vertexCount annotations].
  split; [done|].
  destruct (Z.ltb_spec 0 alen) as [Hlt|Hge].
  - split; [lia|]. intros _ ? E. by rewrite E.
  - split; [done|]. intros; lia.
Qed.

Lemma X16_unreadable_annotations_dropped_witness :
  exists snap, parseLssnap malformed_block_buffer = Ok snap
    /\ vertexCount snap = 2 /\ annotations snap = Json.JArr [].
Proof.
  destruct (X16_unreadable_annotations_dropped malformed_block_buffer 2 3
              eq_refl eq_refl eq_refl eq_refl)
    as (snap & Hrun & Hvc & _ & Hthrow).
  - lia.
  - right. vm_compute. discriminate.
  - exists snap. split; [exact Hrun|]. split; [exact Hvc|].
    apply (Hthrow eq_refl SyntaxError). vm_compute. reflexivity.
Defined.

End AnnotationBlockClaims.

(** ** Lists of records of a fixed size *)

Section FixedSize.

Context {A B : Type} (f : A -> list B) (k : nat).
Hypothesis f_length : forall a, length (f a) = k.

Lemma length_concat_fixed (l : list A) : length (concat (f <$> l)) = (k * length l)%nat.
Proof using f_length.
  induction l as [|a l IH]; csimpl; [lia|].
  rewrite length_app, IH, f_length. lia.
Qed.

Lemma lookup_concat_fixed (l : list A) (i c : nat) (p : A) :
  l !! i = Some p -> (c < k)%nat -> concat (f <$> l) !! (k * i + c)%nat = f p !! c.
Proof using f_length.
  revert i. induction l as [|a l IH]; intros i Hi Hc; [done|].
  destruct i as [|i]; csimpl in *.
  - injection Hi as ->. rewrite lookup_app_l by (rewrite f_length; lia).
    f_equal. lia.
  - rewrite lookup_app_r by (rewrite f_length; lia).
    rewrite f_length. rewrite <- (IH i Hi Hc). f_equal. lia.
Qed.

Lemma concat_fixed_eq (l : list A) (out : list B) :
  (0 < k)%nat -> length out = (k * length l)%nat ->
  (forall i c p, l !! i = Some p -> (c < k)%nat -> out !! (k * i + c)%nat = f p !! c) ->
  out = concat (f <$> l).
Proof using f_length.
  intros Hk Hlen Hall. apply list_eq. intros j.
  destruct (decide (j < k * length l)%nat) as [Hj|Hj].
  - pose proof (Nat.div_mod_eq j k) as Hdm.
    pose proof (Nat.mod_upper_bound j k ltac:(lia)) as Hm.
    assert (Hi : (j / k < length l)%nat) by (apply Nat.Div0.div_lt_upper_bound; lia).
    destruct (lookup_lt_is_Some_2 l (j / k) Hi) as [p Hp].
    rewrite Hdm. rewrite (Hall _ _ p Hp Hm). symmetry. by apply lookup_concat_fixed.
  - rewrite !lookup_ge_None_2; [done| |lia]. rewrite length_concat_fixed. lia.
Qed.

End FixedSize.

(** ** The round trip through the wire layout *)

Section RoundTrip.

Import Js DataView Lssnap.

Lemma all_range_spec (p : positive) (f : Z -> bool) (base : Z) :
  all_range p f base = true -> forall z, base <= z < base + Zpos p -> f z = true.
Proof.
  revert base. induction p as [q IH|q IH|]; intros base; cbn [all_range].
  - rewrite !andb_true_iff. intros [[H0 H1] H2] z Hz.
    destruct (decide (z = base)) as [->|Hne]; [done|].
    destruct (decide (z < base + 1 + Zpos q)) as [Hlt|Hge].
    + apply (IH _ H1). lia.
    + apply (IH _ H2). lia.
  - rewrite andb_true_iff. intros [H1 H2] z Hz.
    destruct (decide (z < base + Zpos q)) as [Hlt|Hge].
    + apply (IH _ H1). lia.
    + apply (IH _ H2). lia.
  - intros H z Hz. by replace z with base by lia.
Qed.

(** The coordinate slot of [k] is a finite number within 0.001 of
    [k] / 1000. *)
Definition within_thousandth (v : num) (k : Z) : bool :=
  is_finite v && Qle_bool (Qabs (to_Q v - (k # 1000))) (1 # 1000).

(** The colour slot of the byte [c] is a finite number within 2^-25 of
    [c] / 255. *)
Definition close_to_ratio (v : num) (c : Z) : bool :=
  is_finite v && Qle_bool (Qabs (to_Q v - (c # 255))) (1 # 33554432).

Lemma coord_slot_close (k : Z) :
  -32768 <= k <= 32767 -> within_thousandth (Wire.coord_slot k) k = true.
Proof.
  intros Hk.
  apply (all_range_spec 65536 (fun k => within_thousandth (Wire.coord_slot k) k) (-32768));
    [vm_compute; reflexivity | lia].
Qed.

Lemma color_slot_close (c : Z) :
  0 <= c <= 255 -> close_to_ratio (Wire.color_slot c) c = true.
Proof.
  intros Hc.
  apply (all_range_spec 256 (fun c => close_to_ratio (Wire.color_slot c) c) 0);
    [vm_compute; reflexivity | lia].
Qed.

Lemma record_length (p : Wire.Point) : length (Wire.record p) = 9%nat.
Proof. reflexivity. Qed.

Lemma encode_byte_at (pts : list Wire.Point) (annot : list byte) (i d : nat) (p : Wire.Point) :
  pts !! i = Some p -> (d < 9)%nat ->
  byte_at (Wire.encode pts annot) (16 + 9 * Z.of_nat i + Z.of_nat d)
    = Wire.byte_val <$> (Wire.record p !! d).
Proof.
  intros Hp Hd. unfold Wire.encode.
  replace (16 + 9 * Z.of_nat i + Z.of_nat d)
    with (byteLength (Wire.header (Z.of_nat (length pts)) (Z.of_nat (length annot)))
          + Z.of_nat (9 * i + d)) by (unfold byteLength; simpl length; lia).
  rewrite byte_at_app by lia. unfold byte_at.
  destruct (Z.ltb_spec (Z.of_nat (9 * i + d)) 0) as [?|_]; [lia|].
  rewrite Nat2Z.id. f_equal.
  rewrite lookup_app_l.
  - by apply (lookup_concat_fixed Wire.record 9 record_length).
  - rewrite (length_concat_fixed Wire.record 9 record_length).
    apply lookup_lt_Some in Hp. lia.
Qed.

Lemma int16_le_value (k : Z) :
  -32768 <= k <= 32767 ->
  to_signed 16 (Wire.byte_val (Wire.byte_of k) + 256 * Wire.byte_val (Wire.byte_of (k / 256))) = k.
Proof.
  intros Hk. rewrite !byte_val_of. unfold to_signed.
  change (2 ^ (16 - 1)) with 32768. change (2 ^ 16) with 65536.
  destruct (Z.ltb_spec (k mod 256 + 256 * ((k / 256) mod 256)) 32768) as [H|H];
    revert H; Z.to_euclidean_division_equations; lia.
Qed.

Lemma int32_le_value (k : Z) :
  0 <= k < 2 ^ 31 ->
  to_signed 32 (Wire.byte_val (Wire.byte_of k) + 256 * Wire.byte_val (Wire.byte_of (k / 256))
                + 65536 * Wire.byte_val (Wire.byte_of (k / 65536))
                + 16777216 * Wire.byte_val (Wire.byte_of (k / 16777216))) = k.
Proof.
  intros Hk. rewrite !byte_val_of. unfold to_signed.
  change (2 ^ (32 - 1)) with 2147483648. change (2 ^ 32) with 4294967296.
  change (2 ^ 31) with 2147483648 in Hk.
  destruct (Z.ltb_spec (k mod 256 + 256 * ((k / 256) mod 256)
                        + 65536 * ((k / 65536) mod 256)
                        + 16777216 * ((k / 16777216) mod 256)) 2147483648) as [H|H];
    revert H; Z.to_euclidean_division_equations; lia.
Qed.

End RoundTrip.

Section RoundTripClaim.

Import Js DataView Lssnap.

Lemma encode_length pts annot :
  byteLength (Wire.encode pts annot) = 16 + 9 * Z.of_nat (length pts) + Z.of_nat (length annot).
Proof.
  unfold byteLength, Wire.encode. rewrite !length_app.
  rewrite (length_concat_fixed Wire.record 9 record_length). simpl length. lia.
Qed.

Lemma encode_vertexCount pts annot :
  Z.of_nat (length pts) < 2 ^ 31 ->
  getInt32 (Wire.encode pts annot) 4 = Ok (Z.of_nat (length pts)).
Proof.
  intros H. unfold Wire.encode, Wire.header, Wire.int32_le, getInt32. cbn.
  fold (Wire.byte_val (Wire.byte_of (Z.of_nat (length pts)))).
  fold (Wire.byte_val (Wire.byte_of (Z.of_nat (length pts) / 256))).
  fold (Wire.byte_val (Wire.byte_of (Z.of_nat (length pts) / 65536))).
  fold (Wire.byte_val (Wire.byte_of (Z.of_nat (length pts) / 16777216))).
  f_equal. apply int32_le_value. lia.
Qed.

Lemma encode_annotLen pts annot :
  Z.of_nat (length annot) < 2 ^ 31 ->
  getInt32 (Wire.encode pts annot) 8 = Ok (Z.of_nat (length annot)).
Proof.
  intros H. unfold Wire.encode, Wire.header, Wire.int32_le, getInt32. cbn.
  fold (Wire.byte_val (Wire.byte_of (Z.of_nat (length annot)))).
  fold (Wire.byte_val (Wire.byte_of (Z.of_nat (length annot) / 256))).
  fold (Wire.byte_val (Wire.byte_of (Z.of_nat (length annot) / 65536))).
  fold (Wire.byte_val (Wire.byte_of (Z.of_nat (length annot) / 16777216))).
  f_equal. apply int32_le_value. lia.
Qed.

Lemma slot_index (i c : nat) :
  (c < 3)%nat ->
  Z.of_nat (3 * i + c) / 3 = Z.of_nat i /\ Z.of_nat (3 * i + c) mod 3 = Z.of_nat c.
Proof.
  intros Hc. split.
  - symmetry. apply (Z.div_unique _ 3 _ (Z.of_nat c)); lia.
  - symmetry. apply (Z.mod_unique _ 3 (Z.of_nat i)); lia.
Qed.

Lemma encode_uint8_at pts annot (i d : nat) (p : Wire.Point) (b : byte) :
  pts !! i = Some p -> Wire.record p !! d = Some b ->
  Slots.uint8_at (Wire.encode pts annot) (16 + 9 * Z.of_nat i + Z.of_nat d) = Wire.byte_val b.
Proof.
  intros Hp Hb. unfold Slots.uint8_at.
  rewrite (encode_byte_at pts annot i d p Hp).
  - by rewrite Hb.
  - apply lookup_lt_Some in Hb. by rewrite record_length in Hb.
Qed.

Lemma encode_position_slot pts annot (i c : nat) (p : Wire.Point) :
  pts !! i = Some p -> Wire.point_ok p -> (c < 3)%nat ->
  Some (Slots.position_slot (Wire.encode pts annot) (Z.of_nat (3 * i + c)))
    = Wire.point_positions p !! c.
Proof.
  intros Hp (Hx & Hy & Hz) Hc. unfold Wire.coord_ok in *.
  unfold Slots.position_slot. destruct (slot_index i c Hc) as [-> ->].
  unfold Slots.int16_at.
  destruct c as [|[|[|c]]]; [| | |lia]; cbn [Wire.point_positions lookup list_lookup].
  - replace (16 + 9 * Z.of_nat i + 2 * Z.of_nat 0) with (16 + 9 * Z.of_nat i + Z.of_nat 0) by lia.
    rewrite (encode_uint8_at pts annot i 0 p _ Hp eq_refl).
    replace (16 + 9 * Z.of_nat i + Z.of_nat 0 + 1) with (16 + 9 * Z.of_nat i + Z.of_nat 1) by lia.
    rewrite (encode_uint8_at pts annot i 1 p _ Hp eq_refl).
    rewrite int16_le_value by lia. done.
  - replace (16 + 9 * Z.of_nat i + 2 * Z.of_nat 1) with (16 + 9 * Z.of_nat i + Z.of_nat 2) by lia.
    rewrite (encode_uint8_at pts annot i 2 p _ Hp eq_refl).
    replace (16 + 9 * Z.of_nat i + Z.of_nat 2 + 1) with (16 + 9 * Z.of_nat i + Z.of_nat 3) by lia.
    rewrite (encode_uint8_at pts annot i 3 p _ Hp eq_refl).
    rewrite int16_le_value by lia. done.
  - replace (16 + 9 * Z.of_nat i + 2 * Z.of_nat 2) with (16 + 9 * Z.of_nat i + Z.of_nat 4) by lia.
    rewrite (encode_uint8_at pts annot i 4 p _ Hp eq_refl).
    replace (16 + 9 * Z.of_nat i + Z.of_nat 4 + 1) with (16 + 9 * Z.of_nat i + Z.of_nat 5) by lia.
    rewrite (encode_uint8_at pts annot i 5 p _ Hp eq_refl).
    rewrite int16_le_value by lia. done.
Qed.

Lemma encode_color_slot pts annot (i c : nat) (p : Wire.Point) :
  pts !! i = Some p -> (c < 3)%nat ->
  Some (Slots.color_slot (Wire.encode pts annot) (Z.of_nat (3 * i + c)))
    = Wire.point_colors p !! c.
Proof.
  intros Hp Hc.
  unfold Slots.color_slot. destruct (slot_index i c Hc) as [-> ->].
  destruct c as [|[|[|c]]]; [| | |lia]; cbn [Wire.point_colors lookup list_lookup].
  - replace (16 + 9 * Z.of_nat i + 6 + Z.of_nat 0)
      with (16 + 9 * Z.of_nat i + Z.of_nat 6) by lia.
    by rewrite (encode_uint8_at pts annot i 6 p _ Hp eq_refl).
  - replace (16 + 9 * Z.of_nat i + 6 + Z.of_nat 1)
      with (16 + 9 * Z.of_nat i + Z.of_nat 7) by lia.
    by rewrite (encode_uint8_at pts annot i 7 p _ Hp eq_refl).
  - replace (16 + 9 * Z.of_nat i + 6 + Z.of_nat 2)
      with (16 + 9 * Z.of_nat i + Z.of_nat 8) by lia.
    by rewrite (encode_uint8_at pts annot i 8 p _ Hp eq_refl).
Qed.

(** What the claim asks of a colour slot, read literally: its value is the
    ratio [c] / 255. *)
Definition exact_ratio (v : num) (c : Z) : Prop := (to_Q v == c # 255)%Q.

Definition dim_red_point : Wire.Point :=
  {| Wire.px := 0; Wire.py := 0; Wire.pz := 0;
     Wire.cr := "001"%byte; Wire.cg := "000"%byte; Wire.cb := "000"%byte |}.

(** C3, as stated, at a colour byte of 1: the slot holds [1 / 255.0]
    rounded to binary32, which is neither the ratio 1/255 nor the number
    that [1 / 255] evaluates to. *)
Lemma C3_color_ratio_counterexample :
  exists snap v,
    parseLssnap (Wire.encode [dim_red_point] []) = Ok snap
    /\ colors snap !! 0%nat = Some v
    /\ ~ exact_ratio v 1
    /\ eqb v (div (of_Z 1) (of_Z 255)) = false
    /\ v = fround (div (of_Z 1) (of_Z 255)).
Proof.
  eexists. eexists. split; [vm_compute; reflexivity|].
  split; [reflexivity|]. split; [|split; reflexivity].
  unfold exact_ratio. vm_compute. discriminate.
Qed.

(** C3 (amended): a point set whose coordinates are multiples of 0.001
    within +-32.767 and whose colours are byte triples, laid out on the
    wire and decoded, comes back record by record, in order: every
    coordinate slot is a number within 0.001 of the coordinate, and every
    colour slot is [byte / 255.0] rounded to binary32, a number within
    2^-25 of the ratio, which is exactly 0 for the byte 0 and exactly 1
    for the byte 255. *)
Theorem C3_round_trip (pts : list Wire.Point) (annot : list byte) :
  Forall Wire.point_ok pts ->
  Z.of_nat (length pts) < 2 ^ 31 -> Z.of_nat (length annot) < 2 ^ 31 ->
  exists snap,
    parseLssnap (Wire.encode pts annot) = Ok snap
    /\ vertexCount snap = Z.of_nat (length pts)
    /\ positions snap = concat (Wire.point_positions <$> pts)
    /\ colors snap = concat (Wire.point_colors <$> pts)
    /\ Forall (fun p =>
         within_thousandth (Wire.coord_slot (Wire.px p)) (Wire.px p) = true
         /\ within_thousandth (Wire.coord_slot (Wire.py p)) (Wire.py p) = true
         /\ within_thousandth (Wire.coord_slot (Wire.pz p)) (Wire.pz p) = true
         /\ close_to_ratio (Wire.color_slot (Wire.byte_val (Wire.cr p))) (Wire.byte_val (Wire.cr p)) = true
         /\ close_to_ratio (Wire.color_slot (Wire.byte_val (Wire.cg p))) (Wire.byte_val (Wire.cg p)) = true
         /\ close_to_ratio (Wire.color_slot (Wire.byte_val (Wire.cb p))) (Wire.byte_val (Wire.cb p)) = true)
         pts
    /\ Wire.color_slot 0 = of_Z 0 /\ Wire.color_slot 255 = of_Z 1.
Proof.
  intros Hok Hn Ha.
  rewrite parseLssnap_header_ok by reflexivity.
  destruct (after_header_ok (Wire.encode pts annot) (Z.of_nat (length pts))
              (Z.of_nat (length annot)))
    as (ps & cs & Hrun & Hlp & Hlc & Hp & Hc).
  { by apply encode_vertexCount. }
  { by apply encode_annotLen. }
  { lia. }
  { right. rewrite encode_length. lia. }
  rewrite Hrun. eexists. split; [reflexivity|]. cbn [vertexCount positions colors].
  split; [done|]. split; [|split; [|split; [|split; reflexivity]]].
  - apply (concat_fixed_eq Wire.point_positions 3); [done|lia|lia|].
    intros i c p Hi Hc3. rewrite Hp.
    + apply encode_position_slot; [done| |done].
      by eapply Forall_lookup_1 in Hok.
    + apply lookup_lt_Some in Hi. lia.
  - apply (concat_fixed_eq Wire.point_colors 3); [done|lia|lia|].
    intros i c p Hi Hc3. rewrite Hc.
    + by apply encode_color_slot.
    + apply lookup_lt_Some in Hi. lia.
  - apply Forall_forall. intros p Hin.
    apply (proj1 (Forall_forall _ _) Hok) in Hin as (Hx & Hy & Hz).
    unfold Wire.coord_ok in *.
    repeat split; try (apply coord_slot_close; lia);
      apply color_slot_close, byte_val_range.
Qed.

(** The point set of the specification: (1, 2, -3) in red and the origin
    in green come back as those numbers and as the ratios (1, 0, 0) and
    (0, 1, 0). *)
Lemma C3_round_trip_witness :
  exists snap,
    parseLssnap sample_buffer = Ok snap
    /\ positions snap = [of_Z 1; of_Z 2; of_Z (-3); of_Z 0; of_Z 0; of_Z 0]
    /\ colors snap = [of_Z 1; of_Z 0; of_Z 0; of_Z 0; of_Z 1; of_Z 0].
Proof.
  destruct (C3_round_trip sample_points []) as (snap & Hrun & _ & Hp & Hc & _).
  - repeat constructor; vm_compute; discriminate.
  - vm_compute. reflexivity.
  - vm_compute. reflexivity.
  - exists snap. split; [exact Hrun|]. split.
    + rewrite Hp. vm_compute. reflexivity.
    + rewrite Hc. vm_compute. reflexivity.
Defined.

End RoundTripClaim.

(** ** Arithmetic of numbers *)

Section NumberFacts.

Import Js.

Lemma sub_add_neg (a b : num) : sub a b = add a (neg b).
Proof.
  unfold sub, add, neg.
  destruct a as [sa|sa| |sa ma ea], b as [sb|sb| |sb mb eb];
    try reflexivity; destruct sa, sb; reflexivity.
Qed.

Lemma binary_round_aux_neg prec emax s m e l :
  binary_round_aux prec emax (negb s) m e l = SFopp (binary_round_aux prec emax s m e l).
Proof.
  unfold binary_round_aux.
  destruct (shr_fexp prec emax m e l) as [mrs' e'].
  destruct (shr_fexp prec emax _ e' loc_Exact) as [mrs'' e''].
  destruct (shr_m mrs''); [done| |done].
  by destruct (e'' <=? emax - prec).
Qed.

Lemma mul_comm (a b : num) : mul a b = mul b a.
Proof.
  unfold mul.
  destruct a as [sa|sa| |sa ma ea], b as [sb|sb| |sb mb eb];
    try (destruct sa, sb; reflexivity); try reflexivity.
  cbn [SFmul]. by rewrite xorb_comm, Pos.mul_comm, Z.add_comm.
Qed.

Lemma neg_mul (a b : num) : neg (mul a b) = mul (neg a) b.
Proof.
  unfold mul, neg.
  destruct a as [sa|sa| |sa ma ea], b as [sb|sb| |sb mb eb];
    try (destruct sa, sb; reflexivity); try reflexivity.
  cbn [SFmul SFopp]. rewrite <- binary_round_aux_neg. f_equal. by destruct sa, sb.
Qed.

(** [c - m * k] is [c + (-k) * m]: a subtraction adds the negated
    product, and negation passes to the factor without a rounding. *)
Lemma sub_mul_offset (c m k : num) : sub c (mul m k) = add c (mul (neg k) m).
Proof. by rewrite sub_add_neg, mul_comm, neg_mul. Qed.

(** Adding the offset 0 gives the same number (up to the sign of a zero). *)
Definition same_number (a b : num) : Prop :=
  a = b \/ (exists s t, a = S754_zero s /\ b = S754_zero t).

Lemma add_zero_same (a : num) : same_number (add a Three.zero) a.
Proof.
  destruct a as [sa|sa| |sa ma ea]; try (left; reflexivity).
  right. destruct sa; eexists _, _; split; reflexivity.
Qed.

End NumberFacts.

(** ** The order of numbers, and the bounding box of a non-empty array *)

Section OrderFacts.

Import Js.

(** A number that is not NaN has a place in a lexicographic order of
    integer triples: sign class, then exponent, then mantissa, the last
    two reversed for negative numbers. *)
Definition key (a : num) : Z * Z * Z :=
  match a with
  | S754_zero _ => (0, 0, 0)
  | S754_infinity false => (2, 0, 0)
  | S754_infinity true => (-2, 0, 0)
  | S754_nan => (0, 0, 0)
  | S754_finite false m e => (1, e, Zpos m)
  | S754_finite true m e => (-1, - e, Zneg m)
  end.

Definition lex_lt (p q : Z * Z * Z) : Prop :=
  let '(a1, a2, a3) := p in
  let '(b1, b2, b3) := q in
  a1 < b1 \/ (a1 = b1 /\ (a2 < b2 \/ (a2 = b2 /\ a3 < b3))).

Definition lex_eq (p q : Z * Z * Z) : Prop :=
  let '(a1, a2, a3) := p in
  let '(b1, b2, b3) := q in
  a1 = b1 /\ a2 = b2 /\ a3 = b3.

Definition is_nan (a : num) : bool :=
  match a with
  | S754_nan => true
  | _ => false
  end.

Lemma compare_nan (a b : num) : SFcompare a b = None <-> is_nan a = true \/ is_nan b = true.
Proof.
  destruct a as [sa|sa| |sa ma ea], b as [sb|sb| |sb mb eb]; simpl;
    try (destruct sa); try (destruct sb); simpl; split; intros H;
    try discriminate; try tauto; try (destruct H; discriminate).
Qed.

Lemma compare_key (a b : num) :
  is_nan a = false -> is_nan b = false ->
  match SFcompare a b with
  | Some Lt => lex_lt (key a) (key b)
  | Some Eq => lex_eq (key a) (key b)
  | Some Gt => lex_lt (key b) (key a)
  | None => False
  end.
Proof.
  intros Ha Hb.
  destruct a as [sa|sa| |sa ma ea], b as [sb|sb| |sb mb eb]; try discriminate;
    try (destruct sa); try (destruct sb); simpl; try lia.
  - destruct (Z.compare_spec ea eb); simpl; try lia.
    change (Pos.compare_cont Eq ma mb) with (Pos.compare ma mb).
    destruct (Pos.compare_spec ma mb); simpl; lia.
  - destruct (Z.compare_spec ea eb); simpl; try lia.
    change (Pos.compare_cont Eq ma mb) with (Pos.compare ma mb).
    destruct (Pos.compare_spec ma mb); simpl; lia.
Qed.

Definition le (a b : num) : Prop := leb a b = true.

Lemma le_key (a b : num) :
  is_nan a = false -> is_nan b = false ->
  (le a b <-> lex_lt (key a) (key b) \/ lex_eq (key a) (key b)).
Proof.
  intros Ha Hb. pose proof (compare_key a b Ha Hb) as Hk.
  pose proof (compare_key b a Hb Ha) as Hk'.
  unfold le, leb, SFleb.
  destruct (key a) as [[a1 a2] a3], (key b) as [[b1 b2] b3].
  destruct (SFcompare a b) as [[| |]|], (SFcompare b a) as [[| |]|];
    simpl in *; split; intros H; try done; try lia.
Qed.

Lemma le_refl (a : num) : is_nan a = false -> le a a.
Proof.
  intros Ha. apply le_key; [done..|]. right.
  destruct (key a) as [[a1 a2] a3]. simpl. lia.
Qed.

Lemma le_trans (a b c : num) :
  is_nan a = false -> is_nan b = false -> is_nan c = false ->
  le a b -> le b c -> le a c.
Proof.
  intros Ha Hb Hc Hab Hbc.
  apply le_key in Hab; [|done..]. apply le_key in Hbc; [|done..].
  apply le_key; [done..|].
  destruct (key a) as [[a1 a2] a3], (key b) as [[b1 b2] b3], (key c) as [[c1 c2] c3].
  simpl in *. lia.
Qed.

Lemma le_not_lt (a b : num) : le a b -> ltb b a = false.
Proof.
  unfold le, leb, ltb, SFleb, SFltb. intros H.
  destruct (SFcompare a b) as [[| |]|] eqn:E; try done.
  - assert (Ha : is_nan a = false /\ is_nan b = false).
    { destruct (is_nan a) eqn:Ea, (is_nan b) eqn:Eb; try done;
        assert (SFcompare a b = None) by (apply compare_nan; auto); congruence. }
    destruct Ha as [Ha Hb].
    pose proof (compare_key a b Ha Hb) as Hk. pose proof (compare_key b a Hb Ha) as Hk'.
    rewrite E in Hk.
    destruct (key a) as [[a1 a2] a3], (key b) as [[b1 b2] b3].
    destruct (SFcompare b a) as [[| |]|]; simpl in *; try done; lia.
  - assert (Ha : is_nan a = false /\ is_nan b = false).
    { destruct (is_nan a) eqn:Ea, (is_nan b) eqn:Eb; try done;
        assert (SFcompare a b = None) by (apply compare_nan; auto); congruence. }
    destruct Ha as [Ha Hb].
    pose proof (compare_key a b Ha Hb) as Hk. pose proof (compare_key b a Hb Ha) as Hk'.
    rewrite E in Hk.
    destruct (key a) as [[a1 a2] a3], (key b) as [[b1 b2] b3].
    destruct (SFcompare b a) as [[| |]|]; simpl in *; try done; lia.
Qed.

(** [min2] and [max2] pick one of their arguments, below and above both. *)
Lemma min2_spec (a b : num) :
  is_nan a = false -> is_nan b = false ->
  is_nan (min2 a b) = false /\ le (min2 a b) a /\ le (min2 a b) b.
Proof.
  intros Ha Hb. pose proof (compare_key a b Ha Hb) as Hk.
  assert (Hm : (min2 a b = a /\ (lex_lt (key a) (key b) \/ lex_eq (key a) (key b)))
            \/ (min2 a b = b /\ (lex_lt (key b) (key a) \/ lex_eq (key a) (key b)))).
  { unfold min2. destruct (SFcompare a b) as [[| |]|]; [| |  |done].
    - destruct a as [[|]| | |], b as [[|]| | |]; auto.
    - auto.
    - auto. }
  destruct Hm as [[-> H]|[-> H]].
  - split; [done|]. split; [by apply le_refl|]. by apply le_key.
  - split; [done|]. split; [|by apply le_refl]. apply le_key; [done..|].
    destruct (key a) as [[a1 a2] a3], (key b) as [[b1 b2] b3]. simpl in *. lia.
Qed.

Lemma max2_spec (a b : num) :
  is_nan a = false -> is_nan b = false ->
  is_nan (max2 a b) = false /\ le a (max2 a b) /\ le b (max2 a b).
Proof.
  intros Ha Hb. pose proof (compare_key a b Ha Hb) as Hk.
  assert (Hm : (max2 a b = a /\ (lex_lt (key b) (key a) \/ lex_eq (key a) (key b)))
            \/ (max2 a b = b /\ (lex_lt (key a) (key b) \/ lex_eq (key a) (key b)))).
  { unfold max2. destruct (SFcompare a b) as [[| |]|]; [| |  |done].
    - destruct a as [[|]| | |], b as [[|]| | |]; auto.
    - auto.
    - auto. }
  destruct Hm as [[-> H]|[-> H]].
  - split; [done|]. split; [by apply le_refl|]. apply le_key; [done..|].
    destruct (key a) as [[a1 a2] a3], (key b) as [[b1 b2] b3]. simpl in *. lia.
  - split; [done|]. split; [|by apply le_refl]. by apply le_key.
Qed.

Lemma min2_nan (a b : num) : is_nan a = true \/ is_nan b = true -> min2 a b = NaN.
Proof. intros H. apply compare_nan in H. unfold min2. by rewrite H. Qed.

Lemma max2_nan (a b : num) : is_nan a = true \/ is_nan b = true -> max2 a b = NaN.
Proof. intros H. apply compare_nan in H. unfold max2. by rewrite H. Qed.

End OrderFacts.

Section BoxFacts.

Import Js.

(** Along one axis, after at least one point: the two bounds are both NaN
    (some coordinate was), or neither is and the lower is below the upper. *)
Definition axis_ok (mn mx : num) : Prop :=
  (mn = NaN /\ mx = NaN) \/ (is_nan mn = false /\ is_nan mx = false /\ le mn mx).

Lemma axis_step (mn mx v : num) :
  axis_ok mn mx \/ (mn = Infinity /\ mx = NegInfinity) ->
  axis_ok (min2 mn v) (max2 mx v).
Proof.
  intros H. destruct (is_nan v) eqn:Ev.
  { left. split; [apply min2_nan|apply max2_nan]; auto. }
  destruct H as [[[-> ->]|(Hn & Hx & Hle)]|[-> ->]].
  - left. split; [apply min2_nan|apply max2_nan]; auto.
  - right.
    destruct (min2_spec mn v Hn Ev) as (Hmn & Hmn1 & _).
    destruct (max2_spec mx v Hx Ev) as (Hmx & Hmx1 & _).
    split; [done|]. split; [done|].
    apply (le_trans _ mn); [done..|]. by apply (le_trans _ mx).
  - right.
    destruct (min2_spec Infinity v eq_refl Ev) as (Hmn & _ & Hmn2).
    destruct (max2_spec NegInfinity v eq_refl Ev) as (Hmx & _ & Hmx2).
    split; [done|]. split; [done|]. by apply (le_trans _ v).
Qed.

Lemma axis_ok_not_lt (mn mx : num) : axis_ok mn mx -> ltb mx mn = false.
Proof.
  intros [[-> ->]|(_ & _ & H)]; [done|]. by apply le_not_lt.
Qed.

Definition box_ok (b : Three.Box3) : Prop :=
  axis_ok (Three.x (Three.min b)) (Three.x (Three.max b))
  /\ axis_ok (Three.y (Three.min b)) (Three.y (Three.max b))
  /\ axis_ok (Three.z (Three.min b)) (Three.z (Three.max b)).

Lemma expandByPoint_ok (b : Three.Box3) (p : Three.Vector3) :
  box_ok b \/ b = Three.makeEmpty -> box_ok (Three.expandByPoint b p).
Proof.
  intros [(Hx & Hy & Hz)| ->]; repeat split; apply axis_step; auto.
Qed.

Lemma expand_loop_ok (n : nat) (array : list num) (i : Z) (b : Three.Box3) :
  box_ok b -> box_ok (Three.expand_loop n array i b).
Proof.
  revert i b. induction n as [|n IH]; intros i b Hb; [done|].
  simpl. apply IH, expandByPoint_ok. by left.
Qed.

Lemma passes_pos (array : list num) : (0 < length array)%nat -> (1 <= Three.passes array)%nat.
Proof.
  intros H. unfold Three.passes.
  assert (1 <= (Z.of_nat (length array) + 2) / 3); [|lia].
  apply Z.div_le_lower_bound; lia.
Qed.

(** The bounding box of a non-empty array is not "empty": its centre is
    the midpoint of the two corners and its size their difference. *)
Lemma nonempty_box (array : list num) :
  (0 < length array)%nat -> Three.isEmpty (Three.computeBoundingBox array) = false.
Proof.
  intros H. apply passes_pos in H. unfold Three.computeBoundingBox.
  destruct (Three.passes array) as [|n]; [lia|]. simpl.
  assert (Hok : box_ok (Three.expand_loop n array (0 + 1)
            (Three.expandByPoint Three.makeEmpty (Three.fromBufferAttribute array 0)))).
  { apply expand_loop_ok, expandByPoint_ok. by right. }
  destruct Hok as (Hx & Hy & Hz). unfold Three.isEmpty.
  by rewrite (axis_ok_not_lt _ _ Hx), (axis_ok_not_lt _ _ Hy), (axis_ok_not_lt _ _ Hz).
Qed.

Lemma nonempty_center (array : list num) :
  (0 < length array)%nat ->
  let box := Three.computeBoundingBox array in
  Three.getCenter box
    = Three.multiplyScalar (Three.addVectors (Three.min box) (Three.max box)) (lit 5 1)
  /\ Three.getSize box = Three.subVectors (Three.max box) (Three.min box).
Proof.
  intros H box. unfold Three.getCenter, Three.getSize.
  unfold box. by rewrite (nonempty_box array H).
Qed.

End BoxFacts.

(** ** The camera framer *)

Section FramerClaims.

Import Js.

(** The centre and the largest extent of a bounding box, by the corners. *)
Definition midpoint (b : Three.Box3) : Three.Vector3 :=
  Three.multiplyScalar (Three.addVectors (Three.min b) (Three.max b)) (lit 5 1).

Definition extents (b : Three.Box3) : Three.Vector3 :=
  Three.subVectors (Three.max b) (Three.min b).

Definition largest_extent (b : Three.Box3) : num :=
  Framer.maxDim_of (Three.subVectors (Three.max b) (Three.min b)).

(** [m] is the maximum of [a], [b] and [c]: one of the three and not below
    any of them; NaN when one of them is NaN, as [Math.max] has it. *)
Definition is_max_of (a b c m : num) : Prop :=
  (is_nan a = true \/ is_nan b = true \/ is_nan c = true -> m = NaN)
  /\ (is_nan a = false -> is_nan b = false -> is_nan c = false ->
      (m = a \/ m = b \/ m = c) /\ le a m /\ le b m /\ le c m).

Lemma max2_pick (a b : num) :
  is_nan a = false -> is_nan b = false -> max2 a b = a \/ max2 a b = b.
Proof.
  intros Ha Hb. unfold max2.
  destruct (SFcompare a b) as [[| |]|] eqn:E; [| by right | by left |].
  - destruct a as [[|]| | |], b as [[|]| | |]; auto.
  - assert (H : is_nan a = true \/ is_nan b = true) by (by apply compare_nan).
    destruct H; congruence.
Qed.

Lemma max2_lowest (a : num) : is_nan a = false -> max2 NegInfinity a = a.
Proof. by destruct a as [[|]|[|]| |[|] m e]. Qed.

Lemma max3_is_max (a b c : num) : is_max_of a b c (max3 a b c).
Proof.
  unfold max3. split.
  - intros [Ha|[Hb|Hc]].
    + rewrite (max2_nan NegInfinity a) by auto.
      rewrite (max2_nan NaN b) by auto. apply max2_nan. auto.
    + rewrite (max2_nan _ b) by auto. apply max2_nan. auto.
    + apply max2_nan. auto.
  - intros Ha Hb Hc. rewrite max2_lowest by done.
    destruct (max2_spec a b Ha Hb) as (Hn1 & Ha1 & Hb1).
    destruct (max2_spec (max2 a b) c Hn1 Hc) as (Hn2 & H12 & Hc2).
    split.
    + destruct (max2_pick (max2 a b) c Hn1 Hc) as [-> | ->]; [|auto].
      destruct (max2_pick a b Ha Hb) as [-> | ->]; auto.
    + split; [by apply (le_trans _ (max2 a b))|]. split; [by apply (le_trans _ (max2 a b))|done].
Qed.

(** [c + (ox * m, oy * m, oz * m)]. *)
Definition offset_by (c : Three.Vector3) (ox oy oz m : num) : Three.Vector3 :=
  {| Three.x := add (Three.x c) (mul ox m);
     Three.y := add (Three.y c) (mul oy m);
     Three.z := add (Three.z c) (mul oz m) |}.

Definition origin : Three.Vector3 :=
  {| Three.x := of_Z 0; Three.y := of_Z 0; Three.z := of_Z 0 |}.
Definition axis_Y : Three.Vector3 :=
  {| Three.x := of_Z 0; Three.y := of_Z 1; Three.z := of_Z 0 |}.
Definition axis_Z : Three.Vector3 :=
  {| Three.x := of_Z 0; Three.y := of_Z 0; Three.z := of_Z 1 |}.

(** The box of side 1 centred at the origin, and two opposite corners of
    it as a position array. *)
Definition unit_box : Three.Box3 :=
  {| Three.min := {| Three.x := lit (-5) 1; Three.y := lit (-5) 1; Three.z := lit (-5) 1 |};
     Three.max := {| Three.x := lit 5 1; Three.y := lit 5 1; Three.z := lit 5 1 |} |}.

Definition unit_corners : list num :=
  [lit (-5) 1; lit (-5) 1; lit (-5) 1; lit 5 1; lit 5 1; lit 5 1].

(** Two opposite corners of a box of extents 1, 2 and 3, and of a box of
    extents 3, 1 and 2, both with a corner at the origin. *)
Definition slab_corners : list num := of_Z <$> [0; 0; 0; 1; 2; 3].

Definition plank_corners : list num := of_Z <$> [0; 0; 0; 3; 1; 2].

(** A controller whose [update()] leaves the camera and the target as
    they are. *)
Definition idle_controls (c : unit) (camera : Three.Camera) (target : Three.Vector3)
    : unit * Three.Camera * Three.Vector3 := (c, camera, target).

Section Controller.

Variable Controls : Type.
Variable controls_update :
  Controls -> Three.Camera -> Three.Vector3 -> Controls * Three.Camera * Three.Vector3.

(** C5: policy A.  For every non-empty subset, with [c] the centre of its
    bounding box and [maxDim] the maximum of the three extents of the box
    (one of them, and not below any of them), the framing block of the
    orbit variant sets the target to [c], leaves the up axis as it is (+Y
    for the camera the component creates), puts the camera at
    [c + (-0.1 * maxDim, 0.25 * maxDim, 1.6 * maxDim)] and makes it look
    at [c] from there; for a subset whose box is the unit box at the
    origin, [maxDim] is 1 and that is the position (-0.1, 0.25, 1.6),
    looking at (0, 0, 0).  This is the pose that [controls.update()] is
    then called on, whatever the controller; the pose kept for "Reset" is
    read off after that call, and is this pose whenever the call leaves
    the position of the camera and the target as they are. *)
Theorem C5_policy_A (controls : Controls) (camera : Three.Camera) (geo : list num) :
  (0 < length geo)%nat ->
  let box := Three.computeBoundingBox geo in
  let c := midpoint box in
  let maxDim := largest_extent box in
  let framed := Framer.frame_orbit camera geo in
  let updated := controls_update controls (Framer.camera framed) (Framer.target framed) in
  let stored := Framer.update_and_store controls_update controls framed in
  is_max_of (Three.x (extents box)) (Three.y (extents box)) (Three.z (extents box)) maxDim
  /\ Framer.target framed = c
  /\ Three.up (Framer.camera framed) = Three.up camera
  /\ Three.up Framer.initial_camera = axis_Y
  /\ Three.position (Framer.camera framed)
       = offset_by c (lit (-1) 1) (lit 25 2) (lit 16 1) maxDim
  /\ Three.quaternion (Framer.camera framed)
       = Three.LookAt (Three.position (Framer.camera framed)) c (Three.up camera)
  /\ (box = unit_box ->
      maxDim = of_Z 1
      /\ Three.position (Framer.camera framed)
           = {| Three.x := lit (-1) 1; Three.y := lit 25 2; Three.z := lit 16 1 |}
      /\ c = origin)
  /\ Framer.updated_camera stored = updated.1.2
  /\ Framer.updated_target stored = updated.2
  /\ Framer.initialPos stored = Three.position updated.1.2
  /\ Framer.initialTarget stored = updated.2
  /\ (Three.position updated.1.2 = Three.position (Framer.camera framed) ->
      updated.2 = Framer.target framed ->
      Framer.initialPos stored = offset_by c (lit (-1) 1) (lit 25 2) (lit 16 1) maxDim
      /\ Framer.initialTarget stored = c).
Proof.
  intros Hne box c maxDim framed updated stored.
  destruct (nonempty_center geo Hne) as [Hc Hs]. fold box in Hc, Hs.
  assert (Hpos : Three.position (Framer.camera framed)
                 = offset_by c (lit (-1) 1) (lit 25 2) (lit 16 1) maxDim).
  { unfold framed, Framer.frame_orbit. fold box. rewrite Hc, Hs.
    cbn [Three.lookAt Three.set_position Three.position Framer.camera].
    unfold offset_by. fold c. fold (largest_extent box). fold maxDim.
    f_equal.
    - apply sub_mul_offset.
    - f_equal. apply mul_comm.
    - f_equal. apply mul_comm. }
  assert (Htarget : Framer.target framed = c).
  { unfold framed, Framer.frame_orbit. fold box. by rewrite Hc. }
  assert (Hstored : Framer.updated_camera stored = updated.1.2
                    /\ Framer.updated_target stored = updated.2
                    /\ Framer.initialPos stored = Three.position updated.1.2
                    /\ Framer.initialTarget stored = updated.2).
  { unfold stored, Framer.update_and_store. fold updated.
    by destruct updated as [[ctl cam] tgt]. }
  destruct Hstored as (Hcam & Htgt & Hip & Hit).
  split; [apply max3_is_max|].
  split; [exact Htarget|].
  split; [done|]. split; [done|]. split; [done|]. split; [|split].
  - rewrite Hpos. unfold framed, Framer.frame_orbit. fold box. rewrite Hc, Hs.
    cbn [Three.lookAt Three.set_position Three.position Three.up Three.quaternion Framer.camera].
    fold c. fold (largest_extent box). fold maxDim. f_equal.
    unfold offset_by. f_equal.
    + apply sub_mul_offset.
    + f_equal. apply mul_comm.
    + f_equal. apply mul_comm.
  - intros Hbox. rewrite Hpos. unfold c, maxDim. rewrite Hbox.
    split; [|split]; vm_compute; reflexivity.
  - split; [exact Hcam|]. split; [exact Htgt|]. split; [exact Hip|]. split; [exact Hit|].
    intros Hsame Hsame'. rewrite Hip, Hit, Hsame, Hsame', Hpos, Htarget. done.
Qed.

(** C6: policy B.  For every non-empty subset, with [c] and [maxDim] as
    above ([maxDim] the maximum of the three extents of the box), the
    framing block of the trackball variant reassigns the up axis to +Z,
    sets the target to [c], puts the camera at
    [c + (-0.5 * maxDim, -2.8 * maxDim, 0)] (the third coordinate is that
    of [c] itself) and makes it look at [c] from there.  This is the pose
    that [controls.update()] is then called on, whatever the controller;
    the pose kept for "Reset" is read off after that call, and is this
    pose whenever the call leaves the position of the camera and the
    target as they are. *)
Theorem C6_policy_B (controls : Controls) (camera : Three.Camera) (geo : list num) :
  (0 < length geo)%nat ->
  let box := Three.computeBoundingBox geo in
  let c := midpoint box in
  let maxDim := largest_extent box in
  let framed := Framer.frame_trackball camera geo in
  let updated := controls_update controls (Framer.camera framed) (Framer.target framed) in
  let stored := Framer.update_and_store controls_update controls framed in
  is_max_of (Three.x (extents box)) (Three.y (extents box)) (Three.z (extents box)) maxDim
  /\ Framer.target framed = c
  /\ Three.up (Framer.camera framed) = axis_Z
  /\ Three.x (Three.position (Framer.camera framed)) = add (Three.x c) (mul (lit (-5) 1) maxDim)
  /\ Three.y (Three.position (Framer.camera framed)) = add (Three.y c) (mul (lit (-28) 1) maxDim)
  /\ Three.z (Three.position (Framer.camera framed)) = Three.z c
  /\ same_number (add (Three.z c) (of_Z 0)) (Three.z (Three.position (Framer.camera framed)))
  /\ Three.quaternion (Framer.camera framed)
       = Three.LookAt (Three.position (Framer.camera framed)) c axis_Z
  /\ Framer.updated_camera stored = updated.1.2
  /\ Framer.updated_target stored = updated.2
  /\ Framer.initialPos stored = Three.position updated.1.2
  /\ Framer.initialTarget stored = updated.2
  /\ (Three.position updated.1.2 = Three.position (Framer.camera framed) ->
      updated.2 = Framer.target framed ->
      Framer.initialPos stored
        = {| Three.x := add (Three.x c) (mul (lit (-5) 1) maxDim);
             Three.y := add (Three.y c) (mul (lit (-28) 1) maxDim);
             Three.z := Three.z c |}
      /\ Framer.initialTarget stored = c).
Proof.
  intros Hne box c maxDim framed updated stored.
  destruct (nonempty_center geo Hne) as [Hc Hs]. fold box in Hc, Hs.
  assert (Hstored : Framer.updated_camera stored = updated.1.2
                    /\ Framer.updated_target stored = updated.2
                    /\ Framer.initialPos stored = Three.position updated.1.2
                    /\ Framer.initialTarget stored = updated.2).
  { unfold stored, Framer.update_and_store. fold updated.
    by destruct updated as [[ctl cam] tgt]. }
  destruct Hstored as (Hcam & Htgt & Hip & Hit).
  assert (Hframed :
    Framer.target framed = c
    /\ Three.position (Framer.camera framed)
         = {| Three.x := add (Three.x c) (mul (lit (-5) 1) maxDim);
              Three.y := add (Three.y c) (mul (lit (-28) 1) maxDim);
              Three.z := Three.z c |}
    /\ Three.up (Framer.camera framed) = axis_Z
    /\ Three.quaternion (Framer.camera framed)
         = Three.LookAt (Three.position (Framer.camera framed)) c axis_Z).
  { unfold framed, Framer.frame_trackball. fold box. rewrite Hc, Hs.
    cbn [Three.lookAt Three.set_position Three.set_up Three.position Three.up
         Three.quaternion Framer.camera Framer.target Three.x Three.y Three.z].
    fold (midpoint box). fold c. fold (largest_extent box). fold maxDim.
    rewrite !sub_mul_offset. done. }
  destruct Hframed as (Htarget & Hpos & Hup & Hq).
  split; [apply max3_is_max|].
  split; [exact Htarget|]. split; [exact Hup|].
  rewrite Hpos at 1 2 3 4. cbn [Three.x Three.y Three.z].
  split; [done|]. split; [done|]. split; [done|]. split; [apply add_zero_same|].
  split; [exact Hq|].
  split; [exact Hcam|]. split; [exact Htgt|]. split; [exact Hip|]. split; [exact Hit|].
  intros Hsame Hsame'. rewrite Hip, Hit, Hsame, Hsame', Hpos, Htarget. done.
Qed.

End Controller.

Lemma C5_policy_A_witness :
  (let framed := Framer.frame_orbit Framer.initial_camera unit_corners in
   let stored := Framer.update_and_store idle_controls tt framed in
   Framer.target framed = origin
   /\ Three.up (Framer.camera framed) = axis_Y
   /\ Three.position (Framer.camera framed)
        = {| Three.x := lit (-1) 1; Three.y := lit 25 2; Three.z := lit 16 1 |}
   /\ Three.quaternion (Framer.camera framed)
        = Three.LookAt {| Three.x := lit (-1) 1; Three.y := lit 25 2; Three.z := lit 16 1 |}
                       origin axis_Y
   /\ Framer.initialPos stored
        = {| Three.x := lit (-1) 1; Three.y := lit 25 2; Three.z := lit 16 1 |}
   /\ Framer.initialTarget stored = origin)
  /\ (let box := Three.computeBoundingBox slab_corners in
      let framed := Framer.frame_orbit Framer.initial_camera slab_corners in
      extents box = {| Three.x := of_Z 1; Three.y := of_Z 2; Three.z := of_Z 3 |}
      /\ largest_extent box = of_Z 3
      /\ Three.position (Framer.camera framed)
           = offset_by (midpoint box) (lit (-1) 1) (lit 25 2) (lit 16 1) (of_Z 3))
  /\ (let box := Three.computeBoundingBox plank_corners in
      let framed := Framer.frame_orbit Framer.initial_camera plank_corners in
      extents box = {| Three.x := of_Z 3; Three.y := of_Z 1; Three.z := of_Z 2 |}
      /\ largest_extent box = of_Z 3
      /\ Three.position (Framer.camera framed)
           = offset_by (midpoint box) (lit (-1) 1) (lit 25 2) (lit 16 1) (of_Z 3)).
Proof.
  split; [|split].
  - destruct (C5_policy_A unit idle_controls tt Framer.initial_camera unit_corners)
      as (_ & Ht & Hu & Hi & Hp & Hq & Hunit & _ & _ & _ & _ & Hidle).
    + vm_compute. lia.
    + destruct (Hunit eq_refl) as (_ & Hpos & Hc).
      destruct (Hidle eq_refl eq_refl) as [Hip Hit].
      split; [by rewrite Ht, Hc|]. split; [by rewrite Hu, Hi|].
      split; [exact Hpos|]. split; [rewrite Hq, Hpos, Hc; reflexivity|].
      split; [by rewrite Hip, <- Hp, Hpos|by rewrite Hit, Hc].
  - destruct (C5_policy_A unit idle_controls tt Framer.initial_camera slab_corners)
      as (_ & _ & _ & _ & Hp & _).
    + vm_compute. lia.
    + assert (Hm : largest_extent (Three.computeBoundingBox slab_corners) = of_Z 3)
        by (vm_compute; reflexivity).
      split; [vm_compute; reflexivity|]. split; [exact Hm|]. by rewrite Hp, Hm.
  - destruct (C5_policy_A unit idle_controls tt Framer.initial_camera plank_corners)
      as (_ & _ & _ & _ & Hp & _).
    + vm_compute. lia.
    + assert (Hm : largest_extent (Three.computeBoundingBox plank_corners) = of_Z 3)
        by (vm_compute; reflexivity).
      split; [vm_compute; reflexivity|]. split; [exact Hm|]. by rewrite Hp, Hm.
Defined.

Lemma C6_policy_B_witness :
  (let framed := Framer.frame_trackball Framer.initial_camera unit_corners in
   let stored := Framer.update_and_store idle_controls tt framed in
   Framer.target framed = origin
   /\ Three.up (Framer.camera framed) = axis_Z
   /\ Three.position (Framer.camera framed)
        = {| Three.x := lit (-5) 1; Three.y := lit (-28) 1; Three.z := of_Z 0 |}
   /\ Three.quaternion (Framer.camera framed)
        = Three.LookAt {| Three.x := lit (-5) 1; Three.y := lit (-28) 1; Three.z := of_Z 0 |}
                       origin axis_Z
   /\ Framer.initialPos stored
        = {| Three.x := lit (-5) 1; Three.y := lit (-28) 1; Three.z := of_Z 0 |}
   /\ Framer.initialTarget stored = origin)
  /\ (let box := Three.computeBoundingBox slab_corners in
      let framed := Framer.frame_trackball Framer.initial_camera slab_corners in
      extents box = {| Three.x := of_Z 1; Three.y := of_Z 2; Three.z := of_Z 3 |}
      /\ largest_extent box = of_Z 3
      /\ Three.position (Framer.camera framed)
           = {| Three.x := add (Three.x (midpoint box)) (mul (lit (-5) 1) (of_Z 3));
                Three.y := add (Three.y (midpoint box)) (mul (lit (-28) 1) (of_Z 3));
                Three.z := Three.z (midpoint box) |})
  /\ (let box := Three.computeBoundingBox plank_corners in
      let framed := Framer.frame_trackball Framer.initial_camera plank_corners in
      extents box = {| Three.x := of_Z 3; Three.y := of_Z 1; Three.z := of_Z 2 |}
      /\ largest_extent box = of_Z 3
      /\ Three.x (Three.position (Framer.camera framed))
           = add (Three.x (midpoint box)) (mul (lit (-5) 1) (of_Z 3))).
Proof.
  split; [|split].
  - destruct (C6_policy_B unit idle_controls tt Framer.initial_camera unit_corners)
      as (_ & Ht & Hu & Hx & Hy & Hz & _ & Hq & _ & _ & _ & _ & Hidle).
    + vm_compute. lia.
    + destruct (Hidle eq_refl eq_refl) as [Hip Hit].
      split; [exact Ht|]. split; [exact Hu|].
      assert (Hpos : Three.position
                (Framer.camera (Framer.frame_trackball Framer.initial_camera unit_corners))
              = {| Three.x := lit (-5) 1; Three.y := lit (-28) 1; Three.z := of_Z 0 |}).
      { destruct (Three.position _) as [px py pz].
        cbn [Three.x Three.y Three.z] in Hx, Hy, Hz. by rewrite Hx, Hy, Hz. }
      split; [exact Hpos|]. split; [by rewrite Hq, Hpos|].
      split; [rewrite Hip; vm_compute; reflexivity|exact Hit].
  - destruct (C6_policy_B unit idle_controls tt Framer.initial_camera slab_corners)
      as (_ & _ & _ & Hx & Hy & Hz & _).
    + vm_compute. lia.
    + assert (Hm : largest_extent (Three.computeBoundingBox slab_corners) = of_Z 3)
        by (vm_compute; reflexivity).
      split; [vm_compute; reflexivity|]. split; [exact Hm|].
      destruct (Three.position _) as [px py pz].
      cbn [Three.x Three.y Three.z] in Hx, Hy, Hz. by rewrite Hx, Hy, Hz, Hm.
  - destruct (C6_policy_B unit idle_controls tt Framer.initial_camera plank_corners)
      as (_ & _ & _ & Hx & _).
    + vm_compute. lia.
    + assert (Hm : largest_extent (Three.computeBoundingBox plank_corners) = of_Z 3)
        by (vm_compute; reflexivity).
      split; [vm_compute; reflexivity|]. split; [exact Hm|]. by rewrite Hx, Hm.
Defined.

End FramerClaims.

(** ** The subject filter *)

Section FilterClaims.

Import Js DataView Lssnap.

(** The vertex indices [vi, vi + 1, ...], [n] of them. *)
Fixpoint indices_from (vi : Z) (n : nat) : list Z :=
  match n with
  | O => []
  | S n' => vi :: indices_from (vi + 1) n'
  end.

(** The three slots of vertex [vi] in a flat array. *)
Definition triple_at (array : list num) (vi : Z) : list num :=
  [Float32Array_get array (vi * 3); Float32Array_get array (vi * 3 + 1);
   Float32Array_get array (vi * 3 + 2)].

(** Vertex [vi] passes the three cut-offs. *)
Definition kept (c : Filter.Cuts) (data : LssnapData) (vi : Z) : Prop :=
  geb (Float32Array_get (positions data) (vi * 3)) (Filter.xCut c) = true
  /\ leb (Float32Array_get (positions data) (vi * 3 + 2)) (Filter.zCut c) = true
  /\ geb (Float32Array_get (positions data) (vi * 3 + 1)) (Filter.yCutMax c) = true.

#[local] Instance kept_dec c data vi : Decision (kept c data vi).
Proof. unfold kept. apply _. Defined.

Definition kept_indices (c : Filter.Cuts) (data : LssnapData) : list Z :=
  filter (kept c data) (indices_from 0 (Z.to_nat (vertexCount data))).

Lemma keeps_kept c data vi :
  Filter.keeps c (Float32Array_get (positions data) (vi * 3))
                 (Float32Array_get (positions data) (vi * 3 + 1))
                 (Float32Array_get (positions data) (vi * 3 + 2)) = true
  <-> kept c data vi.
Proof. unfold Filter.keeps, kept. rewrite !andb_true_iff. tauto. Qed.

Lemma filter_loop_spec n c data vi filtPos filtCol :
  Filter.filter_loop n c data vi filtPos filtCol =
    (filtPos ++ concat (triple_at (positions data) <$> filter (kept c data) (indices_from vi n)),
     filtCol ++ concat (triple_at (colors data) <$> filter (kept c data) (indices_from vi n))).
Proof.
  revert vi filtPos filtCol. induction n as [|n IH]; intros vi filtPos filtCol.
  - simpl. by rewrite !app_nil_r.
  - cbn [Filter.filter_loop indices_from].
    destruct (Filter.keeps c _ _ _) eqn:E.
    + apply keeps_kept in E. rewrite IH, (filter_cons_True _ _ _ E).
      csimpl. by rewrite <- !app_assoc.
    + assert (Hn : ~ kept c data vi).
      { intros Hk. apply keeps_kept in Hk. congruence. }
      by rewrite IH, (filter_cons_False _ _ _ Hn).
Qed.

Lemma elem_of_indices_from vi n (j : Z) :
  j ∈ indices_from vi n <-> vi <= j < vi + Z.of_nat n.
Proof.
  revert vi. induction n as [|n IH]; intros vi; cbn [indices_from].
  - rewrite elem_of_nil. lia.
  - rewrite elem_of_cons, IH. lia.
Qed.


(** A number that a [Float32Array] can hold. *)
Definition is_f32 (v : num) : Prop := fround v = v.

Lemma Float32Array_get_f32 (array : list num) (i : Z) :
  Forall is_f32 array -> is_f32 (Float32Array_get array i).
Proof.
  intros H. unfold Float32Array_get. destruct (i <? 0); [done|].
  destruct (array !! Z.to_nat i) as [v|] eqn:E; [|done].
  by eapply Forall_lookup_1 in H.
Qed.

Lemma Float32Array_from_id (l : list num) : Forall is_f32 l -> Filter.Float32Array_from l = l.
Proof.
  unfold Filter.Float32Array_from. induction 1 as [|v l Hv _ IH]; csimpl; [done|].
  by rewrite Hv, IH.
Qed.

Lemma triples_f32 (array : list num) (K : list Z) :
  Forall is_f32 array -> Forall is_f32 (concat (triple_at array <$> K)).
Proof.
  intros H. induction K as [|vi K IH]; csimpl; [constructor|].
  repeat (constructor; [by apply Float32Array_get_f32|]). exact IH.
Qed.

(** The cube of the specification: every axis spans [0, 10]. *)
Definition cube_box : Three.Box3 :=
  {| Three.min := {| Three.x := of_Z 0; Three.y := of_Z 0; Three.z := of_Z 0 |};
     Three.max := {| Three.x := of_Z 10; Three.y := of_Z 10; Three.z := of_Z 10 |} |}.

(** C4: the filter block keeps vertex [vi] if and only if
    [x >= centerX], [z <= minZ + zRange * 0.75] and
    [y >= minY + yRange * heightFraction], the box being that of all the
    positions; the kept points and their colours are appended in their
    original order (and unchanged, the slots being binary32 numbers).  On
    a snapshot whose box is the cube [0, 10]^3, with the height fraction
    0.5 of the trackball variant, the cut-offs are exactly 5, 7.5 and 5,
    so the points kept are those with x >= 5, z <= 7.5 and y >= 5,
    boundaries included. *)
Theorem C4_subject_filter (heightFraction : num) (data : LssnapData) :
  let box := Three.computeBoundingBox (positions data) in
  let c := Filter.cuts heightFraction data in
  let K := kept_indices c data in
  Filter.filter_block heightFraction data
    = (Filter.Float32Array_from (concat (triple_at (positions data) <$> K)),
       Filter.Float32Array_from (concat (triple_at (colors data) <$> K)))
  /\ (forall vi, vi ∈ K <-> 0 <= vi < vertexCount data /\ kept c data vi)
  /\ sublist K (indices_from 0 (Z.to_nat (vertexCount data)))
  /\ Filter.xCut c = Three.x (Three.getCenter box)
  /\ Filter.zCut c = add (Three.z (Three.min box)) (mul (Three.z (Three.getSize box)) (lit 75 2))
  /\ Filter.yCutMax c
       = add (Three.y (Three.min box)) (mul (Three.y (Three.getSize box)) heightFraction)
  /\ (Forall is_f32 (positions data) -> Forall is_f32 (colors data) ->
      Filter.filter_block heightFraction data
        = (concat (triple_at (positions data) <$> K), concat (triple_at (colors data) <$> K)))
  /\ (box = cube_box ->
      Filter.cuts (lit 5 1) data
        = {| Filter.xCut := of_Z 5; Filter.zCut := lit 75 1; Filter.yCutMax := of_Z 5 |}).
Proof.
  intros box c K.
  assert (Hrun : Filter.filter_block heightFraction data
    = (Filter.Float32Array_from (concat (triple_at (positions data) <$> K)),
       Filter.Float32Array_from (concat (triple_at (colors data) <$> K)))).
  { unfold Filter.filter_block. fold c. by rewrite filter_loop_spec. }
  split; [exact Hrun|]. split; [|split; [|split; [done|split; [done|split; [done|split]]]]].
  - intros vi. unfold K, kept_indices.
    rewrite list_elem_of_filter, elem_of_indices_from. split; intros H; split; try tauto; lia.
  - unfold K, kept_indices. apply sublist_filter.
  - intros Hp Hc. rewrite Hrun.
    by rewrite !Float32Array_from_id by by apply triples_f32.
  - intros Hbox. unfold Filter.cuts. fold box. rewrite Hbox. vm_compute. reflexivity.
Qed.

End FilterClaims.

Section FilterWitness.

Import Js DataView Lssnap.

(** A grid on the cube: x and y in {0, 5, 10}, z in {0, 7.5, 10}, in
    that nesting order; the colours tell the points apart. *)
Definition cube_grid : list (num * num * num) :=
  x ← [of_Z 0; of_Z 5; of_Z 10];
  y ← [of_Z 0; of_Z 5; of_Z 10];
  z ← [of_Z 0; lit 75 1; of_Z 10];
  [(x, y, z)].

Definition cube_data : LssnapData :=
  {| vertexCount := 27;
     positions := concat ((fun p => [p.1.1; p.1.2; p.2]) <$> cube_grid);
     colors := concat ((fun i => [Wire.color_slot (Z.of_nat i); Wire.color_slot 0;
                                  Wire.color_slot 255]) <$> seq 0 27);
     annotations := Json.JArr [] |}.

Definition cube_kept : list Z := [12; 13; 15; 16; 21; 22; 24; 25].

Lemma cube_data_f32 : Forall is_f32 (positions cube_data) /\ Forall is_f32 (colors cube_data).
Proof. split; repeat constructor. Qed.

Lemma C4_subject_filter_witness :
  Filter.cuts (lit 5 1) cube_data
    = {| Filter.xCut := of_Z 5; Filter.zCut := lit 75 1; Filter.yCutMax := of_Z 5 |}
  /\ kept_indices (Filter.cuts (lit 5 1) cube_data) cube_data = cube_kept
  /\ Filter.trackball_subset true cube_data
       = (concat (triple_at (positions cube_data) <$> cube_kept),
          concat (triple_at (colors cube_data) <$> cube_kept))
  /\ triple_at (positions cube_data) 13 = [of_Z 5; of_Z 5; lit 75 1]
  /\ triple_at (positions cube_data) 14 = [of_Z 5; of_Z 5; of_Z 10].
Proof.
  destruct (C4_subject_filter (lit 5 1) cube_data) as (_ & _ & _ & _ & _ & _ & Hid & Hcube).
  assert (HK : kept_indices (Filter.cuts (lit 5 1) cube_data) cube_data = cube_kept)
    by (vm_compute; reflexivity).
  split; [apply Hcube; vm_compute; reflexivity|].
  split; [exact HK|]. split; [|split; vm_compute; reflexivity].
  unfold Filter.trackball_subset.
  rewrite (Hid (proj1 cube_data_f32) (proj2 cube_data_f32)). by rewrite HK.
Defined.

End FilterWitness.

(** ** The annotation overlay *)

Section OverlayClaims.

Import Js Overlay.

Variables Math_cos Math_sin : num -> num.

Lemma str_eqb_eq (a b : list Z) : Json.str_eqb a b = true -> a = b.
Proof.
  revert b. induction a as [|x a IH]; intros [|y b]; simpl; try done.
  rewrite andb_true_iff, Z.eqb_eq. intros [-> H]. f_equal. by apply IH.
Qed.

Lemma annotation_step_app (group : list Primitive) (ann : Annotation) :
  annotation_step Math_cos Math_sin group ann
    = group ++ annotation_step Math_cos Math_sin [] ann.
Proof.
  unfold annotation_step.
  destruct (positions ann) as [ps|]; [|by rewrite app_nil_r].
  destruct (Z.of_nat (length ps) <? 3); [by rewrite app_nil_r|].
  destruct (Json.str_eqb (type ann) (Json.str "point")); [done|].
  destruct (Json.str_eqb (type ann) (Json.str "circle")); [done|].
  destruct (Json.str_eqb (type ann) (Json.str "freehand") && (6 <=? Z.of_nat (length ps)));
    [done|by rewrite app_nil_r].
Qed.

(** Each annotation contributes on its own: the overlay is the
    concatenation of what every annotation yields from an empty group. *)
Lemma build_concat (anns : list Annotation) :
  build Math_cos Math_sin anns = concat (annotation_step Math_cos Math_sin [] <$> anns).
Proof.
  unfold build.
  assert (H : forall group, foldl (annotation_step Math_cos Math_sin) group anns
                = group ++ concat (annotation_step Math_cos Math_sin [] <$> anns)).
  { induction anns as [|a anns IH]; intros group; csimpl; [by rewrite app_nil_r|].
    by rewrite IH, annotation_step_app, <- app_assoc. }
  apply H.
Qed.

Lemma annotation_step_at_most_one (ann : Annotation) :
  (length (annotation_step Math_cos Math_sin [] ann) <= 1)%nat.
Proof.
  unfold annotation_step.
  destruct (positions ann) as [ps|]; [|simpl; lia].
  destruct (Z.of_nat (length ps) <? 3); [simpl; lia|].
  destruct (Json.str_eqb (type ann) (Json.str "point")); [simpl; lia|].
  destruct (Json.str_eqb (type ann) (Json.str "circle")); [simpl; lia|].
  destruct (Json.str_eqb (type ann) (Json.str "freehand") && (6 <=? Z.of_nat (length ps)));
    simpl; lia.
Qed.

(** The annotations the loop passes over: no positions, fewer than three
    of them, a freehand stroke of fewer than six, or a kind the loop does
    not know. *)
Definition skipped (ann : Annotation) : Prop :=
  match positions ann with
  | None => True
  | Some ps =>
      (length ps < 3)%nat
      \/ (Json.str_eqb (type ann) (Json.str "freehand") = true /\ (length ps < 6)%nat)
      \/ (Json.str_eqb (type ann) (Json.str "point") = false
          /\ Json.str_eqb (type ann) (Json.str "circle") = false
          /\ Json.str_eqb (type ann) (Json.str "freehand") = false)
  end.

(** C8 (amended): over every list of annotation records the builder is a
    total function that yields at most one primitive per annotation, each
    on its own.  An annotation without positions, with fewer than three
    of them, a freehand annotation with fewer than six, and an annotation
    of an unknown kind are skipped: no primitive, and the primitives of
    the annotations around it are what they are without it. *)
Theorem C8_skipped_annotations (ann : Annotation) :
  skipped ann ->
  (forall group, annotation_step Math_cos Math_sin group ann = group)
  /\ (forall before after,
        build Math_cos Math_sin (before ++ ann :: after)
          = build Math_cos Math_sin (before ++ after))
  /\ (forall anns,
        build Math_cos Math_sin anns = concat (annotation_step Math_cos Math_sin [] <$> anns)
        /\ Forall (fun a => (length (annotation_step Math_cos Math_sin [] a) <= 1)%nat) anns).
Proof.
  intros Hs.
  assert (Hnil : annotation_step Math_cos Math_sin [] ann = []).
  { unfold skipped in Hs. unfold annotation_step.
    destruct (positions ann) as [ps|]; [|done].
    destruct (Z.ltb_spec (Z.of_nat (length ps)) 3) as [?|Hge]; [done|].
    destruct Hs as [?|[[Hf Hlt]|(Hp & Hc & Hf)]]; [lia| |].
    - apply str_eqb_eq in Hf. rewrite Hf.
      change (Json.str_eqb (Json.str "freehand") (Json.str "point")) with false.
      change (Json.str_eqb (Json.str "freehand") (Json.str "circle")) with false.
      cbv iota.
      destruct (Z.leb_spec 6 (Z.of_nat (length ps))) as [?|?]; [lia|].
      by rewrite andb_false_r.
    - by rewrite Hp, Hc, Hf. }
  split; [|split].
  - intros group. by rewrite annotation_step_app, Hnil, app_nil_r.
  - intros before after. rewrite !build_concat, !fmap_app, !concat_app. csimpl.
    by rewrite Hnil.
  - intros anns. split; [apply build_concat|].
    apply Forall_forall. intros a _. apply annotation_step_at_most_one.
Qed.

End OverlayClaims.

Section OverlayExamples.

Import Js Overlay.

(** JSON text written with apostrophes for the quotation marks. *)
Definition json_text (s : string) : list Z :=
  (fun c => if c =? 39 then 34 else c) <$> Json.str s.

(** The malformed annotation of the specification and a valid sibling. *)
Definition short_freehand : Annotation :=
  {| type := Json.str "freehand"; positions := Some [of_Z 1; of_Z 2];
     radius := None; color := None |}.

Definition point_at_origin : Annotation :=
  {| type := Json.str "point"; positions := Some [of_Z 0; of_Z 0; of_Z 0];
     radius := None; color := None |}.

Definition highlight : Color := {| r := of_Z 1; g := lit 4 1; b := lit 4 1 |}.

Definition origin_marker : Primitive :=
  Mesh (mul (lit 12 2) (lit 3 1)) 12 8 highlight (lit 7 1)
       {| Three.x := of_Z 0; Three.y := of_Z 0; Three.z := of_Z 0 |}.

Definition sample_annotation_text : list Z :=
  json_text "[{'type':'freehand','positions':[1,2]},{'type':'point','positions':[0,0,0]}]".

Lemma sample_annotations_parse :
  exists v, Json.JSON_parse sample_annotation_text = Ok v
    /\ annotations_of v = Some [short_freehand; point_at_origin].
Proof. eexists. split; vm_compute; reflexivity. Qed.

End OverlayExamples.

Section OverlayWitnesses.

Import Js Overlay.

Lemma C8_skipped_annotations_witness :
  skipped short_freehand
  /\ (forall Math_cos Math_sin,
        annotation_step Math_cos Math_sin [] short_freehand = []
        /\ build Math_cos Math_sin [short_freehand; point_at_origin] = [origin_marker]).
Proof.
  assert (Hs : skipped short_freehand) by (right; left; split; [reflexivity|simpl; lia]).
  split; [exact Hs|]. intros Math_cos Math_sin.
  destruct (C8_skipped_annotations Math_cos Math_sin short_freehand Hs) as (Hstep & Hsib & _).
  split; [apply Hstep|].
  change [short_freehand; point_at_origin] with ([] ++ short_freehand :: [point_at_origin]).
  rewrite (Hsib [] [point_at_origin]). reflexivity.
Defined.

(** A freehand stroke of seven numbers: two points and one number over. *)
Definition ragged_freehand : Annotation :=
  {| type := Json.str "freehand";
     positions := Some (of_Z <$> [1; 2; 3; 4; 5; 6; 7]);
     radius := None; color := None |}.

(** C8, as stated, at a freehand annotation of seven numbers: seven is
    not a multiple of 3, and the builder draws the stroke all the same,
    through three points, the last one filled up with zeros. *)
Lemma C8_ragged_freehand_counterexample :
  positions ragged_freehand = Some (of_Z <$> [1; 2; 3; 4; 5; 6; 7])
  /\ (7 mod 3 = 1)%nat
  /\ (forall Math_cos Math_sin,
        build Math_cos Math_sin [ragged_freehand; point_at_origin]
          = [Line (of_Z <$> [1; 2; 3; 4; 5; 6; 7; 0; 0]) highlight (lit 8 1);
             origin_marker]).
Proof. split; [reflexivity|]. split; [reflexivity|]. intros. vm_compute. reflexivity. Qed.

End OverlayWitnesses.

(** ** The frame loop of the trackball variant *)

Section AnimateClaims.

Import Js.

Variables Math_cos Math_sin : num -> num.
Variable Controls : Type.
Variable controls_update :
  Controls -> Three.Camera -> Three.Vector3 -> Controls * Three.Camera * Three.Vector3.

(** The position of the camera turned about the axis through the target
    that is parallel to the world Y axis: x and z turn, y stays. *)
Definition turned_about_Y (pos target : Three.Vector3) : Three.Vector3 :=
  let dx := sub (Three.x pos) (Three.x target) in
  let dz := sub (Three.z pos) (Three.z target) in
  {| Three.x := sub (add (Three.x target) (mul dx (Math_cos Trackball.angle)))
                    (mul dz (Math_sin Trackball.angle));
     Three.y := Three.y pos;
     Three.z := add (add (Three.z target) (mul dx (Math_sin Trackball.angle)))
                    (mul dz (Math_cos Trackball.angle)) |}.

(** C9 (amended): on every frame where the autorotate flag is set, the
    camera position is turned around the target by the angle 0.0005 in
    the x-z plane, that is about the world Y axis, whatever the up axis
    of the camera is: y, the up axis, the orientation and the target are
    left as they are; the controller's own update runs after that, on the
    turned camera.  With the flag unset the controller's update runs on
    the camera as it is. *)
Theorem C9_autorotate_about_Y (s : Trackball.State Controls) :
  Trackball.autoRotating s = true ->
  let turned :=
    {| Three.position := turned_about_Y (Three.position (Trackball.camera s)) (Trackball.target s);
       Three.up := Three.up (Trackball.camera s);
       Three.quaternion := Three.quaternion (Trackball.camera s) |} in
  let updated := controls_update (Trackball.controls s) turned (Trackball.target s) in
  Trackball.animate Math_cos Math_sin controls_update s
    = Trackball.Build_State updated.1.2 updated.2 updated.1.1 true
  /\ Trackball.angle = lit 5 4
  /\ Three.y (Three.position turned) = Three.y (Three.position (Trackball.camera s))
  /\ (let idle := Trackball.handleAutoRotate s in
      let updated' := controls_update (Trackball.controls s) (Trackball.camera s)
                        (Trackball.target s) in
      Trackball.animate Math_cos Math_sin controls_update idle
        = Trackball.Build_State updated'.1.2 updated'.2 updated'.1.1 false).
Proof.
  intros Hflag turned updated.
  split; [|split; [done|split; [done|]]].
  - unfold Trackball.animate. rewrite Hflag.
    change (Trackball.autorotate Math_cos Math_sin (Trackball.camera s) (Trackball.target s))
      with turned.
    fold updated. by destruct updated as [[ctl cam] tgt].
  - intros idle updated'. unfold Trackball.animate, idle.
    cbn [Trackball.handleAutoRotate Trackball.autoRotating Trackball.camera
         Trackball.target Trackball.controls].
    rewrite Hflag. cbn [negb]. fold updated'. by destruct updated' as [[ctl cam] tgt].
Qed.

End AnimateClaims.

Section AnimateWitnesses.

Import Js.

(** The state right after the framing block of the trackball variant has
    framed the unit box, the flag set. *)
Definition framed_unit : Framer.Framed :=
  Framer.frame_trackball Framer.initial_camera unit_corners.

Definition framed_state : Trackball.State unit :=
  Trackball.Build_State (Framer.camera framed_unit) (Framer.target framed_unit) tt true.

(** [Math.cos] and [Math.sin] as far as the frame loop calls them: at the
    angle 0.0005. *)
Definition cos_at (a : num) : num := Trackball.cos_angle.
Definition sin_at (a : num) : num := Trackball.sin_angle.

(** C9, as stated, on the framed camera: its up axis is +Z, and one frame
    of autorotation leaves the y coordinate as it is and moves the camera
    along z, its up axis, from 0 to -0.5 * sin 0.0005.  A rotation about
    the up axis would keep z and turn x and y. *)
Lemma C9_up_axis_counterexample :
  Three.up (Trackball.camera framed_state) = axis_Z
  /\ Three.position (Trackball.camera framed_state)
       = {| Three.x := lit (-5) 1; Three.y := lit (-28) 1; Three.z := of_Z 0 |}
  /\ Three.position (Trackball.camera (Trackball.animate cos_at sin_at idle_controls framed_state))
       = {| Three.x := mul (lit (-5) 1) Trackball.cos_angle;
            Three.y := lit (-28) 1;
            Three.z := mul (lit (-5) 1) Trackball.sin_angle |}
  /\ ltb (mul (lit (-5) 1) Trackball.sin_angle) (of_Z 0) = true
  /\ (forall Math_cos Math_sin,
        Three.y (Three.position
          (Trackball.autorotate Math_cos Math_sin (Trackball.camera framed_state)
             (Trackball.target framed_state)))
        = lit (-28) 1).
Proof. repeat split; vm_compute; reflexivity. Qed.

Lemma C9_autorotate_about_Y_witness :
  Trackball.animate cos_at sin_at idle_controls framed_state
    = Trackball.Build_State
        {| Three.position := {| Three.x := mul (lit (-5) 1) Trackball.cos_angle;
                                Three.y := lit (-28) 1;
                                Three.z := mul (lit (-5) 1) Trackball.sin_angle |};
           Three.up := axis_Z;
           Three.quaternion := Three.quaternion (Framer.camera framed_unit) |}
        origin tt true
  /\ Trackball.angle = lit 5 4.
Proof.
  destruct (C9_autorotate_about_Y cos_at sin_at unit idle_controls framed_state eq_refl)
    as (Hrun & Hangle & _).
  split; [|exact Hangle]. rewrite Hrun. vm_compute. reflexivity.
Defined.

End AnimateWitnesses.

(** * Further properties of the component *)

(** ** The decoder: what a returned snapshot holds *)

Section DecodedSnapshots.

Import Js DataView Lssnap.

(** Structural equality of numbers (NaN equals NaN, 0 differs from -0). *)
Definition num_eqb (a b : num) : bool :=
  match a, b with
  | S754_zero s, S754_zero t => Bool.eqb s t
  | S754_infinity s, S754_infinity t => Bool.eqb s t
  | S754_nan, S754_nan => true
  | S754_finite s m e, S754_finite t n f => Bool.eqb s t && (m =? n)%positive && (e =? f)
  | _, _ => false
  end.

Lemma num_eqb_eq (a b : num) : num_eqb a b = true -> a = b.
Proof.
  destruct a as [s|s| |s m e], b as [t|t| |t n f]; simpl; try done.
  - intros H. apply Bool.eqb_prop in H. by subst.
  - intros H. apply Bool.eqb_prop in H. by subst.
  - rewrite !andb_true_iff, Pos.eqb_eq, Z.eqb_eq.
    intros [[H ->] ->]. apply Bool.eqb_prop in H. by subst.
Qed.

(** A returned snapshot is complete: the header fields were read and the
    whole vertex section lies inside the buffer. *)
Lemma parseLssnap_complete (buf : buffer) (snap : LssnapData) :
  parseLssnap buf = Ok snap ->
  exists alen,
    getInt32 buf 4 = Ok (vertexCount snap) /\ getInt32 buf 8 = Ok alen
    /\ 0 <= vertexCount snap
    /\ (vertexCount snap = 0 \/ 16 + 9 * vertexCount snap <= byteLength buf).
Proof.
  intros H. apply parseLssnap_inv in H as (_ & _ & H).
  pose proof (after_header_inv buf snap H) as (Hvc & Hpos & _).
  unfold after_header in H. rewrite Hvc in H. cbn [bind] in H.
  destruct (getInt32 buf 8) as [alen|] eqn:E8; cbn [bind] in H; [|done].
  exists alen. split; [done|]. split; [done|]. split; [done|].
  destruct (decide (vertexCount snap = 0)) as [?|Hne]; [by left|right].
  destruct (Z.le_gt_cases (16 + 9 * vertexCount snap) (byteLength buf)) as [?|Hlt]; [done|].
  exfalso. unfold Float32Array_new in H.
  destruct (vertexCount snap * 3 <? 0); cbn [bind] in H; [done|].
  rewrite vertex_loop_short in H; [done|lia|lia|lia].
Qed.

(** Every slot of a returned snapshot is the slot of the buffer. *)
Lemma parseLssnap_slots (buf : buffer) (snap : LssnapData) :
  parseLssnap buf = Ok snap ->
  (forall j : nat, (j < length (positions snap))%nat ->
     positions snap !! j = Some (Slots.position_slot buf (Z.of_nat j)))
  /\ (forall j : nat, (j < length (colors snap))%nat ->
     colors snap !! j = Some (Slots.color_slot buf (Z.of_nat j))).
Proof.
  intros H. destruct (parseLssnap_complete buf snap H) as (alen & Hvc & Hal & Hpos & Hlen).
  apply parseLssnap_inv in H as (_ & _ & H).
  destruct (after_header_ok buf (vertexCount snap) alen Hvc Hal Hpos Hlen)
    as (ps & cs & Hrun & _ & _ & Hp & Hc).
  rewrite Hrun in H. injection H as <-. done.
Qed.

Lemma uint8_at_range (view : buffer) (off : Z) : 0 <= Slots.uint8_at view off <= 255.
Proof.
  unfold Slots.uint8_at, byte_at. destruct (off <? 0); [simpl; lia|].
  destruct (view !! Z.to_nat off) as [b|]; simpl; [apply byte_val_range|lia].
Qed.

Lemma int16_at_range (view : buffer) (off : Z) : -32768 <= Slots.int16_at view off <= 32767.
Proof.
  unfold Slots.int16_at, to_signed.
  pose proof (uint8_at_range view off). pose proof (uint8_at_range view (off + 1)).
  change (2 ^ (16 - 1)) with 32768. change (2 ^ 16) with 65536.
  destruct (Z.ltb_spec (Slots.uint8_at view off + 256 * Slots.uint8_at view (off + 1)) 32768); lia.
Qed.

(** A coordinate slot is a binary32 number; so is a colour slot, which
    moreover lies between 0 and 1. *)
Definition coord_slot_f32 (k : Z) : bool :=
  let v := Wire.coord_slot k in num_eqb (fround v) v.

Definition color_slot_unit (c : Z) : bool :=
  let v := Wire.color_slot c in
  num_eqb (fround v) v && is_finite v && Qle_bool 0 (to_Q v) && Qle_bool (to_Q v) 1.

Lemma coord_slot_is_f32 (k : Z) : -32768 <= k <= 32767 -> coord_slot_f32 k = true.
Proof.
  intros Hk.
  apply (all_range_spec 65536 coord_slot_f32 (-32768)); [vm_compute; reflexivity | lia].
Qed.

Lemma color_slot_is_unit (c : Z) : 0 <= c <= 255 -> color_slot_unit c = true.
Proof.
  intros Hc.
  apply (all_range_spec 256 color_slot_unit 0); [vm_compute; reflexivity | lia].
Qed.

(** What can be said of one decoded coordinate and of one decoded colour
    channel. *)
Definition decoded_coordinate (v : num) : Prop :=
  exists k, -32768 <= k <= 32767 /\ v = Wire.coord_slot k
    /\ is_finite v = true /\ is_f32 v
    /\ (Qabs (to_Q v - (k # 1000)) <= 1 # 1000)%Q.

Definition decoded_channel (v : num) : Prop :=
  exists c, 0 <= c <= 255 /\ v = Wire.color_slot c
    /\ is_finite v = true /\ is_f32 v
    /\ (0 <= to_Q v)%Q /\ (to_Q v <= 1)%Q.

Lemma position_slot_decoded (buf : buffer) (j : Z) : decoded_coordinate (Slots.position_slot buf j).
Proof.
  unfold Slots.position_slot.
  set (k := Slots.int16_at buf _). exists k.
  assert (Hk : -32768 <= k <= 32767) by apply int16_at_range.
  split; [done|]. split; [done|].
  pose proof (coord_slot_close k Hk) as Hc. pose proof (coord_slot_is_f32 k Hk) as Hf.
  unfold within_thousandth in Hc. apply andb_true_iff in Hc as [Hfin Hq].
  split; [exact Hfin|]. split; [by apply num_eqb_eq|]. by apply Qle_bool_iff.
Qed.

Lemma color_slot_decoded (buf : buffer) (j : Z) : decoded_channel (Slots.color_slot buf j).
Proof.
  unfold Slots.color_slot.
  set (c := Slots.uint8_at buf _). exists c.
  assert (Hc : 0 <= c <= 255) by apply uint8_at_range.
  split; [done|]. split; [done|].
  pose proof (color_slot_is_unit c Hc) as Hu. unfold color_slot_unit in Hu.
  cbv zeta in Hu. rewrite !andb_true_iff in Hu. destruct Hu as [[[Hf Hfin] H0] H1].
  split; [exact Hfin|]. split; [by apply num_eqb_eq|].
  split; by apply Qle_bool_iff.
Qed.

Lemma Forall_slots {A : Type} (P : A -> Prop) (l : list A) (f : Z -> A) :
  (forall j : nat, (j < length l)%nat -> l !! j = Some (f (Z.of_nat j))) ->
  (forall j, P (f j)) -> Forall P l.
Proof.
  intros Hl HP. apply Forall_lookup. intros j v Hj.
  rewrite Hl in Hj by (by eapply lookup_lt_Some). injection Hj as <-. apply HP.
Qed.

(** X1: a snapshot that [parseLssnap] returns never has more vertices
    than the buffer has records: its vertex count is not negative, and
    when it is positive the buffer has the 16 header bytes and 9 bytes for
    each vertex. *)
Theorem X1_vertices_within_buffer (buf : buffer) (snap : LssnapData) :
  parseLssnap buf = Ok snap ->
  0 <= vertexCount snap
  /\ (vertexCount snap = 0 \/ 16 + 9 * vertexCount snap <= byteLength buf)
  /\ 12 <= byteLength buf.
Proof.
  intros H. destruct (parseLssnap_complete buf snap H) as (alen & _ & Hal & Hpos & Hlen).
  split; [done|]. split; [done|]. apply getInt32_Ok in Hal. lia.
Qed.

(** X2: whatever the buffer, the numbers of a returned snapshot are
    finite binary32 numbers, never NaN or an infinity: every position
    slot is within 0.001 of some int16 / 1000, and every colour slot lies
    between 0 and 1. *)
Theorem X2_decoded_numbers (buf : buffer) (snap : LssnapData) :
  parseLssnap buf = Ok snap ->
  Forall decoded_coordinate (positions snap) /\ Forall decoded_channel (colors snap).
Proof.
  intros H. destruct (parseLssnap_slots buf snap H) as [Hp Hc]. split.
  - apply (Forall_slots _ _ (Slots.position_slot buf) Hp), position_slot_decoded.
  - apply (Forall_slots _ _ (Slots.color_slot buf) Hc), color_slot_decoded.
Qed.

End DecodedSnapshots.

(** ** The decoder: the bytes it never looks at *)

Section IgnoredBytes.

Import Js DataView Lssnap.

Lemma vertex_loop_agree (view view' : buffer) n i off ps cs :
  (forall o, off <= o -> byte_at view o = byte_at view' o) ->
  vertex_loop n view i off ps cs = vertex_loop n view' i off ps cs.
Proof.
  revert i off ps cs. induction n as [|n IH]; intros i off ps cs H; [done|].
  cbn [vertex_loop]. unfold getInt16, getUint8.
  rewrite <- !(H off), <- !(H (off + 1)), <- !(H (off + 2)), <- !(H (off + 2 + 1)),
    <- !(H (off + 4)), <- !(H (off + 4 + 1)), <- !(H (off + 6)), <- !(H (off + 7)),
    <- !(H (off + 8)) by lia.
  destruct (byte_at view off), (byte_at view (off + 1)); cbn [bind]; try done.
  destruct (byte_at view (off + 2)), (byte_at view (off + 2 + 1)); cbn [bind]; try done.
  destruct (byte_at view (off + 4)), (byte_at view (off + 4 + 1)); cbn [bind]; try done.
  destruct (byte_at view (off + 6)); cbn [bind]; try done.
  destruct (byte_at view (off + 7)); cbn [bind]; try done.
  destruct (byte_at view (off + 8)); cbn [bind]; try done.
  apply IH. intros o Ho. apply H. lia.
Qed.

Lemma byte_at_in_prefix (buf extra : buffer) (o : Z) :
  o < byteLength buf -> byte_at (buf ++ extra) o = byte_at buf o.
Proof.
  intros Ho. unfold byte_at, byteLength in *. destruct (Z.ltb_spec o 0) as [?|?]; [done|].
  by rewrite lookup_app_l by lia.
Qed.

Lemma read_annotations_agree (buf buf' : buffer) (off len : Z) :
  byteLength buf = byteLength buf' -> drop 16 buf = drop 16 buf' -> 16 <= off ->
  read_annotations buf off len = read_annotations buf' off len.
Proof.
  intros Hlen Hdrop Hoff. unfold read_annotations, Uint8Array_view. rewrite <- Hlen.
  destruct (_ || _); [done|].
  replace (Z.to_nat off) with (16 + (Z.to_nat off - 16))%nat by lia.
  by rewrite <- !drop_drop, Hdrop.
Qed.

(** Two buffers that agree wherever [parseLssnap] reads decode alike. *)
Lemma parseLssnap_agree (buf buf' : buffer) :
  byteLength buf = byteLength buf' ->
  (forall o, o < 12 -> byte_at buf o = byte_at buf' o) ->
  (forall o, 16 <= o -> byte_at buf o = byte_at buf' o) ->
  drop 16 buf = drop 16 buf' ->
  parseLssnap buf = parseLssnap buf'.
Proof.
  intros Hlen Hlow Hhigh Hdrop. unfold parseLssnap, getUint8, getInt32.
  rewrite <- !(Hlow 0), <- !(Hlow 1), <- !(Hlow 2), <- !(Hlow 3), <- !(Hlow 4),
    <- !(Hlow (4 + 1)), <- !(Hlow (4 + 2)), <- !(Hlow (4 + 3)), <- !(Hlow 8),
    <- !(Hlow (8 + 1)), <- !(Hlow (8 + 2)), <- !(Hlow (8 + 3)) by lia.
  destruct (byte_at buf 0); cbn [bind]; [|done].
  destruct (byte_at buf 1); cbn [bind]; [|done].
  destruct (byte_at buf 2); cbn [bind]; [|done].
  destruct (byte_at buf 3); cbn [bind]; [|done].
  destruct (negb _ || negb _); [done|].
  destruct (byte_at buf 4), (byte_at buf (4 + 1)), (byte_at buf (4 + 2)),
    (byte_at buf (4 + 3)); cbn [bind]; try done.
  destruct (byte_at buf 8), (byte_at buf (8 + 1)), (byte_at buf (8 + 2)),
    (byte_at buf (8 + 3)); cbn [bind]; try done.
  destruct (Float32Array_new _) as [zs|]; cbn [bind]; [|done].
  rewrite <- (vertex_loop_agree buf buf') by (intros o Ho; apply Hhigh; lia).
  destruct (vertex_loop _ buf 0 16 zs zs) as [[[off ps] cs]|] eqn:E; cbn [bind]; [|done].
  apply vertex_loop_shape in E as (-> & _ & _).
  do 2 f_equal.
  destruct (0 <? _); [|done]. f_equal.
  apply read_annotations_agree; [done|done|lia].
Qed.

(** X3: the four reserved bytes 12 to 15 of the header are never read:
    two buffers that differ in them only decode alike, to the same
    snapshot or to the same exception. *)
Theorem X3_reserved_bytes_ignored (h r r' body : list byte) :
  length h = 12%nat -> length r = 4%nat -> length r' = 4%nat ->
  parseLssnap (h ++ r ++ body) = parseLssnap (h ++ r' ++ body).
Proof.
  intros Hh Hr Hr'. apply parseLssnap_agree.
  - unfold byteLength. rewrite !length_app. lia.
  - intros o Ho. unfold byte_at. destruct (Z.ltb_spec o 0) as [?|?]; [done|].
    by rewrite !lookup_app_l by lia.
  - intros o Ho. rewrite !app_assoc.
    replace o with (byteLength (h ++ r) + (o - 16)) at 1
      by (unfold byteLength; rewrite length_app; lia).
    replace o with (byteLength (h ++ r') + (o - 16)) at 2
      by (unfold byteLength; rewrite length_app; lia).
    by rewrite !byte_at_app by lia.
  - rewrite !app_assoc, !drop_app_length'; [done| |]; rewrite length_app; lia.
Qed.

End IgnoredBytes.

Section TrailingBytes.

Import Js DataView Lssnap.

Lemma uint8_at_in_prefix (buf extra : buffer) (o : Z) :
  o < byteLength buf -> Slots.uint8_at (buf ++ extra) o = Slots.uint8_at buf o.
Proof. intros Ho. unfold Slots.uint8_at. by rewrite byte_at_in_prefix. Qed.

Lemma getInt32_in_prefix (buf extra : buffer) (o v : Z) :
  getInt32 buf o = Ok v -> getInt32 (buf ++ extra) o = Ok v.
Proof.
  intros H. pose proof (getInt32_Ok buf o v H) as [H0 Hlen].
  unfold getInt32 in *. by rewrite !byte_at_in_prefix by lia.
Qed.

Lemma slot_record (j vc : Z) : 0 <= j < 3 * vc -> 0 <= j / 3 < vc /\ 0 <= j mod 3 < 3.
Proof.
  intros Hj. split; [|apply Z.mod_pos_bound; lia].
  split; [apply Z.div_pos; lia|apply Z.div_lt_upper_bound; lia].
Qed.

Lemma position_slot_in_prefix (buf extra : buffer) (j vc : Z) :
  0 <= j < 3 * vc -> 16 + 9 * vc <= byteLength buf ->
  Slots.position_slot (buf ++ extra) j = Slots.position_slot buf j.
Proof.
  intros Hj Hlen. destruct (slot_record j vc Hj) as [Hd Hm].
  unfold Slots.position_slot, Slots.int16_at.
  by rewrite !uint8_at_in_prefix by lia.
Qed.

Lemma color_slot_in_prefix (buf extra : buffer) (j vc : Z) :
  0 <= j < 3 * vc -> 16 + 9 * vc <= byteLength buf ->
  Slots.color_slot (buf ++ extra) j = Slots.color_slot buf j.
Proof.
  intros Hj Hlen. destruct (slot_record j vc Hj) as [Hd Hm].
  unfold Slots.color_slot. by rewrite !uint8_at_in_prefix by lia.
Qed.

Lemma read_annotations_in_prefix (buf extra : buffer) (off len : Z) :
  0 <= off -> 0 <= len -> off + len <= byteLength buf ->
  read_annotations (buf ++ extra) off len = read_annotations buf off len.
Proof.
  intros Hoff Hl Hlen. unfold read_annotations, Uint8Array_view, byteLength in *.
  rewrite length_app.
  destruct (Z.ltb_spec off 0) as [?|_]; [lia|].
  destruct (Z.ltb_spec len 0) as [?|_]; [lia|].
  destruct (Z.ltb_spec (Z.of_nat (length buf)) (off + len)) as [?|_]; [lia|].
  destruct (Z.ltb_spec (Z.of_nat (length buf + length extra)) (off + len)) as [?|_]; [lia|].
  cbn [orb bind]. rewrite drop_app_le by lia.
  by rewrite take_app_le by (rewrite length_drop; lia).
Qed.

(** X4: bytes behind a complete snapshot are ignored.  If a buffer
    decodes and its annotation block (when it has one) lies inside it,
    then the buffer followed by any further bytes decodes to the same
    snapshot. *)
Theorem X4_trailing_bytes_ignored (buf extra : buffer) (snap : LssnapData) (alen : Z) :
  parseLssnap buf = Ok snap -> getInt32 buf 8 = Ok alen ->
  alen <= 0 \/ 16 + 9 * vertexCount snap + alen <= byteLength buf ->
  parseLssnap (buf ++ extra) = Ok snap.
Proof.
  intros Hrun Hal Hblock.
  destruct (parseLssnap_complete buf snap Hrun) as (alen' & Hvc & Hal' & Hpos & Hlen).
  rewrite Hal in Hal'. injection Hal' as <-.
  pose proof (getInt32_Ok _ _ _ Hal) as [_ H12].
  apply parseLssnap_inv in Hrun as (Hm & Hv & Hrun).
  rewrite parseLssnap_header_ok.
  2: { rewrite take_app_le; [done|]. unfold byteLength in H12. lia. }
  2: { rewrite lookup_app_l; [done|]. unfold byteLength in H12. lia. }
  destruct (after_header_ok buf (vertexCount snap) alen Hvc Hal Hpos Hlen)
    as (ps & cs & Hdec & Hlp & Hlc & Hp & Hc).
  rewrite Hdec in Hrun. injection Hrun as <-.
  destruct (after_header_ok (buf ++ extra) (vertexCount snap) alen)
    as (ps' & cs' & Hdec' & Hlp' & Hlc' & Hp' & Hc').
  { by apply getInt32_in_prefix. }
  { by apply getInt32_in_prefix. }
  { done. }
  { destruct Hlen as [?|?]; [by left|right].
    unfold byteLength in *. rewrite length_app. lia. }
  rewrite Hdec'.
  assert (Hps : ps' = ps).
  { apply list_eq. intros j. destruct (decide (j < length ps)%nat) as [Hj|Hj].
    - rewrite Hp' by lia. rewrite Hp by lia. f_equal.
      destruct Hlen as [H0|Hlen]; [rewrite H0 in Hlp; simpl in Hlp; lia|].
      apply (position_slot_in_prefix _ _ _ (vertexCount snap)); lia.
    - by rewrite !lookup_ge_None_2 by lia. }
  assert (Hcs : cs' = cs).
  { apply list_eq. intros j. destruct (decide (j < length cs)%nat) as [Hj|Hj].
    - rewrite Hc' by lia. rewrite Hc by lia. f_equal.
      destruct Hlen as [H0|Hlen]; [rewrite H0 in Hlc; simpl in Hlc; lia|].
      apply (color_slot_in_prefix _ _ _ (vertexCount snap)); lia.
    - by rewrite !lookup_ge_None_2 by lia. }
  rewrite Hps, Hcs. do 3 f_equal.
  destruct (Z.ltb_spec 0 alen) as [Hlt|?]; [|done].
  rewrite read_annotations_in_prefix; [done|lia|lia|lia].
Qed.

End TrailingBytes.

Section DecoderWitnesses.

Import Js DataView Lssnap.

Lemma X1_vertices_within_buffer_witness :
  0 <= vertexCount sample_snapshot
  /\ (vertexCount sample_snapshot = 0
      \/ 16 + 9 * vertexCount sample_snapshot <= byteLength sample_buffer)
  /\ 12 <= byteLength sample_buffer.
Proof. exact (X1_vertices_within_buffer sample_buffer sample_snapshot sample_buffer_decodes). Defined.

Lemma X2_decoded_numbers_witness :
  Forall decoded_coordinate (positions sample_snapshot)
  /\ Forall decoded_channel (colors sample_snapshot).
Proof. exact (X2_decoded_numbers sample_buffer sample_snapshot sample_buffer_decodes). Defined.

(** The sample buffer with other reserved bytes, and with a tail. *)
Definition sample_other_reserved : buffer :=
  take 12 sample_buffer ++ ["r"; "s"; "v"; "d"]%byte ++ drop 16 sample_buffer.

Lemma X3_reserved_bytes_ignored_witness :
  parseLssnap sample_other_reserved = Ok sample_snapshot.
Proof.
  unfold sample_other_reserved.
  rewrite (X3_reserved_bytes_ignored (take 12 sample_buffer) ["r"; "s"; "v"; "d"]%byte
             (take 4 (drop 12 sample_buffer)) (drop 16 sample_buffer)
             eq_refl eq_refl eq_refl).
  exact sample_buffer_decodes.
Defined.

Lemma X4_trailing_bytes_ignored_witness :
  parseLssnap (sample_buffer ++ ["t"; "a"; "i"; "l"]%byte) = Ok sample_snapshot.
Proof.
  apply (X4_trailing_bytes_ignored sample_buffer _ sample_snapshot 0 sample_buffer_decodes eq_refl).
  left. lia.
Defined.

End DecoderWitnesses.

Section DecoderExceptions.

Import Js DataView Lssnap.

(** X5: the only exceptions that leave [parseLssnap] are the format error
    and the RangeError of a read or an allocation: whatever the buffer
    holds, the call returns a snapshot or throws one of these two; what
    the decoder of the annotation text or [JSON.parse] throws never
    leaves it. *)
Theorem X5_only_two_exceptions (buf : buffer) :
  match parseLssnap buf with
  | Ok snap => True
  | Throw (Error_not_lssnap magic version) =>
      (4 <= length buf)%nat
      /\ Some <$> magic = byte_at buf <$> [0; 1; 2] /\ Some version = byte_at buf 3
  | Throw RangeError => True
  | Throw _ => False
  end.
Proof.
  destruct buf as [|b0 [|b1 [|b2 [|b3 rest]]]]; try done.
  rewrite parseLssnap_four. destruct (header_rejected b0 b1 b2 b3).
  - split; [simpl; lia|]. split; reflexivity.
  - pose proof (after_header_cases (b0 :: b1 :: b2 :: b3 :: rest)) as Hc.
    destruct (after_header _) as [|e]; [done|]. simpl in Hc. by subst.
Qed.

End DecoderExceptions.

Section FilterShape.

Import Js DataView Lssnap.

Lemma length_indices_from (vi : Z) (n : nat) : length (indices_from vi n) = n.
Proof. revert vi. induction n as [|n IH]; intros vi; simpl; [done|]. by rewrite IH. Qed.

Lemma length_triples (array : list num) (K : list Z) :
  length (concat (triple_at array <$> K)) = (3 * length K)%nat.
Proof. by apply length_concat_fixed. Qed.

(** X6: whatever the snapshot holds, the filter block hands over as many
    colour numbers as position numbers, three of each for every vertex it
    kept, and it keeps no more vertices than [vertexCount] says. *)
Theorem X6_filter_shape (heightFraction : num) (data : LssnapData) :
  let out := Filter.filter_block heightFraction data in
  length out.1 = length out.2
  /\ exists n : nat,
       length out.1 = (3 * n)%nat /\ Z.of_nat n <= Z.max 0 (vertexCount data).
Proof.
  intros out. unfold out, Filter.filter_block. rewrite filter_loop_spec.
  cbn [fst snd app]. unfold Filter.Float32Array_from. rewrite !length_fmap, !length_triples.
  split; [done|]. eexists. split; [reflexivity|].
  pose proof (length_filter (kept (Filter.cuts heightFraction data) data)
                (indices_from 0 (Z.to_nat (vertexCount data)))) as H.
  rewrite length_indices_from in H. apply Nat2Z.inj_le in H. etrans; [exact H|]. lia.
Qed.

Lemma triples_Forall (P : num -> Prop) (array : list num) (K : list Z) :
  Forall P array ->
  (forall vi, vi ∈ K -> 0 <= vi /\ vi * 3 + 2 < Z.of_nat (length array)) ->
  Forall P (concat (triple_at array <$> K)).
Proof.
  intros HP. induction K as [|vi K IH]; intros HK; csimpl; [constructor|].
  destruct (HK vi) as [H0 Hlt]; [by left|].
  assert (Hget : forall c, 0 <= c <= 2 -> P (Float32Array_get array (vi * 3 + c))).
  { intros c Hc. unfold Float32Array_get.
    destruct (Z.ltb_spec (vi * 3 + c) 0) as [?|_]; [lia|].
    destruct (lookup_lt_is_Some_2 array (Z.to_nat (vi * 3 + c))) as [v Hv]; [lia|].
    rewrite Hv. simpl. by eapply Forall_lookup_1 in HP. }
  constructor; [rewrite <- (Z.add_0_r (vi * 3)); apply Hget; lia|].
  constructor; [apply Hget; lia|]. constructor; [apply Hget; lia|].
  apply IH. intros vj Hj. apply HK. by right.
Qed.

(** X7: decoding and filtering together.  What the filter block hands to
    the point cloud of a decoded buffer are numbers of the snapshot as
    they are, the conversion to [Float32Array] changing none: the kept
    vertices in their order, every coordinate a finite binary32 number
    within 0.001 of a multiple of 0.001 in the int16 range, every colour
    channel a finite binary32 number between 0 and 1. *)
Theorem X7_drawn_points_are_decoded (heightFraction : num) (buf : buffer) (snap : LssnapData) :
  parseLssnap buf = Ok snap ->
  let K := kept_indices (Filter.cuts heightFraction snap) snap in
  let out := Filter.filter_block heightFraction snap in
  out = (concat (triple_at (positions snap) <$> K), concat (triple_at (colors snap) <$> K))
  /\ Forall decoded_coordinate out.1
  /\ Forall decoded_channel out.2.
Proof.
  intros Hrun K out.
  destruct (parseLssnap_slots buf snap Hrun) as [Hp Hc].
  assert (HP : Forall decoded_coordinate (positions snap)).
  { eapply Forall_slots; [exact Hp|]. apply position_slot_decoded. }
  assert (HC : Forall decoded_channel (colors snap)).
  { eapply Forall_slots; [exact Hc|]. apply color_slot_decoded. }
  pose proof Hrun as Hinv. apply parseLssnap_inv in Hinv as (_ & _ & Hinv).
  apply after_header_inv in Hinv as (_ & Hvc & Hlp & Hlc).
  assert (HK : forall vi, vi ∈ K -> 0 <= vi /\ vi * 3 + 2 < 3 * vertexCount snap).
  { intros vi Hvi. unfold K, kept_indices in Hvi.
    apply list_elem_of_filter in Hvi as [_ Hvi]. apply elem_of_indices_from in Hvi. lia. }
  assert (Hout : out = (concat (triple_at (positions snap) <$> K),
                        concat (triple_at (colors snap) <$> K))).
  { unfold out, Filter.filter_block. rewrite filter_loop_spec. cbn [app].
    fold K. rewrite !Float32Array_from_id; [done| |].
    - apply triples_f32. eapply Forall_impl; [exact HC|]. by intros v (c & _ & _ & _ & Hf & _).
    - apply triples_f32. eapply Forall_impl; [exact HP|]. by intros v (k & _ & _ & _ & Hf & _). }
  split; [exact Hout|]. rewrite Hout. cbn [fst snd].
  split; apply triples_Forall; try done; intros vi Hvi; apply HK in Hvi; lia.
Qed.

Lemma X7_drawn_points_are_decoded_witness :
  let out := Filter.orbit_subset sample_snapshot in
  Forall decoded_coordinate out.1 /\ Forall decoded_channel out.2.
Proof.
  exact (proj2 (X7_drawn_points_are_decoded (lit 45 2) sample_buffer sample_snapshot
                  sample_buffer_decodes)).
Defined.

End FilterShape.

Section DegenerateFraming.

Import Js DataView.

(** Every vertex of the attribute is the point [p]; an attribute without
    vertices qualifies. *)
Definition coincident (geo : list num) (p : Three.Vector3) : Prop :=
  forall i, 0 <= i < Z.of_nat (Three.passes geo) -> Three.fromBufferAttribute geo i = p.

Definition finite_point (p : Three.Vector3) : Prop :=
  is_finite (Three.x p) = true /\ is_finite (Three.y p) = true /\ is_finite (Three.z p) = true.

Definition zero_vector : Three.Vector3 :=
  {| Three.x := Three.zero; Three.y := Three.zero; Three.z := Three.zero |}.

Lemma compare_refl (a : num) : is_finite a = true -> SFcompare a a = Some Eq.
Proof.
  destruct a as [s|s| |s m e]; try done. intros _. simpl.
  destruct s; rewrite Z.compare_refl;
    change (Pos.compare_cont Eq m m) with (Pos.compare m m); by rewrite Pos.compare_refl.
Qed.

Lemma min2_same (a : num) : is_finite a = true -> min2 a a = a.
Proof. intros H. unfold min2. rewrite (compare_refl a H). by destruct a as [[|]| | |]. Qed.

Lemma max2_same (a : num) : is_finite a = true -> max2 a a = a.
Proof. intros H. unfold max2. rewrite (compare_refl a H). by destruct a as [[|]| | |]. Qed.

Lemma min2_first (a : num) : is_finite a = true -> min2 Infinity a = a.
Proof. by destruct a as [[|]|[|]| |[|] m e]. Qed.

Lemma max2_first (a : num) : is_finite a = true -> max2 NegInfinity a = a.
Proof. by destruct a as [[|]|[|]| |[|] m e]. Qed.

Lemma ltb_same (a : num) : is_finite a = true -> ltb a a = false.
Proof. intros H. unfold ltb, SFltb. by rewrite (compare_refl a H). Qed.

(** The difference of a finite number and itself is +0. *)
Lemma sub_same (a : num) : is_finite a = true -> sub a a = Three.zero.
Proof.
  destruct a as [[|]|s| |s m e]; try done. intros _.
  unfold sub, SFsub. by rewrite Z.sub_diag.
Qed.

Lemma sub_zero (a : num) : sub a Three.zero = a.
Proof. by destruct a as [[|]|[|]| |s m e]. Qed.

Definition point_box (p : Three.Vector3) : Three.Box3 := {| Three.min := p; Three.max := p |}.

Lemma expandByPoint_same (p : Three.Vector3) :
  finite_point p -> Three.expandByPoint (point_box p) p = point_box p.
Proof.
  intros (Hx & Hy & Hz). unfold Three.expandByPoint, point_box. cbn [Three.min Three.max].
  rewrite !min2_same, !max2_same by done. by destruct p.
Qed.

Lemma expandByPoint_first (p : Three.Vector3) :
  finite_point p -> Three.expandByPoint Three.makeEmpty p = point_box p.
Proof.
  intros (Hx & Hy & Hz). unfold Three.expandByPoint, Three.makeEmpty, point_box.
  cbn [Three.min Three.max Three.x Three.y Three.z].
  rewrite !min2_first, !max2_first by done. by destruct p.
Qed.

Lemma expand_loop_same (n : nat) (geo : list num) (i : Z) (p : Three.Vector3) :
  finite_point p ->
  (forall j, i <= j < i + Z.of_nat n -> Three.fromBufferAttribute geo j = p) ->
  Three.expand_loop n geo i (point_box p) = point_box p.
Proof.
  intros Hp. revert i. induction n as [|n IH]; intros i Hall; [done|].
  cbn [Three.expand_loop]. rewrite Hall by lia. rewrite expandByPoint_same by done.
  apply IH. intros j Hj. apply Hall. lia.
Qed.

(** The box of coincident points is the point, or the empty box. *)
Lemma coincident_box (geo : list num) (p : Three.Vector3) :
  finite_point p -> coincident geo p ->
  Three.computeBoundingBox geo = Three.makeEmpty \/ Three.computeBoundingBox geo = point_box p.
Proof.
  intros Hp Hall. unfold coincident in Hall. unfold Three.computeBoundingBox.
  destruct (Three.passes geo) as [|n]; [by left|right].
  cbn [Three.expand_loop]. rewrite Hall by lia. rewrite expandByPoint_first by done.
  apply expand_loop_same; [done|]. intros j Hj. apply Hall. lia.
Qed.

Lemma coincident_size (geo : list num) (p : Three.Vector3) :
  finite_point p -> coincident geo p ->
  Three.getSize (Three.computeBoundingBox geo) = zero_vector.
Proof.
  intros Hp Hall. destruct (coincident_box geo p Hp Hall) as [-> | ->]; [done|].
  destruct Hp as (Hx & Hy & Hz). unfold Three.getSize, Three.isEmpty, point_box.
  cbn [Three.min Three.max]. rewrite !ltb_same by done. cbn [orb].
  unfold Three.subVectors. cbn [Three.min Three.max]. by rewrite !sub_same.
Qed.

(** X8: a subset without extent.  When the filter keeps no vertex, or
    all the vertices it keeps are one and the same finite point, the box
    has size 0 and both framing blocks put the camera on the target
    itself: the trackball variant exactly, the orbit variant up to the
    sign of a zero.  The direction that [lookAt] is asked for is from the
    target to the target; an empty subset is framed at the origin. *)
Theorem X8_subset_without_extent (camera : Three.Camera) (geo : list num) (p : Three.Vector3) :
  finite_point p -> coincident geo p ->
  let orbit := Framer.frame_orbit camera geo in
  let trackball := Framer.frame_trackball camera geo in
  Three.position (Framer.camera trackball) = Framer.target trackball
  /\ Three.x (Three.position (Framer.camera orbit)) = Three.x (Framer.target orbit)
  /\ same_number (Three.y (Three.position (Framer.camera orbit))) (Three.y (Framer.target orbit))
  /\ same_number (Three.z (Three.position (Framer.camera orbit))) (Three.z (Framer.target orbit))
  /\ (geo = [] -> Framer.target orbit = zero_vector /\ Framer.target trackball = zero_vector
                  /\ Three.position (Framer.camera orbit) = zero_vector).
Proof.
  intros Hp Hall orbit trackball.
  pose proof (coincident_size geo p Hp Hall) as Hsize.
  unfold orbit, trackball, Framer.frame_orbit, Framer.frame_trackball.
  cbn [Three.lookAt Three.set_position Three.set_up Three.position Framer.camera Framer.target
       Three.x Three.y Three.z].
  rewrite Hsize.
  change (Framer.maxDim_of zero_vector) with Three.zero.
  change (mul Three.zero (lit 5 1)) with Three.zero.
  change (mul Three.zero (lit 28 1)) with Three.zero.
  change (mul Three.zero (lit 1 1)) with Three.zero.
  change (mul Three.zero (lit 25 2)) with Three.zero.
  change (mul Three.zero (lit 16 1)) with Three.zero.
  rewrite !sub_zero.
  split; [by destruct (Three.getCenter _)|]. split; [done|].
  split; [apply add_zero_same|]. split; [apply add_zero_same|].
  intros ->. done.
Qed.

(** Two vertices at the point (1, 1, 1). *)
Definition twice_one : list num := of_Z <$> [1; 1; 1; 1; 1; 1].

Definition point_one : Three.Vector3 :=
  {| Three.x := of_Z 1; Three.y := of_Z 1; Three.z := of_Z 1 |}.

Lemma X8_subset_without_extent_witness :
  Three.position (Framer.camera (Framer.frame_trackball Framer.initial_camera twice_one))
    = point_one
  /\ Framer.target (Framer.frame_trackball Framer.initial_camera twice_one) = point_one
  /\ Three.x (Three.position (Framer.camera (Framer.frame_orbit Framer.initial_camera twice_one)))
     = of_Z 1.
Proof.
  assert (Hp : finite_point point_one) by done.
  assert (Hall : coincident twice_one point_one).
  { intros i Hi. change (Z.of_nat (Three.passes twice_one)) with 2 in Hi.
    assert (Hc : i = 0 \/ i = 1) by lia. by destruct Hc as [-> | ->]. }
  destruct (X8_subset_without_extent Framer.initial_camera twice_one point_one Hp Hall)
    as (Ht & Hx & _).
  split; [by rewrite Ht|]. split; [done|]. by rewrite Hx.
Defined.

End DegenerateFraming.

Section OverlayShapes.

Import Js Overlay.

Variables Math_cos Math_sin : num -> num.

(** The three numbers [setFromPoints] stores for one point. *)
Definition stored (p : Three.Vector3) : list num :=
  [fround (Three.x p); fround (Three.y p);
   fround (if truthy (Three.z p) then Three.z p else Three.zero)].

Lemma setFromPoints_stored (pts : list Three.Vector3) :
  setFromPoints pts = concat (stored <$> pts).
Proof. reflexivity. Qed.

Lemma length_setFromPoints (pts : list Three.Vector3) :
  length (setFromPoints pts) = (3 * length pts)%nat.
Proof. rewrite setFromPoints_stored. by apply length_concat_fixed. Qed.





(** The point that the freehand loop builds from the three numbers at
    index [3 * t]. *)
Definition vertex_at (ps : list num) (t : Z) : Three.Vector3 :=
  Three.Vector3_new (at_ ps (3 * t)) (at_ ps (3 * t + 1)) (at_ ps (3 * t + 2)).

(** The number of passes of the loop over [n] numbers. *)
Definition strokes (n : nat) : Z := (Z.of_nat n + 2) / 3.

Lemma freehand_points_spec (fuel : nat) (ps : list num) (j : Z) (pts : list Three.Vector3) :
  0 <= j ->
  freehand_points fuel ps (3 * j) pts
    = pts ++ (vertex_at ps <$> indices_from j (Nat.min fuel (Z.to_nat (strokes (length ps) - j)))).
Proof.
  revert j pts. induction fuel as [|fuel IH]; intros j pts Hj.
  - cbn [freehand_points Nat.min indices_from]. csimpl. by rewrite app_nil_r.
  - cbn [freehand_points]. unfold strokes.
    destruct (Z.ltb_spec (3 * j) (Z.of_nat (length ps))) as [Hlt|Hge].
    + assert (Hs : j < (Z.of_nat (length ps) + 2) / 3)
        by (Z.to_euclidean_division_equations; lia).
      replace (Z.to_nat ((Z.of_nat (length ps) + 2) / 3 - j))
        with (S (Z.to_nat ((Z.of_nat (length ps) + 2) / 3 - (j + 1)))) by lia.
      cbn [Nat.min indices_from]. csimpl.
      replace (3 * j + 3) with (3 * (j + 1)) by lia.
      rewrite IH by lia. unfold strokes. rewrite <- app_assoc. done.
    + assert (Hs : (Z.of_nat (length ps) + 2) / 3 <= j)
        by (Z.to_euclidean_division_equations; lia).
      replace (Z.to_nat ((Z.of_nat (length ps) + 2) / 3 - j)) with 0%nat by lia.
      rewrite Nat.min_0_r. csimpl. by rewrite app_nil_r.
Qed.

Lemma freehand_points_all (ps : list num) :
  freehand_points (length ps) ps 0 []
    = vertex_at ps <$> indices_from 0 (Z.to_nat (strokes (length ps))).
Proof.
  change 0 with (3 * 0) at 1.
  rewrite (freehand_points_spec (length ps) ps 0 []) by lia. rewrite Z.sub_0_r. cbn [app].
  f_equal. f_equal. apply Nat.min_r. unfold strokes.
  assert ((Z.of_nat (length ps) + 2) / 3 <= Z.of_nat (length ps))
    by (Z.to_euclidean_division_equations; lia).
  lia.
Qed.

Lemma lookup_indices_from (vi : Z) (n i : nat) :
  (i < n)%nat -> indices_from vi n !! i = Some (vi + Z.of_nat i).
Proof.
  revert vi i. induction n as [|n IH]; intros vi i Hi; [lia|].
  destruct i as [|i]; cbn [indices_from]; simpl; [f_equal; lia|].
  rewrite IH by lia. f_equal. lia.
Qed.

(** A number that a line geometry stores as it is: a binary32 number that
    is not NaN and not -0. *)
Definition stored_as_is (v : num) : Prop :=
  fround v = v /\ (truthy v = true \/ v = Three.zero).

(** X10: a freehand annotation of [n] numbers, [n] at least 6, always
    becomes one line of 3 * ceil(n / 3) numbers, drawn after what the
    group holds; when [n] is a multiple of 3 and the numbers are binary32
    numbers other than NaN and -0, the line holds exactly the numbers of
    the annotation, in their order. *)
Theorem X10_freehand_stroke (group : list Primitive) (ann : Annotation) (ps : list num) :
  type ann = Json.str "freehand" -> positions ann = Some ps -> (6 <= length ps)%nat ->
  exists numbers,
    annotation_step Math_cos Math_sin group ann
      = group ++ [Line numbers (resolve_color (color ann)) (lit 8 1)]
    /\ Z.of_nat (length numbers) = 3 * ((Z.of_nat (length ps) + 2) / 3)
    /\ ((length ps mod 3 = 0)%nat -> Forall stored_as_is ps -> numbers = ps).
Proof.
  intros Hty Hps Hlen. eexists. split; [|split].
  - unfold annotation_step. rewrite Hps, Hty.
    destruct (Z.ltb_spec (Z.of_nat (length ps)) 3) as [?|_]; [lia|].
    change (Json.str_eqb (Json.str "freehand") (Json.str "point")) with false.
    change (Json.str_eqb (Json.str "freehand") (Json.str "circle")) with false.
    change (Json.str_eqb (Json.str "freehand") (Json.str "freehand")) with true.
    destruct (Z.leb_spec 6 (Z.of_nat (length ps))) as [_|?]; [|lia].
    cbv iota. cbn [andb]. reflexivity.
  - rewrite length_setFromPoints, freehand_points_all, length_fmap, length_indices_from.
    unfold strokes.
    assert (0 <= (Z.of_nat (length ps) + 2) / 3) by (apply Z.div_pos; lia). lia.
  - intros Hmod Hall. rewrite freehand_points_all, setFromPoints_stored.
    symmetry. rewrite <- list_fmap_compose.
    assert (Hk : Z.of_nat (length ps) = 3 * strokes (length ps)).
    { unfold strokes. apply Nat.Div0.div_exact in Hmod.
      set (k := (length ps / 3)%nat) in *. clearbody k.
      Z.to_euclidean_division_equations; lia. }
    apply (concat_fixed_eq (stored ∘ vertex_at ps) 3); [done|lia| |].
    { rewrite length_indices_from. lia. }
    intros i c t Ht Hc.
    assert (Hi : (i < Z.to_nat (strokes (length ps)))%nat).
    { apply lookup_lt_Some in Ht. by rewrite length_indices_from in Ht. }
    rewrite lookup_indices_from in Ht by done. injection Ht as <-. rewrite Z.add_0_l.
    assert (Hat : forall d, 0 <= d < 3 ->
              exists v, at_ ps (3 * Z.of_nat i + d) = Some v
                        /\ ps !! (3 * i + Z.to_nat d)%nat = Some v /\ stored_as_is v).
    { intros d Hd. unfold at_.
      destruct (Z.ltb_spec (3 * Z.of_nat i + d) 0) as [?|_]; [lia|].
      replace (Z.to_nat (3 * Z.of_nat i + d)) with (3 * i + Z.to_nat d)%nat by lia.
      destruct (lookup_lt_is_Some_2 ps (3 * i + Z.to_nat d)) as [v Hv]; [lia|].
      exists v. split; [done|]. split; [done|]. by eapply Forall_lookup_1 in Hall. }
    destruct (Hat 0) as (v0 & E0 & L0 & [F0 _]); [lia|].
    destruct (Hat 1) as (v1 & E1 & L1 & [F1 _]); [lia|].
    destruct (Hat 2) as (v2 & E2 & L2 & [F2 T2]); [lia|].
    rewrite Z.add_0_r in E0.
    unfold compose, vertex_at, stored, Three.Vector3_new. rewrite E0, E1, E2.
    cbn [default Three.x Three.y Three.z].
    assert (Hz : fround (if truthy v2 then v2 else Three.zero) = v2).
    { destruct T2 as [T2| ->]; [by rewrite T2|done]. }
    unfold id. rewrite F0, F1, Hz.
    destruct c as [|[|[|c]]]; [| | |lia]; cbn [lookup list_lookup].
    + rewrite <- L0. f_equal.
    + rewrite <- L1. f_equal.
    + rewrite <- L2. f_equal.
Qed.

End OverlayShapes.

Section OverlayShapeWitnesses.

Import Js Overlay.



Definition two_point_stroke : Annotation :=
  {| type := Json.str "freehand"; positions := Some (of_Z <$> [1; 2; 3; 4; 5; 6]);
     radius := None; color := None |}.

Lemma X10_freehand_stroke_witness :
  annotation_step cos_at sin_at [] two_point_stroke
    = [Line (of_Z <$> [1; 2; 3; 4; 5; 6]) highlight (lit 8 1)].
Proof.
  destruct (X10_freehand_stroke cos_at sin_at [] two_point_stroke (of_Z <$> [1; 2; 3; 4; 5; 6])
              eq_refl eq_refl) as (numbers & Hstep & _ & Hsame).
  - simpl. lia.
  - rewrite Hstep. rewrite Hsame; [reflexivity|reflexivity|].
    repeat constructor.
Defined.

End OverlayShapeWitnesses.

(** ** The load handler and the buttons

    The effect of the component fetches the file, decodes it, draws the
    subset, frames it, builds the overlay and fills the statistics; an
    exception anywhere in that chain ends in the status line.  The page is
    written out as a record: the scene, the camera and the controller, the
    values that the component keeps in [stateRef], and the texts of the
    elements that it writes to. *)

Module Viewer.

Import Js DataView Lssnap.

Inductive Variant : Type :=
  | OrbitVariant
  | TrackballVariant (filter : bool).

Inductive Object3D : Type :=
  | AmbientLight
  | Points (positions colors : list num)
  | Group (children : list Overlay.Primitive).

(** What the chain can be rejected with: the error of the first handler,
    [new Error('HTTP ' + r.status)], or an exception of the second. *)
Inductive Failure : Type :=
  | Http (status : Z)
  | Exception (e : exn).

(** The status line: its initial text, ['Error: ' + err.message], or
    hidden. *)
Inductive Status : Type :=
  | Loading
  | ErrorText (f : Failure)
  | Hidden.

(** The three numbers of the statistics row: [data.vertexCount],
    [data.annotations.length] and the byte count given to [formatBytes]. *)
Record Stats : Type := { verts : Z; annots : Z; bytes : num }.

(** The response as the first handler reads it: [r.ok], [r.status], the
    number that [parseInt] makes of the content-length header (of '0'
    without one), and the body. *)
Record Response : Type := {
  ok : bool;
  status : Z;
  contentLength : num;
  body : buffer
}.

(** The colour [0x0a0a0f] of the dark background. *)
Definition dark : Z := 657935.

Section Handlers.

Variables Math_cos Math_sin : num -> num.
Variable Controls : Type.
Variable controls_update :
  Controls -> Three.Camera -> Three.Vector3 -> Controls * Three.Camera * Three.Vector3.

Record Page : Type := {
  view : Trackball.State Controls;   (* camera, controls and its target, the autorotate flag *)
  background : option Z;             (* scene.background, null or a colour *)
  children : list Object3D;          (* of the scene *)
  material : option num;             (* s.material.size *)
  initial : option (Three.Vector3 * Three.Vector3);   (* s.initialPos, s.initialTarget *)
  darkBg : bool;
  stats : option Stats;              (* the dashes, or the numbers *)
  statusLine : Status;
  uiShown : bool;                    (* display of the controls: flex or none *)
  bgLabel : string;
  autoRotateLabel : string
}.

(** The page when the effect has run and the response has not arrived. *)
Definition mounted (controls : Controls) : Page :=
  {| view := Trackball.Build_State Framer.initial_camera
               {| Three.x := Three.zero; Three.y := Three.zero; Three.z := Three.zero |}
               controls true;
     background := None;
     children := [AmbientLight];
     material := None;
     initial := None;
     darkBg := false;
     stats := None;
     statusLine := Loading;
     uiShown := false;
     bgLabel := "Dark Bg";
     autoRotateLabel := "Auto-Rotate: ON" |}.

(** The points that are drawn. *)
Definition subset (variant : Variant) (data : LssnapData) : list num * list num :=
  match variant with
  | OrbitVariant => Filter.orbit_subset data
  | TrackballVariant filter => Filter.trackball_subset filter data
  end.

Definition frame (variant : Variant) (camera : Three.Camera) (geo : list num) : Framer.Framed :=
  match variant with
  | OrbitVariant => Framer.frame_orbit camera geo
  | TrackballVariant _ => Framer.frame_trackball camera geo
  end.

(** The passes of [for (const ann of data.annotations)] over the items of
    an array.  Reading [ann.positions] throws a TypeError on [null] and
    gives [undefined] on a boolean, a number, a string and an array, which
    the guard passes over; an object is a record of the [Annotation]
    interface, or outside of what is modelled ([None]). *)
Fixpoint overlay_loop (items : list Json.value) (annGroup : list Overlay.Primitive)
    : option (result (list Overlay.Primitive)) :=
  match items with
  | [] => Some (Ok annGroup)
  | item :: rest =>
      match item with
      | Json.JNull => Some (Throw TypeError)
      | Json.JObj _ =>
          match Overlay.annotation_of item with
          | Some ann => overlay_loop rest (Overlay.annotation_step Math_cos Math_sin annGroup ann)
          | None => None
          end
      | _ => overlay_loop rest annGroup
      end
  end.

(** The loop over whatever [data.annotations] holds, and
    [data.annotations.length] after it.  A string is iterated by
    characters, none of which has positions; [null], a boolean, a number
    and an object are not iterable. *)
Definition overlay (annotations : Json.value)
    : option (result (list Overlay.Primitive * Z)) :=
  match annotations with
  | Json.JArr items =>
      match overlay_loop items [] with
      | Some (Ok annGroup) => Some (Ok (annGroup, Z.of_nat (length items)))
      | Some (Throw e) => Some (Throw e)
      | None => None
      end
  | Json.JStr s => Some (Ok ([], Z.of_nat (length s)))
  | _ => Some (Throw TypeError)
  end.

(** The catch at the end of the chain. *)
Definition rejected (f : Failure) (p : Page) : Page :=
  {| view := view p; background := background p; children := children p;
     material := material p; initial := initial p; darkBg := darkBg p;
     stats := stats p; statusLine := ErrorText f; uiShown := uiShown p;
     bgLabel := bgLabel p; autoRotateLabel := autoRotateLabel p |}.

(** The second handler of the chain, on the buffer, and the catch. *)
Definition on_buffer (variant : Variant) (byteLength0 : num) (buffer : buffer) (p : Page)
    : option Page :=
  let byteLength :=
    if truthy byteLength0 then byteLength0 else of_Z (DataView.byteLength buffer) in
  match parseLssnap buffer with
  | Throw e => Some (rejected (Exception e) p)
  | Ok data =>
      let '(finalPositions, finalColors) := subset variant data in
      let children := children p ++ [Points finalPositions finalColors] in
      let framed := frame variant (Trackball.camera (view p)) finalPositions in
      let '(controls, camera, target) :=
        controls_update (Trackball.controls (view p)) (Framer.camera framed)
          (Framer.target framed) in
      let view := Trackball.Build_State camera target controls
                    (Trackball.autoRotating (view p)) in
      let initial := Some (Three.position camera, target) in
      let drawn :=
        {| view := view; background := background p; children := children;
           material := Some (of_Z 3); initial := initial; darkBg := darkBg p;
           stats := stats p; statusLine := statusLine p; uiShown := uiShown p;
           bgLabel := bgLabel p; autoRotateLabel := autoRotateLabel p |} in
      match overlay (annotations data) with
      | None => None
      | Some (Throw e) => Some (rejected (Exception e) drawn)
      | Some (Ok (annGroup, count)) =>
          Some {| view := view; background := background p;
                  children := children ++ [Group annGroup];
                  material := Some (of_Z 3); initial := initial; darkBg := darkBg p;
                  stats := Some {| verts := vertexCount data; annots := count;
                                   bytes := byteLength |};
                  statusLine := Hidden; uiShown := true;
                  bgLabel := bgLabel p; autoRotateLabel := autoRotateLabel p |}
      end
  end.

(** The whole chain on a response. *)
Definition on_response (variant : Variant) (r : Response) (p : Page) : option Page :=
  if negb (ok r) then Some (rejected (Http (status r)) p)
  else on_buffer variant (contentLength r) (body r) p.

(** [handlePointSize], on the number that [parseFloat] makes of the
    slider value. *)
Definition handlePointSize (v : num) (p : Page) : Page :=
  match material p with
  | Some _ =>
      {| view := view p; background := background p; children := children p;
         material := Some v; initial := initial p; darkBg := darkBg p;
         stats := stats p; statusLine := statusLine p; uiShown := uiShown p;
         bgLabel := bgLabel p; autoRotateLabel := autoRotateLabel p |}
  | None => p
  end.

Definition handleBgToggle (p : Page) : Page :=
  let darkBg := negb (darkBg p) in
  {| view := view p; background := if darkBg then Some dark else None;
     children := children p; material := material p; initial := initial p;
     darkBg := darkBg; stats := stats p; statusLine := statusLine p;
     uiShown := uiShown p; bgLabel := if darkBg then "Clear" else "Dark";
     autoRotateLabel := autoRotateLabel p |}.

Definition handleReset (p : Page) : Page :=
  match initial p with
  | Some (initialPos, initialTarget) =>
      let '(controls, camera, target) :=
        controls_update (Trackball.controls (view p))
          (Three.set_position (Trackball.camera (view p)) initialPos) initialTarget in
      {| view := Trackball.Build_State camera target controls
                   (Trackball.autoRotating (view p));
         background := background p; children := children p; material := material p;
         initial := initial p; darkBg := darkBg p; stats := stats p;
         statusLine := statusLine p; uiShown := uiShown p; bgLabel := bgLabel p;
         autoRotateLabel := autoRotateLabel p |}
  | None => p
  end.

(** [handleAutoRotate] of the trackball variant, with the caption. *)
Definition handleAutoRotate (p : Page) : Page :=
  let view := Trackball.handleAutoRotate (view p) in
  {| view := view; background := background p; children := children p;
     material := material p; initial := initial p; darkBg := darkBg p;
     stats := stats p; statusLine := statusLine p; uiShown := uiShown p;
     bgLabel := bgLabel p;
     autoRotateLabel :=
       "Auto-Rotate: " +:+ (if Trackball.autoRotating view then "ON" else "OFF") |}.

(** One frame of the trackball variant. *)
Definition frame_tick (p : Page) : Page :=
  {| view := Trackball.animate Math_cos Math_sin controls_update (view p);
     background := background p; children := children p; material := material p;
     initial := initial p; darkBg := darkBg p; stats := stats p;
     statusLine := statusLine p; uiShown := uiShown p; bgLabel := bgLabel p;
     autoRotateLabel := autoRotateLabel p |}.

(** What happens to a page of the trackball variant between mounting and
    unmounting, the response apart. *)
Inductive Event : Type :=
  | Tick
  | PointSize (v : num)
  | BgToggle
  | Reset
  | AutoRotate.

Definition handle (p : Page) (e : Event) : Page :=
  match e with
  | Tick => frame_tick p
  | PointSize v => handlePointSize v p
  | BgToggle => handleBgToggle p
  | Reset => handleReset p
  | AutoRotate => handleAutoRotate p
  end.

Definition run (p : Page) (events : list Event) : Page := foldl handle p events.

End Handlers.

Arguments Build_Page {Controls} _ _ _ _ _ _ _ _ _ _ _.
Arguments view {Controls} p.
Arguments background {Controls} p.
Arguments children {Controls} p.
Arguments material {Controls} p.
Arguments initial {Controls} p.
Arguments darkBg {Controls} p.
Arguments stats {Controls} p.
Arguments statusLine {Controls} p.
Arguments uiShown {Controls} p.
Arguments bgLabel {Controls} p.
Arguments autoRotateLabel {Controls} p.
Arguments mounted {Controls} controls.
Arguments rejected {Controls} f p.
Arguments on_buffer Math_cos Math_sin {Controls} controls_update variant byteLength0 buffer p.
Arguments on_response Math_cos Math_sin {Controls} controls_update variant r p.
Arguments handlePointSize {Controls} v p.
Arguments handleBgToggle {Controls} p.
Arguments handleReset {Controls} controls_update p.
Arguments handleAutoRotate {Controls} p.
Arguments frame_tick Math_cos Math_sin {Controls} controls_update p.
Arguments handle Math_cos Math_sin {Controls} controls_update p e.
Arguments run Math_cos Math_sin {Controls} controls_update p events.

End Viewer.

Section LoadFacts.

Import Js DataView Lssnap Viewer.

Variables Math_cos Math_sin : num -> num.
Variable Controls : Type.
Variable controls_update :
  Controls -> Three.Camera -> Three.Vector3 -> Controls * Three.Camera * Three.Vector3.

(** A buffer that holds a snapshot: the header, a vertex count that is
    not negative, the annotation length, and the whole vertex section. *)
Definition well_formed (buf : buffer) : Prop :=
  take 3 buf = Wire.magic /\ buf !! 3%nat = Some Wire.version
  /\ exists vc alen,
       getInt32 buf 4 = Ok vc /\ getInt32 buf 8 = Ok alen
       /\ 0 <= vc /\ (vc = 0 \/ 16 + 9 * vc <= byteLength buf).

Lemma well_formed_decodes (buf : buffer) :
  well_formed buf <-> exists snap, parseLssnap buf = Ok snap.
Proof.
  split.
  - intros (Hm & Hv & vc & alen & Hvc & Hal & Hpos & Hlen).
    rewrite parseLssnap_header_ok by done.
    destruct (after_header_ok buf vc alen Hvc Hal Hpos Hlen) as (ps & cs & Hrun & _).
    eexists. exact Hrun.
  - intros [snap Hrun].
    destruct (parseLssnap_complete buf snap Hrun) as (alen & Hvc & Hal & Hpos & Hlen).
    apply parseLssnap_inv in Hrun as (Hm & Hv & _).
    split; [done|]. split; [done|]. by exists (vertexCount snap), alen.
Qed.

(** An object of the scene that is a point cloud. *)
Definition is_points (o : Object3D) : Prop :=
  match o with
  | Points _ _ => True
  | _ => False
  end.

Lemma overlay_loop_records (items : list Json.value) (anns : list Overlay.Annotation)
    (annGroup : list Overlay.Primitive) :
  mapM Overlay.annotation_of items = Some anns ->
  overlay_loop Math_cos Math_sin items annGroup
    = Some (Ok (foldl (Overlay.annotation_step Math_cos Math_sin) annGroup anns))
  /\ length anns = length items.
Proof.
  revert anns annGroup. induction items as [|item items IH]; intros anns annGroup H.
  - injection H as <-. done.
  - cbn [mapM] in H. destruct (Overlay.annotation_of item) as [ann|] eqn:E; [|done].
    cbn [mbind option_bind] in H.
    destruct (mapM Overlay.annotation_of items) as [anns'|] eqn:E'; [|done].
    injection H as <-. destruct (IH anns' (Overlay.annotation_step Math_cos Math_sin annGroup ann)
                                   eq_refl) as [Hrun Hlen].
    destruct item; try done. cbn [overlay_loop]. rewrite E, Hrun. cbn [foldl length].
    by rewrite Hlen.
Qed.

Lemma overlay_records (v : Json.value) (anns : list Overlay.Annotation) :
  Overlay.annotations_of v = Some anns ->
  overlay Math_cos Math_sin v
    = Some (Ok (Overlay.build Math_cos Math_sin anns, Z.of_nat (length anns))).
Proof.
  destruct v as [| | | |items|]; try done. intros H.
  destruct (overlay_loop_records items anns [] H) as [Hrun Hlen].
  cbn [overlay]. rewrite Hrun. unfold Overlay.build. by rewrite Hlen.
Qed.

(** An item that the loop gets past; a value that stops the loop with a
    TypeError: one that is not iterable, or an array with a [null] behind
    items that the loop gets past. *)
Definition passable (item : Json.value) : Prop :=
  match item with
  | Json.JNull => False
  | Json.JObj _ => is_Some (Overlay.annotation_of item)
  | _ => True
  end.

Definition breaks (v : Json.value) : Prop :=
  match v with
  | Json.JNull | Json.JBool _ | Json.JNum _ | Json.JObj _ => True
  | Json.JStr _ => False
  | Json.JArr items =>
      exists before after, items = before ++ Json.JNull :: after /\ Forall passable before
  end.

Lemma overlay_loop_null (before after : list Json.value) (annGroup : list Overlay.Primitive) :
  Forall passable before ->
  overlay_loop Math_cos Math_sin (before ++ Json.JNull :: after) annGroup = Some (Throw TypeError).
Proof.
  intros H. revert annGroup. induction H as [|item before Hi _ IH]; intros annGroup; [done|].
  destruct item; try done; cbn [app overlay_loop]; try apply IH.
  destruct Hi as [ann Hi]. rewrite Hi. apply IH.
Qed.

Lemma overlay_breaks (v : Json.value) :
  breaks v -> overlay Math_cos Math_sin v = Some (Throw TypeError).
Proof.
  destruct v as [| | | |items|]; try done.
  intros (before & after & -> & H). cbn [overlay]. by rewrite overlay_loop_null.
Qed.

(** X11: nothing is drawn from a buffer that holds no snapshot.  When the
    response is not ok, or the body is not a well-formed buffer (and only
    then does [parseLssnap] throw), the chain ends in the catch with the
    page as it was, the status line apart: no point cloud in the scene,
    the camera where it was, the statistics and the controls untouched. *)
Theorem X11_nothing_drawn_on_failure (variant : Variant) (r : Response) (p : Page Controls) :
  ok r = false \/ ~ well_formed (body r) ->
  exists f,
    on_response Math_cos Math_sin controls_update variant r p = Some (rejected f p)
    /\ (ok r = false -> f = Http (status r))
    /\ (ok r = true -> exists e, f = Exception e /\ parseLssnap (body r) = Throw e)
    /\ children (rejected f p) = children p
    /\ view (rejected f p) = view p
    /\ stats (rejected f p) = stats p
    /\ uiShown (rejected f p) = uiShown p
    /\ statusLine (rejected f p) = ErrorText f.
Proof.
  intros H. unfold on_response. destruct (ok r) eqn:Eok; cbn [negb].
  - destruct H as [?|Hbad]; [done|].
    destruct (parseLssnap (body r)) as [snap|e] eqn:E.
    { destruct Hbad. apply well_formed_decodes. by exists snap. }
    exists (Exception e). unfold on_buffer. rewrite E.
    split; [done|]. split; [done|]. split; [by intros _; exists e|done].
  - exists (Http (status r)). split; [done|]. split; [done|]. split; [done|done].
Qed.

(** X12: an annotation block that is no list fails the load after the
    cloud is on the screen.  When the buffer decodes and its annotations
    are [null], a boolean, a number or an object (as [parseLssnap] hands
    them on), or a list with a [null] in it, the loop throws a TypeError:
    by then the point cloud is in the scene, the camera is framed and the
    pose stored, and the chain ends in the catch with no overlay, the
    statistics not filled in, the controls not shown and the error in the
    status line. *)
Theorem X12_failure_after_drawing (variant : Variant) (r : Response) (p : Page Controls)
    (data : LssnapData) :
  ok r = true -> parseLssnap (body r) = Ok data -> breaks (annotations data) ->
  exists p',
    on_response Math_cos Math_sin controls_update variant r p = Some p'
    /\ children p' = children p ++ [Points (subset variant data).1 (subset variant data).2]
    /\ statusLine p' = ErrorText (Exception TypeError)
    /\ stats p' = stats p
    /\ uiShown p' = uiShown p
    /\ material p' = Some (of_Z 3)
    /\ initial p' = Some (Three.position (Trackball.camera (view p')), Trackball.target (view p')).
Proof.
  intros Hok Hrun Hbreaks. unfold on_response, on_buffer. rewrite Hok, Hrun. cbn [negb].
  rewrite (overlay_breaks _ Hbreaks).
  destruct (subset variant data) as [finalPositions finalColors].
  destruct (controls_update _ _ _) as [[controls camera] target].
  eexists. split; [reflexivity|]. done.
Qed.

(** X13: a load that succeeds.  When the buffer decodes and its
    annotations are a list of annotation records, the scene gains the
    point cloud and then the overlay group, the status line is hidden and
    the controls are shown.  The statistics show the vertex count of the
    snapshot and the number of annotation records, not what is drawn: the
    cloud has at most that many vertices (the filter may drop some) and
    the overlay at most that many primitives (the builder may skip some);
    the byte count is the content length when the header gives one, else
    the length of the buffer. *)
Theorem X13_successful_load (variant : Variant) (r : Response) (p : Page Controls)
    (data : LssnapData) (anns : list Overlay.Annotation) :
  ok r = true -> parseLssnap (body r) = Ok data ->
  Overlay.annotations_of (annotations data) = Some anns ->
  exists p',
    on_response Math_cos Math_sin controls_update variant r p = Some p'
    /\ children p' = children p ++ [Points (subset variant data).1 (subset variant data).2;
                                    Group (Overlay.build Math_cos Math_sin anns)]
    /\ stats p' = Some {| verts := vertexCount data; annots := Z.of_nat (length anns);
                          bytes := if truthy (contentLength r) then contentLength r
                                   else of_Z (byteLength (body r)) |}
    /\ statusLine p' = Hidden /\ uiShown p' = true
    /\ Z.of_nat (length (subset variant data).1) <= 3 * vertexCount data
    /\ length (subset variant data).1 = length (subset variant data).2
    /\ (length (Overlay.build Math_cos Math_sin anns) <= length anns)%nat.
Proof.
  intros Hok Hrun Hanns. unfold on_response, on_buffer. rewrite Hok, Hrun. cbn [negb].
  rewrite (overlay_records _ _ Hanns).
  assert (Hshape : Z.of_nat (length (subset variant data).1) <= 3 * vertexCount data
                   /\ length (subset variant data).1 = length (subset variant data).2).
  { pose proof Hrun as Hinv. apply parseLssnap_inv in Hinv as (_ & _ & Hinv).
    apply after_header_inv in Hinv as (_ & Hvc & Hlp & Hlc).
    assert (Hfilter : forall h,
              Z.of_nat (length (Filter.filter_block h data).1) <= 3 * vertexCount data
              /\ length (Filter.filter_block h data).1 = length (Filter.filter_block h data).2).
    { intros h. unfold Filter.filter_block. rewrite filter_loop_spec. cbn [fst snd app].
      unfold Filter.Float32Array_from. rewrite !length_fmap, !length_triples.
      split; [|done].
      pose proof (length_filter (kept (Filter.cuts h data) data)
                    (indices_from 0 (Z.to_nat (vertexCount data)))) as H.
      rewrite length_indices_from in H. apply Nat2Z.inj_le in H.
      rewrite Nat2Z.inj_mul. etrans; [apply Z.mul_le_mono_nonneg_l; [lia|exact H]|]. lia. }
    destruct variant as [|[|]]; cbn [subset Filter.orbit_subset Filter.trackball_subset];
      try apply Hfilter.
    cbn [fst snd]. rewrite Hlp, Hlc. split; [lia|done]. }
  assert (Hbuilt : (length (Overlay.build Math_cos Math_sin anns) <= length anns)%nat).
  { rewrite build_concat. clear Hanns.
    induction anns as [|ann anns IH]; csimpl; [done|].
    rewrite length_app. pose proof (annotation_step_at_most_one Math_cos Math_sin ann). lia. }
  destruct (subset variant data) as [finalPositions finalColors].
  destruct (controls_update _ _ _) as [[controls camera] target].
  eexists. split; [reflexivity|]. cbn [children stats statusLine uiShown fst snd] in *.
  rewrite <- app_assoc. destruct Hshape. split_and!; done.
Qed.

End LoadFacts.

Section ButtonFacts.

Import Js DataView Lssnap Viewer.

Variables Math_cos Math_sin : num -> num.
Variable Controls : Type.
Variable controls_update :
  Controls -> Three.Camera -> Three.Vector3 -> Controls * Three.Camera * Three.Vector3.

(** The captions and the background say what the flags are: the caption
    of the autorotate button reads ON with the flag set and OFF without;
    the background is the dark colour with [darkBg] set and transparent
    without; the caption of the background button is the initial one with
    [darkBg] unset, or names the next state. *)
Definition captions_agree (p : Page Controls) : Prop :=
  autoRotateLabel p
    = "Auto-Rotate: " +:+ (if Trackball.autoRotating (view p) then "ON" else "OFF")
  /\ background p = (if darkBg p then Some dark else None)
  /\ ((bgLabel p = "Dark Bg" /\ darkBg p = false)
      \/ bgLabel p = (if darkBg p then "Clear" else "Dark")).

Lemma mounted_agree (controls : Controls) : captions_agree (mounted controls).
Proof. split; [done|]. split; [done|]. by left. Qed.

Lemma animate_flag (s : Trackball.State Controls) :
  Trackball.autoRotating (Trackball.animate Math_cos Math_sin controls_update s)
    = Trackball.autoRotating s.
Proof.
  unfold Trackball.animate. by destruct (controls_update _ _ _) as [[controls camera] target].
Qed.

Lemma handle_agree (p : Page Controls) (e : Event) :
  captions_agree p -> captions_agree (handle Math_cos Math_sin controls_update p e).
Proof.
  intros (Ha & Hb & Hl). destruct e as [|v| | |]; cbn [handle].
  - unfold frame_tick, captions_agree. cbn [autoRotateLabel view background darkBg bgLabel].
    by rewrite animate_flag.
  - unfold handlePointSize. by destruct (material p).
  - unfold handleBgToggle, captions_agree.
    cbn [autoRotateLabel view background darkBg bgLabel]. split; [done|]. split; [done|]. by right.
  - unfold handleReset. destruct (initial p) as [[pos tgt]|]; [|done].
    by destruct (controls_update _ _ _) as [[controls camera] target].
  - unfold handleAutoRotate, captions_agree.
    cbn [autoRotateLabel view background darkBg bgLabel]. done.
Qed.

Lemma run_agree (p : Page Controls) (events : list Event) :
  captions_agree p -> captions_agree (run Math_cos Math_sin controls_update p events).
Proof.
  revert p. induction events as [|e events IH]; intros p H; [done|].
  cbn [run foldl]. apply IH. by apply handle_agree.
Qed.

Lemma rejected_agree (f : Failure) (p : Page Controls) :
  captions_agree p -> captions_agree (rejected f p).
Proof. done. Qed.

Lemma on_response_agree (variant : Variant) (r : Response) (p p' : Page Controls) :
  captions_agree p ->
  on_response Math_cos Math_sin controls_update variant r p = Some p' ->
  captions_agree p'.
Proof.
  intros H. unfold on_response, on_buffer.
  destruct (negb (ok r)); [by intros [= <-]|].
  destruct (parseLssnap (body r)) as [data|e]; [|by intros [= <-]].
  destruct (subset variant data) as [finalPositions finalColors].
  destruct (controls_update _ _ _) as [[controls camera] target].
  destruct (overlay _ _ _) as [[[annGroup count]|e]|]; [| |done]; by intros [= <-].
Qed.

(** X14: the captions never come apart from the state.  From mounting
    on, through any frames and clicks before the response, the load
    whatever its outcome, and any frames and clicks after it, the caption
    of the autorotate button tells whether the camera is being turned and
    the background is dark exactly when the flag is set; once the
    background button has been clicked its caption names the state that
    the next click gives, the initial caption never coming back. *)
Theorem X14_captions_follow_state (filter : bool) (r : Response) (controls : Controls)
    (before after : list Event) (p' : Page Controls) :
  on_response Math_cos Math_sin controls_update (TrackballVariant filter) r
    (run Math_cos Math_sin controls_update (mounted controls) before) = Some p' ->
  let q := run Math_cos Math_sin controls_update p' after in
  (autoRotateLabel q = "Auto-Rotate: ON" <-> Trackball.autoRotating (view q) = true)
  /\ (background q = Some dark <-> darkBg q = true)
  /\ (bgLabel q = "Clear" <-> darkBg q = true)
  /\ (darkBg q = true \/ BgToggle ∈ before ++ after -> bgLabel q <> "Dark Bg").
Proof.
  intros Hload q.
  assert (Hq : captions_agree q).
  { apply run_agree. eapply on_response_agree; [|exact Hload]. apply run_agree, mounted_agree. }
  destruct Hq as (Ha & Hb & Hl). rewrite Ha, Hb.
  split; [by destruct (Trackball.autoRotating (view q))|].
  split; [by destruct (darkBg q)|].
  split; [destruct Hl as [[-> ->]| ->]; by destruct (darkBg q)|].
  intros [Hd|Hin]; [destruct Hl as [[_ Hl]| ->]; [congruence|by rewrite Hd]|].
  assert (Hlabel : forall (p : Page Controls) es,
            bgLabel p <> "Dark Bg" ->
            bgLabel (run Math_cos Math_sin controls_update p es) <> "Dark Bg").
  { intros p es. revert p. induction es as [|e es IH]; intros p Hp; [done|].
    cbn [run foldl]. apply IH. destruct e as [|v| | |]; cbn [handle]; try done.
    - unfold handlePointSize. by destruct (material p).
    - unfold handleBgToggle. cbn [bgLabel]. by destruct (negb (darkBg p)).
    - unfold handleReset. destruct (initial p) as [[pos tgt]|]; [|done].
      by destruct (controls_update _ _ _) as [[c camera] target]. }
  assert (Htoggle : forall (p : Page Controls) es,
            BgToggle ∈ es -> bgLabel (run Math_cos Math_sin controls_update p es) <> "Dark Bg").
  { intros p es. revert p. induction es as [|e es IH]; intros p Hp.
    - by apply elem_of_nil in Hp.
    - cbn [run foldl]. apply elem_of_cons in Hp as [<-|Hp]; [|by apply IH].
      apply Hlabel. cbn [handle]. unfold handleBgToggle. cbn [bgLabel].
      by destruct (negb (darkBg p)). }
  apply elem_of_app in Hin as [Hin|Hin]; [|by apply Htoggle].
  apply Hlabel.
  assert (Hbefore : bgLabel (run Math_cos Math_sin controls_update (mounted controls) before)
                    <> "Dark Bg") by by apply Htoggle.
  revert Hload Hbefore. generalize (run Math_cos Math_sin controls_update (mounted controls) before).
  intros p Hload Hp. unfold on_response, on_buffer in Hload.
  destruct (negb (ok r)); [by injection Hload as <-|].
  destruct (parseLssnap (body r)) as [data|e]; [|by injection Hload as <-].
  destruct (subset (TrackballVariant filter) data) as [finalPositions finalColors].
  destruct (controls_update _ _ _) as [[c camera] target].
  destruct (overlay _ _ _) as [[[annGroup count]|e]|]; [| |done]; by injection Hload as <-.
Qed.

Lemma handle_initial (p : Page Controls) (e : Event) :
  initial (handle Math_cos Math_sin controls_update p e) = initial p
  /\ children (handle Math_cos Math_sin controls_update p e) = children p
  /\ stats (handle Math_cos Math_sin controls_update p e) = stats p.
Proof.
  destruct e as [|v| | |]; cbn [handle]; try done.
  - unfold handlePointSize. by destruct (material p).
  - unfold handleReset. destruct (initial p) as [[pos tgt]|] eqn:E; [|done].
    by destruct (controls_update _ _ _) as [[controls camera] target].
Qed.

(** X15: Reset always goes back to the pose of the load.  No frame and
    no click changes the stored pose, the scene or the statistics, so
    after any of them Reset hands the controller the camera at the
    position stored by the load, with the target stored by the load; the
    up axis, the orientation and the autorotate flag are the ones of the
    moment, Reset restoring none of them. *)
Theorem X15_reset_returns_to_load_pose (p : Page Controls) (events : list Event)
    (initialPos initialTarget : Three.Vector3) :
  initial p = Some (initialPos, initialTarget) ->
  let q := run Math_cos Math_sin controls_update p events in
  let camera := Trackball.camera (view q) in
  let updated :=
    controls_update (Trackball.controls (view q))
      {| Three.position := initialPos; Three.up := Three.up camera;
         Three.quaternion := Three.quaternion camera |} initialTarget in
  initial q = Some (initialPos, initialTarget)
  /\ children q = children p /\ stats q = stats p
  /\ view (handleReset controls_update q)
     = Trackball.Build_State updated.1.2 updated.2 updated.1.1 (Trackball.autoRotating (view q)).
Proof.
  intros Hinit q camera updated.
  assert (Hq : initial q = initial p /\ children q = children p /\ stats q = stats p).
  { unfold q. clear Hinit q camera updated. revert p.
    induction events as [|e events IH]; intros p; [done|].
    cbn [run foldl]. destruct (handle_initial p e) as (Hi & Hc & Hs).
    destruct (IH (handle Math_cos Math_sin controls_update p e)) as (Hi' & Hc' & Hs').
    split; [by rewrite <- Hi|]. split; [by rewrite <- Hc|by rewrite <- Hs]. }
  destruct Hq as (Hi & Hc & Hs). rewrite Hinit in Hi.
  split; [done|]. split; [done|]. split; [done|].
  unfold handleReset. rewrite Hi.
  change (Three.set_position (Trackball.camera (view q)) initialPos)
    with {| Three.position := initialPos; Three.up := Three.up camera;
            Three.quaternion := Three.quaternion camera |}.
  fold updated. by destruct updated as [[c cam] tgt].
Qed.

End ButtonFacts.

Section ViewerWitnesses.

Import Js DataView Lssnap Viewer.

(** The sample points followed by the two sample annotations, and the
    responses that carry this buffer, a buffer with a wrong magic, and a
    buffer whose annotation block is an object. *)
Definition annotated_buffer : buffer :=
  Wire.encode sample_points (Wire.byte_of <$> sample_annotation_text).

Definition response_of (body : buffer) : Response :=
  {| ok := true; status := 200; contentLength := of_Z 0; body := body |}.

Lemma annotated_buffer_decodes :
  exists data,
    parseLssnap annotated_buffer = Ok data
    /\ vertexCount data = 2
    /\ Overlay.annotations_of (annotations data) = Some [short_freehand; point_at_origin].
Proof. eexists. split; [vm_compute; reflexivity|]. split; vm_compute; reflexivity. Qed.

Lemma X11_nothing_drawn_on_failure_witness :
  exists f,
    on_response cos_at sin_at idle_controls OrbitVariant (response_of bad_magic_buffer)
      (mounted tt) = Some (rejected f (mounted tt))
    /\ children (rejected f (mounted tt)) = [AmbientLight]
    /\ statusLine (rejected f (mounted tt)) = ErrorText f.
Proof.
  destruct (X11_nothing_drawn_on_failure cos_at sin_at unit idle_controls OrbitVariant
              (response_of bad_magic_buffer) (mounted tt))
    as (f & Hrun & _ & _ & Hc & _ & _ & _ & Hs).
  - right. intros (Hm & _). vm_compute in Hm. discriminate Hm.
  - exists f. split; [exact Hrun|]. split; [exact Hc|exact Hs].
Defined.

Lemma X12_failure_after_drawing_witness :
  exists p',
    on_response cos_at sin_at idle_controls OrbitVariant (response_of object_block_buffer)
      (mounted tt) = Some p'
    /\ children p' = [AmbientLight; Points [] []]
    /\ statusLine p' = ErrorText (Exception TypeError)
    /\ stats p' = None
    /\ uiShown p' = false.
Proof.
  destruct (X12_failure_after_drawing cos_at sin_at unit idle_controls OrbitVariant
              (response_of object_block_buffer) (mounted tt)
              {| vertexCount := 0; positions := []; colors := []; annotations := Json.JObj [] |})
    as (p' & Hrun & Hc & Hs & Hst & Hui & _); [reflexivity|reflexivity|exact I|].
  exists p'. split; [exact Hrun|]. split; [exact Hc|]. split; [exact Hs|].
  split; [exact Hst|exact Hui].
Defined.

Lemma X13_successful_load_witness :
  exists p' data,
    parseLssnap annotated_buffer = Ok data
    /\ on_response cos_at sin_at idle_controls (TrackballVariant false)
         (response_of annotated_buffer) (mounted tt) = Some p'
    /\ children p' = [AmbientLight; Points (positions data) (colors data); Group [origin_marker]]
    /\ stats p' = Some {| verts := 2; annots := 2; bytes := of_Z (byteLength annotated_buffer) |}
    /\ statusLine p' = Hidden /\ uiShown p' = true.
Proof.
  destruct annotated_buffer_decodes as (data & Hrun & Hvc & Hanns).
  destruct (X13_successful_load cos_at sin_at unit idle_controls (TrackballVariant false)
              (response_of annotated_buffer) (mounted tt) data
              [short_freehand; point_at_origin] eq_refl Hrun Hanns)
    as (p' & Hload & Hc & Hst & Hs & Hui & _).
  exists p', data. split; [exact Hrun|]. split; [exact Hload|].
  split; [exact Hc|]. split; [|by split]. rewrite Hst, Hvc. reflexivity.
Defined.

Lemma X14_captions_follow_state_witness :
  exists p',
    on_response cos_at sin_at idle_controls (TrackballVariant true)
      (response_of annotated_buffer) (run cos_at sin_at idle_controls (mounted tt) [Tick])
      = Some p'
    /\ let q := run cos_at sin_at idle_controls p' [BgToggle; Tick; AutoRotate] in
       (autoRotateLabel q = "Auto-Rotate: ON" <-> Trackball.autoRotating (view q) = true)
       /\ (background q = Some dark <-> darkBg q = true)
       /\ (bgLabel q = "Clear" <-> darkBg q = true)
       /\ (darkBg q = true \/ BgToggle ∈ [Tick] ++ [BgToggle; Tick; AutoRotate]
           -> bgLabel q <> "Dark Bg").
Proof.
  destruct (on_response cos_at sin_at idle_controls (TrackballVariant true)
              (response_of annotated_buffer)
              (run cos_at sin_at idle_controls (mounted tt) [Tick])) as [p'|] eqn:E.
  - exists p'. split; [reflexivity|].
    exact (X14_captions_follow_state cos_at sin_at unit idle_controls true
             (response_of annotated_buffer) tt [Tick] [BgToggle; Tick; AutoRotate] p' E).
  - vm_compute in E. discriminate E.
Defined.

Lemma X15_reset_returns_to_load_pose_witness :
  exists p' initialPos initialTarget,
    on_response cos_at sin_at idle_controls (TrackballVariant true)
      (response_of annotated_buffer) (mounted tt) = Some p'
    /\ initial p' = Some (initialPos, initialTarget)
    /\ let q := run cos_at sin_at idle_controls p' [Tick; Tick; BgToggle] in
       initial q = Some (initialPos, initialTarget)
       /\ Three.position (Trackball.camera (view (handleReset idle_controls q))) = initialPos
       /\ Trackball.target (view (handleReset idle_controls q)) = initialTarget.
Proof.
  assert (E : exists p' initialPos initialTarget,
            on_response cos_at sin_at idle_controls (TrackballVariant true)
              (response_of annotated_buffer) (mounted tt) = Some p'
            /\ initial p' = Some (initialPos, initialTarget)).
  { vm_compute. eexists _, _, _. split; reflexivity. }
  destruct E as (p' & initialPos & initialTarget & Hload & Hinit).
  exists p', initialPos, initialTarget. split; [exact Hload|]. split; [exact Hinit|].
  intros q.
  destruct (X15_reset_returns_to_load_pose cos_at sin_at unit idle_controls p'
              [Tick; Tick; BgToggle] initialPos initialTarget Hinit) as (Hi & _ & _ & Hview).
  fold q in Hi, Hview. split; [exact Hi|]. rewrite Hview. split; reflexivity.
Defined.

End ViewerWitnesses.
